(** * Slack photo-update script: a shallow embedding and its properties

    The development follows the layout of the repository:
    - [Py]: the fragment of Python the sources rely on (values, truthiness,
      exceptions, the [str] methods that are called);
    - [Runtime]: the process state (wall clock, debounce table, log, remote
      calls issued) and the error/state monad the coroutines run in;
    - [SlackConnector]: [utils/slack_connector.py];
    - [CsvManager]: [utils/csv_manager.py] with the instruction shapes of
      [data_models/instruction_entries.py];
    - [UpdatePhoto]: [core/update_photo.py];
    - [Scenarios]: concrete platforms, files and users;
    - [Observations]: the vocabulary of the statements;
    - [ScimOperations], [WebOperations], [CsvWriting], [Main]: the other
      operations of the connector, the write mode of the instruction
      manager and the commands of [main.py], with [Cases] and
      [FurtherObservations] for their statements.

    Conventions.  Text is ASCII text ([string]).  Timestamps and durations are
    seconds, kept as exact rationals ([Q]); Python computes them with
    [datetime] and [float].  Executing a statement takes no
    time: the clock moves only in [asyncio.sleep] and between calls.  Only
    exceptions deriving from [Exception] are modelled. *)

From Stdlib Require Import Ascii String QArith Lqa.
From stdpp Require Import gmap strings list fin_maps pretty.

Local Open Scope string_scope.
Local Open Scope Z_scope.

(** ** Python values and exceptions *)

Module Py.

(** Scalar values found in the remote API's replies. *)
Inductive value :=
| VNone
| VBool (b : bool)
| VInt (z : Z)
| VStr (s : string).

#[global] Instance value_eq_dec : EqDecision value.
Proof. solve_decision. Defined.

(** A [dict] with string keys. *)
Abbreviation dict := (gmap string value).

(** [bool(v)] *)
Definition truthy (v : value) : bool :=
  match v with
  | VNone => false
  | VBool b => b
  | VInt z => negb (z =? 0)
  | VStr s => negb (String.eqb s "")
  end.

(** [bool(d)] for a dict: empty dicts are falsy. *)
Definition dict_truthy (d : dict) : bool := negb (bool_decide (d = ∅)).

(** Exceptions; all of them derive from [Exception].  The five classes of
    [slack_connector.py] derive from [ValueError]; so does pydantic's
    [ValidationError]. *)
Inductive exn :=
| BadUsernameError (body : dict)
| UnknownSlackUserCreationError (body : dict)
| UserIsActiveError
| UserAlreadyExistsError
| MultipleUsersWithSameEmailError (msg : string)
| ValueError (arg : value)
| ValidationError (errors : list (string * string))
| TypeError (msg : string)
| KeyError (key : string)
| AttributeError (msg : string)
| ZeroDivisionError
| FileNotFoundError (filename : string)
| Exception_ (msg : string)
| SlackApiError (msg : string).

(** [isinstance(e, ValueError)] *)
Definition is_ValueError (e : exn) : bool :=
  match e with
  | BadUsernameError _ | UnknownSlackUserCreationError _ | UserIsActiveError
  | UserAlreadyExistsError | MultipleUsersWithSameEmailError _
  | ValueError _ | ValidationError _ => true
  | _ => false
  end.

(** [isinstance(e, BadUsernameError)] *)
Definition is_BadUsernameError (e : exn) : bool :=
  match e with BadUsernameError _ => true | _ => false end.

Inductive result (A : Type) :=
| Ok (a : A)
| Raise (e : exn).
Arguments Ok {A} a.
Arguments Raise {A} e.

(** [d[k]] *)
Definition getitem (d : dict) (k : string) : result value :=
  match d !! k with
  | Some v => Ok v
  | None => Raise (KeyError k)
  end.

(** *** [str] methods

    A [string] is a sequence of characters with codes below 256.  On ASCII
    text, where a character is one code point, the functions below are
    those of Python; [isascii] is the test.  On other text Python's
    [lower] and [len] work on code points: the properties of derived
    domains and of prepared names are stated of ASCII names. *)

(** [s.isascii()] *)
Definition isascii (s : string) : bool :=
  forallb (fun c => (nat_of_ascii c <? 128)%nat) (list_ascii_of_string s).

(** [c.isspace()], which is also what [\s] matches, for an ASCII [c]. *)
Definition isspace (c : ascii) : bool :=
  let n := nat_of_ascii c in
  ((9 <=? n) && (n <=? 13) || (28 <=? n) && (n <=? 32))%nat.

Definition lower_ascii (c : ascii) : ascii :=
  let n := nat_of_ascii c in
  if ((65 <=? n) && (n <=? 90))%nat then ascii_of_nat (n + 32) else c.

(** [s.lower()] for an ASCII [s] *)
Fixpoint lower (s : string) : string :=
  match s with
  | EmptyString => EmptyString
  | String c s' => String (lower_ascii c) (lower s')
  end.

(** [s.lstrip()] *)
Fixpoint lstrip (s : string) : string :=
  match s with
  | EmptyString => EmptyString
  | String c s' => if isspace c then lstrip s' else s
  end.

(** [s.rstrip()] *)
Fixpoint rstrip (s : string) : string :=
  match s with
  | EmptyString => EmptyString
  | String c s' =>
      match rstrip s' with
      | EmptyString => if isspace c then EmptyString else String c EmptyString
      | t => String c t
      end
  end.

(** [s.strip()] *)
Definition strip (s : string) : string := rstrip (lstrip s).

(** [re.sub(r"\s+", rep, s)]: every maximal run of whitespace becomes one
    [rep].  [in_run] tells whether the previous character was whitespace. *)
Fixpoint sub_spaces_from (in_run : bool) (rep s : string) : string :=
  match s with
  | EmptyString => EmptyString
  | String c s' =>
      if isspace c
      then (if in_run then sub_spaces_from true rep s'
            else rep ++ sub_spaces_from true rep s')
      else String c (sub_spaces_from false rep s')
  end.

Definition re_sub_spaces (rep s : string) : string :=
  sub_spaces_from false rep s.

(** [s.split(sep)[0]] for a one-character separator: the text before the
    first [sep], the whole of [s] when there is none. *)
Fixpoint split_head (sep : ascii) (s : string) : string :=
  match s with
  | EmptyString => EmptyString
  | String c s' =>
      if Ascii.eqb c sep then EmptyString else String c (split_head sep s')
  end.

(** [len(s)] for an ASCII [s] *)
Definition len (s : string) : Z := Z.of_nat (String.length s).

End Py.

Export Py.

(** ** Process state and the monad of the coroutines *)

Module Runtime.

Inductive level := INFO | WARNING | ERROR.

(** A formatted message is kept as its pieces: literal text and the objects
    an f-string interpolates (their [str()] is not computed). *)
Inductive piece :=
| Lit (s : string)
| OfValue (v : value)
| OfSeconds (q : Q)
| OfExn (e : exn).

(** One record emitted through [log]; [log.exception] emits at [ERROR] and
    attaches the exception being handled. *)
Record log_record := LogRecord {
  levelname : level;
  message : list piece;
  exc_info : option exn
}.

(** The payload built by [fill_scim_user]. *)
Record ScimUser := {
  scim_id : option string;
  userName : string;
  scim_name : option string;
  displayName : string;
  scim_title : option string;
  emails : list (string * bool);
  active : bool;
  department : option string;
  division : option string
}.

(** The [partial_user] argument of [SCIMClient.patch_user]. *)
Inductive partial_user :=
| Photos (urls : list string)
| Active (b : bool).

(** Calls that reach the remote platform. *)
Inductive remote_call :=
| CreateUser (user : ScimUser)
| SearchUsers (count start_index : Z) (filter : string)
| PatchUser (id : value) (partial : partial_user)
| AdminTeamsList
| AdminTeamsCreate (team_name team_domain : string).

(** Replies of the remote platform, with the parts the code reads. *)
Record UserCreateResponse := {
  create_status_code : Z;
  create_body : dict;
  (** [response.errors.description], absent when [response.errors] is
      [None] *)
  create_errors_description : option string
}.

Record SearchUsersResponse := {
  search_status_code : Z;
  (** [response.body.get("Resources")] *)
  Resources : option (list dict)
}.

Record UserPatchResponse := {
  patch_status_code : Z;
  (** [response.underlying.body["Errors"]], absent when the key is *)
  patch_body_Errors : option value
}.

Record team := { team_name : string; team_id : string }.

Record TeamsListResponse := { list_ok : bool; teams : list team }.

Record TeamsCreateResponse := { create_ok : bool; created_team : string }.

(** The remote platform behind [slack_sdk]: each entry point answers, or
    raises, depending on the calls issued so far (oldest first). *)
Record SlackSDK := {
  scim_create_user : list remote_call -> ScimUser -> result UserCreateResponse;
  scim_search_users :
    list remote_call -> Z -> Z -> string -> result SearchUsersResponse;
  scim_patch_user :
    list remote_call -> value -> partial_user -> result UserPatchResponse;
  admin_teams_list : list remote_call -> result TeamsListResponse;
  admin_teams_create :
    list remote_call -> string -> string -> result TeamsCreateResponse
}.

(** What a run can observe and change. *)
Record world := World {
  (** the wall clock, in seconds *)
  clock : Q;
  (** [SlackConnectionManager._debounce_data] *)
  _debounce_data : gmap string Q;
  (** the delays passed to [asyncio.sleep], oldest first *)
  sleeps : list Q;
  (** the records emitted through [log], oldest first *)
  logged : list log_record;
  (** the remote calls issued, oldest first *)
  calls : list remote_call
}.

(** A freshly constructed manager in a process started at time [t]. *)
Definition fresh (t : Q) : world := World t ∅ [] [] [].

(** Time passing outside the code under study. *)
Definition idle (d : Q) (w : world) : world :=
  World (clock w + d) (_debounce_data w) (sleeps w) (logged w) (calls w).

Definition M (A : Type) : Type := world -> result A * world.

#[global] Instance M_ret : MRet M := fun A a w => (Ok a, w).

#[global] Instance M_bind : MBind M := fun A B f m w =>
  match m w with
  | (Ok a, w') => f a w'
  | (Raise e, w') => (Raise e, w')
  end.

(** [raise e] *)
Definition raise {A} (e : exn) : M A := fun w => (Raise e, w).

(** [raise (s)] for a [str] [s]: the operand of [raise] must be an
    exception class or instance, anything else makes the statement itself
    raise [TypeError]. *)
Definition raise_str {A} (s : string) : M A :=
  raise (TypeError "exceptions must derive from BaseException").

(** Lifting of a pure computation that may raise. *)
Definition lift {A} (r : result A) : M A := fun w => (r, w).

(** [try: body  except ...: handler]; [handlers e] is the first clause
    matching [e], if any.  An exception raised by a handler is not handled
    by its sibling clauses. *)
Definition try_except {A} (body : M A) (handlers : exn -> option (M A))
  : M A := fun w =>
  match body w with
  | (Ok a, w') => (Ok a, w')
  | (Raise e, w') =>
      match handlers e with
      | Some handler => handler w'
      | None => (Raise e, w')
      end
  end.

(** [datetime.now(UTC)] *)
Definition datetime_now : M Q := fun w => (Ok (clock w), w).

(** [await asyncio.sleep(delay)]; only called with a positive delay. *)
Definition asyncio_sleep (delay : Q) : M unit := fun w =>
  (Ok tt, World (clock w + delay) (_debounce_data w) (sleeps w ++ [delay])
                (logged w) (calls w)).

Definition get_debounce_data : M (gmap string Q) := fun w =>
  (Ok (_debounce_data w), w).

(** [self._debounce_data[k] = t] *)
Definition set_debounce_data (k : string) (t : Q) : M unit := fun w =>
  (Ok tt, World (clock w) (<[k := t]> (_debounce_data w)) (sleeps w)
                (logged w) (calls w)).

Definition emit (r : log_record) : M unit := fun w =>
  (Ok tt, World (clock w) (_debounce_data w) (sleeps w) (logged w ++ [r])
                (calls w)).

Definition log_info (msg : list piece) : M unit :=
  emit (LogRecord INFO msg None).
Definition log_warning (msg : list piece) : M unit :=
  emit (LogRecord WARNING msg None).
Definition log_error (msg : list piece) : M unit :=
  emit (LogRecord ERROR msg None).
(** [log.exception(msg)] inside the handler of [e] *)
Definition log_exception (msg : list piece) (e : exn) : M unit :=
  emit (LogRecord ERROR msg (Some e)).

(** Issue the remote call [c]: it is recorded, then answered by [answer]
    from the calls issued before it. *)
Definition remote {R} (c : remote_call)
    (answer : list remote_call -> result R) : M R := fun w =>
  (answer (calls w),
   World (clock w) (_debounce_data w) (sleeps w) (logged w) (calls w ++ [c])).

(** [a / b] on integers (true division) *)
Definition truediv (a b : Z) : M Q :=
  if b =? 0 then raise ZeroDivisionError else mret (inject_Z a / inject_Z b)%Q.

(** [a < b] on seconds *)
Definition Qltb (a b : Q) : bool := negb (Qle_bool b a).

End Runtime.

Export Runtime.

(** ** [data_models/] *)

Module DataModels.

(** [data_models/user.py], over [BaseSlackModel] *)
Record User := {
  user_slack_id : option string;
  user_name : string;
  email : string;
  title : option string;
  section : option string;
  extention : option value;
  location : option string
}.

(** Modelled from the spec: [data_models/workspace.py] is not among the
    sources; a Workspace is an identity record with an optional remote id
    and a name, that is, a [BaseSlackModel]. *)
Record Workspace := {
  workspace_slack_id : option string;
  workspace_name : string
}.

End DataModels.

Export DataModels.

(** ** [utils/slack_connector.py] *)

Module SlackConnector.
Section Manager.

(** the remote platform and the [LOG_DEBOUNCING] setting *)
Context (sdk : SlackSDK) (LOG_DEBOUNCING : bool).

Definition _debounce (function_name : string) (rate_limit_per_minute : Z)
  : M unit :=
  data ← get_debounce_data;
  match data !! function_name with
  | None =>
      t ← datetime_now;
      set_debounce_data function_name t
  | Some last_call =>
      current_time ← datetime_now;
      let time_since_last_call := (current_time - last_call)%Q in
      limit ← truediv 60 rate_limit_per_minute;
      (if Qltb time_since_last_call limit then
         interval ← truediv 60 rate_limit_per_minute;
         let sleep_time := (interval - time_since_last_call + 1)%Q in
         (if LOG_DEBOUNCING then
            log_info [Lit "Sleeping for "; OfSeconds sleep_time;
                      Lit " seconds to avoid rate limit for '";
                      Lit function_name; Lit "'"]
          else mret tt);;
         asyncio_sleep sleep_time
       else mret tt);;
      set_debounce_data function_name current_time
  end.

(** [model.of_type] is read on the class, which gives the property object
    and not the string an instance would give. *)
Definition _log_creation (property unique_designator created_entity_id : string)
  : M unit :=
  log_info [Lit "Created "; Lit ("<property " ++ property ++ ">");
            Lit " in slack for "; Lit unique_designator;
            Lit " with id "; Lit created_entity_id].

Definition fill_scim_user (username display_name email : string)
    (id name title location section : option string) (active : bool)
  : ScimUser :=
  {| scim_id := id;
     userName := strip username;
     scim_name := match name with
                  | Some n => if negb (String.eqb n "") then Some (strip n)
                              else None
                  | None => None
                  end;
     displayName := strip display_name;
     scim_title := title;
     emails := [(email, true)];
     active := active;
     department := location;
     division := section |}.

Definition bad_username_errors : list string :=
  ["username_invalid"; "username_too_long"; "username_taken"].

Definition _create_slack_user (scim_user : ScimUser) : M value :=
  _debounce "create_user" 20;;
  response ← remote (CreateUser scim_user)
               (fun h => scim_create_user sdk h scim_user);
  if create_status_code response =? 201 then
    user_id ← lift (getitem (create_body response) "id");
    mret user_id
  else if (create_status_code response =? 400)
          || (create_status_code response =? 409) then
    description ← match create_errors_description response with
                  | Some d => mret d
                  | None => raise (AttributeError
                      "'NoneType' object has no attribute 'description'")
                  end;
    let error_type := split_head " " description in
    if bool_decide (error_type ∈ bad_username_errors) then
      raise (BadUsernameError (create_body response))
    else mret VNone
  else raise (UnknownSlackUserCreationError (create_body response)).

Definition upload_new_single_user (user : User) : M value :=
  let scim_user :=
    fill_scim_user (user_name user) (user_name user) (email user)
      None None (title user) (location user) (section user) false in
  created_user_id ←
    try_except (_create_slack_user scim_user) (fun e =>
      if is_BadUsernameError e then Some (
        let short_username := split_head "@" (email user) in
        log_warning [Lit "Full name is too long for user "; Lit (email user);
                     Lit ". Using short name '"; Lit short_username;
                     Lit "'."];;
        let new_scim_user :=
          fill_scim_user short_username (user_name user) (email user)
            None None (title user) (location user) (section user) false in
        _create_slack_user new_scim_user)
      else Some (
        log_exception [Lit "Failed to create user "; Lit (email user);
                       Lit ": "; OfExn e] e;;
        raise e));
  log_info [Lit "User "; Lit (email user);
            Lit " created successfully. Slack ID: "; OfValue created_user_id];;
  mret created_user_id.

Definition search_user (user_email : string) : M (option dict) :=
  _debounce "scim_search_users" 20;;
  let filter_query := "email eq " ++ user_email in
  response ← remote (SearchUsers 10 0 filter_query)
               (fun h => scim_search_users sdk h 10 0 filter_query);
  (if negb (search_status_code response =? 200) then
     raise_str "Failed to search users in Slack"
   else mret tt);;
  let existing_users := Resources response in
  match existing_users with
  | None | Some [] => mret None
  | Some (user :: others) =>
      if 1 <? Z.of_nat (length (user :: others)) then
        raise (MultipleUsersWithSameEmailError
                 ("Multiple users found with email " ++ user_email))
      else mret (Some user)
  end.

(** [user_data[k]] where [user_data] may be [None] *)
Definition subscript (user_data : option dict) (k : string) : result value :=
  match user_data with
  | Some d => getitem d k
  | None => Raise (TypeError "'NoneType' object is not subscriptable")
  end.

Definition verify_deactivated_user_email (user_email : string) : M value :=
  user_data ← search_user user_email;
  is_active ← match user_data with
              | Some d =>
                  if dict_truthy d then
                    a ← lift (getitem d "active"); mret (truthy a)
                  else mret false
              | None => mret false
              end;
  (if is_active : bool then raise UserIsActiveError else mret tt);;
  lift (subscript user_data "id").

(** the [for team in ...] loop of [verify_workspace_exists_in_slack] *)
Fixpoint first_team_named (name : string) (ts : list team) : option string :=
  match ts with
  | [] => None
  | t :: ts' =>
      if String.eqb (team_name t) name then Some (team_id t)
      else first_team_named name ts'
  end.

Definition verify_workspace_exists_in_slack (workspace : Workspace)
  : M (option string) :=
  _debounce "admin_teams_list" 50;;
  response ← remote AdminTeamsList (admin_teams_list sdk);
  (if negb (list_ok response) then
     raise (Exception_ "Failed to list teams in Slack")
   else mret tt);;
  mret (first_team_named (workspace_name workspace) (teams response)).

(** The domain [create_workspace_in_slack] derives from a workspace name:
    lower case, leading whitespace removed, runs of whitespace turned into
    hyphens, the company suffix appended.  This is the domain of the code
    for an ASCII name. *)
Definition domain_of (name : string) : string :=
  let domain := lstrip (lower name) in
  re_sub_spaces "-" domain ++ "-misr".

(** [if x:] for [x : str | None]: the string when the test holds. *)
Definition if_str (x : option string) : option string :=
  match x with
  | Some id => if String.eqb id "" then None else Some id
  | None => None
  end.

Definition create_workspace_in_slack (workspace : Workspace) : M string :=
  existing_workspace_id ← verify_workspace_exists_in_slack workspace;
  match if_str existing_workspace_id with
  | Some id =>
      log_info [Lit "Workspace "; Lit (workspace_name workspace);
                Lit " already exists in Slack, slack_id="; Lit id];;
      mret id
  | None =>
      _debounce "admin_teams_create" 1;;
      let domain := domain_of (workspace_name workspace) in
      if 21 <? len domain then
        raise (ValueError (VStr ("Domain name '" ++ domain
                                 ++ "' is too long (" ++ pretty (len domain)
                                 ++ " characters)")))
      else
        response ← remote (AdminTeamsCreate (workspace_name workspace) domain)
                     (fun h => admin_teams_create sdk h
                                 (workspace_name workspace) domain);
        (if negb (create_ok response) then
           raise (Exception_ "Failed to create workspace in Slack")
         else mret tt);;
        let workspace_id := created_team response in
        _log_creation "of_type" (workspace_name workspace) workspace_id;;
        mret workspace_id
  end.

Definition update_photo (user_id : value) (photo_url : string) : M unit :=
  _debounce "patch_user" 20;;
  response ← remote (PatchUser user_id (Photos [photo_url]))
               (fun h => scim_patch_user sdk h user_id (Photos [photo_url]));
  if negb (patch_status_code response =? 200) then
    errors ← match patch_body_Errors response with
             | Some v => mret v
             | None => raise (KeyError "Errors")
             end;
    raise (ValueError errors)
  else mret tt.

End Manager.
End SlackConnector.

(** ** [utils/csv_manager.py] and [data_models/instruction_entries.py] *)

Module CsvManager.

(** *** [csv.DictReader] *)

(** What a row dict holds under a key: the text of a cell, [None] for a
    cell the record lacks ([restval]), or the list of the cells beyond the
    header, which is stored under the key [None] ([restkey]). *)
Inductive cell :=
| Text (s : string)
| Missing
| Surplus (cells : list string).

Abbreviation row := (gmap (option string) cell).

(** [dict(zip(fieldnames, cells))], added to [d] *)
Fixpoint zip_into (fieldnames cells : list string) (d : row) : row :=
  match fieldnames, cells with
  | f :: fs, c :: cs => zip_into fs cs (<[Some f := Text c]> d)
  | _, _ => d
  end.

(** The dict [DictReader.__next__] builds from a non-empty record. *)
Definition row_of (fieldnames cells : list string) : row :=
  let d := zip_into fieldnames cells ∅ in
  let lf := length fieldnames in
  let lr := length cells in
  if (lf <? lr)%nat then <[None := Surplus (drop lf cells)]> d
  else if (lr <? lf)%nat then
    foldl (fun d key => <[Some key := Missing]> d) d (drop lr fieldnames)
  else d.

(** [csv.DictReader(file)], given the records [csv.reader] finds in the
    file: the first record is the header, empty records are passed over. *)
Definition DictReader (records : list (list string)) : list row :=
  match records with
  | [] => []
  | fieldnames :: rest =>
      row_of fieldnames <$> filter (fun r => r ≠ []) rest
  end.

(** *** pydantic models *)

Inductive annotation :=
| Str
| Enum (members : list string).

Record FieldInfo := {
  field_name : string;
  field_type : annotation;
  (** no default value *)
  is_required : bool
}.

Definition required (name : string) : FieldInfo := Build_FieldInfo name Str true.
Definition optional (name : string) : FieldInfo := Build_FieldInfo name Str false.

(** Validation of the input given for one field; [None] stands for a
    field that is not given. *)
Definition validate_field (f : FieldInfo) (input : option cell)
  : value + string :=
  match input with
  | None => if is_required f then inr "missing" else inl VNone
  | Some (Text s) =>
      match field_type f with
      | Str => inl (VStr s)
      | Enum members =>
          if bool_decide (s ∈ members) then inl (VStr s) else inr "enum"
      end
  | Some Missing | Some (Surplus _) =>
      match field_type f with
      | Str => inr "string_type"
      | Enum _ => inr "enum"
      end
  end.

(** Validation of all the fields: the instance built so far and the errors
    found so far, in field order. *)
Fixpoint validate (fields : list FieldInfo) (data : row)
  : dict * list (string * string) :=
  match fields with
  | [] => (∅, [])
  | f :: fs =>
      let '(instance, errors) := validate fs data in
      match validate_field f (data !! Some (field_name f)) with
      | inl v => (<[field_name f := v]> instance, errors)
      | inr kind => (instance, (field_name f, kind) :: errors)
      end
  end.

(** [cls(...)] with the items of [data] as keyword arguments, for a
    [BaseModel] subclass [cls] with the given
    [model_fields].  The call itself needs string keywords; no model of
    [instruction_entries.py] sets [model_config], so pydantic's default
    applies to the keys that name no field: they are ignored. *)
Definition BaseModel (model_fields : list FieldInfo) (data : row)
  : result dict :=
  if bool_decide (is_Some (data !! None)) then
    Raise (TypeError "keywords must be strings")
  else
    match validate model_fields data with
    | (instance, []) => Ok instance
    | (_, errors) => Raise (ValidationError errors)
    end.

Section Entries.

(** The members of [WorkspaceRole]; [data_models/workspace_role.py] is
    not among the sources. *)
Context (WorkspaceRole : list string).

Definition AddUserInstructionEntry : list FieldInfo :=
  [required "workspace_name"; required "workspace_slack_id";
   required "channel_name"; required "channel_slack_id";
   required "user_email"; required "user_slack_id"].

Definition AssignAdminOwnerInstructionEntry : list FieldInfo :=
  [required "workspace_name"; required "workspace_slack_id";
   required "user_email"; required "user_slack_id";
   Build_FieldInfo "role" (Enum WorkspaceRole) true].

Definition DeactivateRemoveUserInstructionEntry : list FieldInfo :=
  [required "user_email"; required "user_slack_id"].

Definition InviteNewUserInstructionEntry : list FieldInfo :=
  [required "workspace_name"; required "workspace_slack_id";
   required "channel_name"; required "channel_slack_id";
   required "user_email"; required "user_name";
   optional "title"; optional "section"; optional "location"].

Definition ChangeUserEmailInstructionEntry : list FieldInfo :=
  [required "current_email"; required "new_email"].

Definition AbstractUserInstructionEntry : list FieldInfo :=
  [required "user_email"].

Definition AssignPhotoInstructionEntry : list FieldInfo :=
  [required "user_email"; required "photo_url"].

End Entries.

(** [entry.name] for a [str] field of a validated entry *)
Definition attr (entry : dict) (name : string) : string :=
  match entry !! name with
  | Some (VStr s) => s
  | _ => ""
  end.

(** *** [CSVInstructionManager] *)

(** What a generator produces when it is run to its end: the items it
    yields, then normal exhaustion or an exception. *)
Record generator (A : Type) := Generator {
  yielded : list A;
  raised : option exn
}.
Arguments Generator {A} yielded raised.
Arguments yielded {A} g.
Arguments raised {A} g.

Record CSVInstructionManager := {
  filename : string;
  _current_file : option string;
  _csv_dict_writer : option (list string);
  total_instructions : Z
}.

Section Files.

(** The files that can be opened, each with its lines, and [csv.reader],
    which turns the lines of a file into records. *)
Context (files : gmap string (list string))
        (csv_reader : list string -> list (list string)).

Definition __init__ (filename : string) : result CSVInstructionManager :=
  match files !! filename with
  | None => Raise (FileNotFoundError filename)
  | Some file =>
      let total_instructions := Z.of_nat (length file) in
      let total_instructions := total_instructions - 1 in
      Ok {| filename := filename;
            _current_file := None;
            _csv_dict_writer := None;
            total_instructions := total_instructions |}
  end.

(** the loop [for row in reader: yield instructions_type(...)], each row
    being passed as keyword arguments *)
Fixpoint yield_rows (instructions_type : row -> result dict)
    (rows : list row) : generator dict :=
  match rows with
  | [] => Generator [] None
  | r :: rest =>
      match instructions_type r with
      | Ok entry =>
          let g := yield_rows instructions_type rest in
          Generator (entry :: yielded g) (raised g)
      | Raise e => Generator [] (Some e)
      end
  end.

Definition _read_entries (self : CSVInstructionManager)
    (instructions_type : row -> result dict) : generator dict :=
  match files !! filename self with
  | None => Generator [] (Some (FileNotFoundError (filename self)))
  | Some file => yield_rows instructions_type (DictReader (csv_reader file))
  end.

Definition yield_add_to_channel_instructions self :=
  _read_entries self (BaseModel AddUserInstructionEntry).
Definition yield_assign_roles_instructions roles self :=
  _read_entries self (BaseModel (AssignAdminOwnerInstructionEntry roles)).
Definition yield_invalidate_email_instructions self :=
  _read_entries self (BaseModel DeactivateRemoveUserInstructionEntry).
Definition yield_invite_new_users_instructions self :=
  _read_entries self (BaseModel InviteNewUserInstructionEntry).
Definition yield_change_email_instructions self :=
  _read_entries self (BaseModel ChangeUserEmailInstructionEntry).
Definition yield_abstract_user_instructions self :=
  _read_entries self (BaseModel AbstractUserInstructionEntry).
Definition yield_assign_photo_instructions self :=
  _read_entries self (BaseModel AssignPhotoInstructionEntry).

End Files.

(** A [csv.reader] for files without quoting: one record per line, cells
    separated by commas, an empty line giving an empty record. *)
Fixpoint split_commas (cur line : string) : list string :=
  match line with
  | EmptyString => [cur]
  | String c rest =>
      if Ascii.eqb c "," then cur :: split_commas "" rest
      else split_commas (cur ++ String c "") rest
  end.

Definition plain_csv_reader (lines : list string) : list (list string) :=
  (fun line => if String.eqb line "" then [] else split_commas "" line)
    <$> lines.

End CsvManager.

(** ** [core/update_photo.py] *)

Module UpdatePhoto.
Section Processor.

Import SlackConnector CsvManager.

Context (sdk : SlackSDK) (LOG_DEBOUNCING : bool)
        (files : gmap string (list string))
        (csv_reader : list string -> list (list string)).

(** [for x in g: body(x)] *)
Fixpoint for_each {A} (items : list A) (body : A -> M unit) : M unit :=
  match items with
  | [] => mret tt
  | x :: rest => body x;; for_each rest body
  end.

Definition for_in {A} (g : generator A) (body : A -> M unit) : M unit :=
  for_each (yielded g) body;;
  match raised g with
  | Some e => raise e
  | None => mret tt
  end.

(** How a step of the loop body ends: with [continue], or by going on with
    the value it bound. *)
Inductive flow (A : Type) :=
| Continue
| Proceed (a : A).
Arguments Continue {A}.
Arguments Proceed {A} a.

(** [if user:] for [user : dict | None] *)
Definition found (user : option dict) : bool :=
  match user with
  | Some d => dict_truthy d
  | None => false
  end.

(** The body of the loop of [update_user_photo_processor]. *)
Definition process_entry (csv_entry : dict) : M unit :=
  let user_email := attr csv_entry "user_email" in
  let photo_url := attr csv_entry "photo_url" in
  log_info [Lit "Working on "; Lit user_email];;
  looked_up ←
    try_except (user ← search_user sdk LOG_DEBOUNCING user_email;
                mret (Proceed user))
      (fun e =>
         if is_ValueError e then Some (
           log_exception [Lit "Failed to search user '"; Lit user_email;
                          Lit "': "; OfExn e] e;;
           mret Continue)
         else Some (
           log_exception [Lit "Failed to search user '"; Lit user_email;
                          Lit "'"] e;;
           mret Continue));
  match looked_up with
  | Continue => mret tt
  | Proceed user =>
      if negb (found user) then
        log_error [Lit "User '"; Lit user_email; Lit "' not found in Slack"]
      else
        try_except (user_id ← lift (subscript user "id");
                    update_photo sdk LOG_DEBOUNCING user_id photo_url)
          (fun e => Some (
             log_exception [Lit "Failed to update photo for user '";
                            Lit user_email; Lit "': "; OfExn e] e))
  end.

Definition update_user_photo_processor (instructions : CSVInstructionManager)
  : M unit :=
  for_in (yield_assign_photo_instructions files csv_reader instructions)
         process_entry.

End Processor.
End UpdatePhoto.

(** ** Concrete remote platforms, files and users used in examples *)

Module Scenarios.

Import CsvManager.

Definition unreachable : exn := SlackApiError "not expected in this scenario".

(** The operation key shared by the "patch user" operations, recorded at
    time 0, one tenth of a second ago. *)
Definition just_patched : world :=
  World (1 # 10) (<["patch_user" := 0%Q]> ∅) [] [] [].

(** Three calls for one key at 20 calls per minute: at time 0, then 0.1 s
    later, then 0.1 s after the second call returned. *)
Definition after_first : world :=
  snd (SlackConnector._debounce false "patch_user" 20 (fresh 0)).
Definition after_second : world :=
  snd (SlackConnector._debounce false "patch_user" 20
         (idle (1 # 10) after_first)).
Definition after_third : world :=
  snd (SlackConnector._debounce false "patch_user" 20
         (idle (1 # 10) after_second)).

(** A platform that only answers user searches, by [answer]. *)
Definition searching (answer : string -> result SearchUsersResponse)
  : SlackSDK := {|
  scim_create_user := fun _ _ => Raise unreachable;
  scim_search_users := fun _ _ _ filter_query => answer filter_query;
  scim_patch_user := fun _ _ _ => Raise unreachable;
  admin_teams_list := fun _ => Raise unreachable;
  admin_teams_create := fun _ _ _ => Raise unreachable
|}.

Definition alice : dict :=
  <["id" := VStr "U01"]> (<["active" := VBool true]> ∅).

Definition former_bob : dict :=
  <["id" := VStr "U02"]> (<["active" := VBool false]> ∅).

(** Searches finding no user, one user, two users; a failing search. *)
Definition nobody : SlackSDK :=
  searching (fun _ => Ok {| search_status_code := 200; Resources := Some [] |}).
Definition only_alice : SlackSDK :=
  searching (fun _ => Ok {| search_status_code := 200;
                            Resources := Some [alice] |}).
Definition only_former_bob : SlackSDK :=
  searching (fun _ => Ok {| search_status_code := 200;
                            Resources := Some [former_bob] |}).
Definition twins : SlackSDK :=
  searching (fun _ => Ok {| search_status_code := 200;
                            Resources := Some [alice; former_bob] |}).
Definition broken_search : SlackSDK :=
  searching (fun _ => Ok {| search_status_code := 500; Resources := None |}).


(** A platform that only answers user creations, by [answer], which is
    given the number of calls issued before. *)
Definition creating (answer : nat -> result UserCreateResponse) : SlackSDK := {|
  scim_create_user := fun history _ => answer (length history);
  scim_search_users := fun _ _ _ _ => Raise unreachable;
  scim_patch_user := fun _ _ _ => Raise unreachable;
  admin_teams_list := fun _ => Raise unreachable;
  admin_teams_create := fun _ _ _ => Raise unreachable
|}.

Definition rejection (status : Z) (description : string)
  : result UserCreateResponse :=
  Ok {| create_status_code := status; create_body := ∅;
        create_errors_description := Some description |}.

Definition created (id : string) : result UserCreateResponse :=
  Ok {| create_status_code := 201; create_body := <["id" := VStr id]> ∅;
        create_errors_description := None |}.

(** Every creation is rejected with status 400 for a reason other than
    the username. *)
Definition rejecting_email : SlackSDK :=
  creating (fun _ => rejection 400 "invalid_emails (the address is refused)").

(** The first creation is rejected for its username, the second one
    succeeds. *)
Definition long_name_then_fine : SlackSDK :=
  creating (fun n => match n with
                     | O => rejection 400 "username_too_long (max 21)"
                     | _ => created "U07"
                     end).

(** Every creation is rejected for its username. *)
Definition always_taken : SlackSDK :=
  creating (fun _ => rejection 409 "username_taken (pick another)").

Definition dana : User := {|
  user_slack_id := None;
  user_name := "Dana Katherine Scully";
  email := "dana.scully@corp.example";
  title := Some "Agent";
  section := None;
  extention := None;
  location := None
|}.


(** A platform that lists [existing] as its teams and refuses nothing. *)
Definition with_teams (existing : list team) : SlackSDK := {|
  scim_create_user := fun _ _ => Raise unreachable;
  scim_search_users := fun _ _ _ _ => Raise unreachable;
  scim_patch_user := fun _ _ _ => Raise unreachable;
  admin_teams_list := fun _ => Ok {| list_ok := true; teams := existing |};
  admin_teams_create := fun _ name _ =>
    Ok {| create_ok := true; created_team := "T-" ++ name |}
|}.

Definition training : Workspace :=
  {| workspace_slack_id := None;
     workspace_name := "Training ABCDEFGHIJKLMNOP" |}.


(** Instruction files for the photo update.  [photos] has three rows;
    [short_row] has a second row without its photo; [annotated_photos] has a
    column the instruction shape does not have; the files
    ["header_only.csv"] and ["empty.csv"] hold no instruction. *)
Definition photos : list string :=
  ["user_email,photo_url";
   "a@corp.example,https://img.example/a.png";
   "b@corp.example,https://img.example/b.png";
   "c@corp.example,https://img.example/c.png"].

Definition short_row : list string :=
  ["user_email,photo_url";
   "a@corp.example,https://img.example/a.png";
   "b@corp.example";
   "c@corp.example,https://img.example/c.png"].

Definition annotated_photos : list string :=
  ["user_email,photo_url,comment";
   "a@corp.example,https://img.example/a.png,new badge"].

Definition disk : gmap string (list string) :=
  <["instructions/update_user_photos.csv" := photos]>
  (<["instructions/short_row.csv" := short_row]>
  (<["instructions/annotated.csv" := annotated_photos]>
  (<["instructions/header_only.csv" := ["user_email,photo_url"]]>
  (<["instructions/empty.csv" := []]> ∅)))).

Definition manager_of (name : string) (total : Z) : CSVInstructionManager :=
  {| filename := name; _current_file := None; _csv_dict_writer := None;
     total_instructions := total |}.

Definition photo_header : list string := ["user_email"; "photo_url"].

(** A directory that knows the users of the emails a@ and c@, and accepts a
    new photo for the first of them only. *)
Definition user_with_id (id : string) : dict :=
  <["id" := VStr id]> (<["active" := VBool true]> ∅).

Definition directory : SlackSDK := {|
  scim_create_user := fun _ _ => Raise unreachable;
  scim_search_users := fun _ _ _ filter_query =>
    Ok {| search_status_code := 200;
          Resources :=
            if String.eqb filter_query "email eq a@corp.example"
            then Some [user_with_id "UA"]
            else if String.eqb filter_query "email eq c@corp.example"
            then Some [user_with_id "UC"]
            else Some [] |};
  scim_patch_user := fun _ id _ =>
    if bool_decide (id = VStr "UA")
    then Ok {| patch_status_code := 200; patch_body_Errors := None |}
    else Ok {| patch_status_code := 500;
               patch_body_Errors := Some (VStr "invalid_photo") |};
  admin_teams_list := fun _ => Raise unreachable;
  admin_teams_create := fun _ _ _ => Raise unreachable
|}.

End Scenarios.

(** ** Vocabulary of the statements *)

Module Observations.

(** The call made from [w] and ending in [w'] introduced no wait. *)
Definition no_wait (w w' : world) : Prop :=
  sleeps w' = sleeps w /\ clock w' = clock w.

(** The call made from [w] and ending in [w'] slept once, for [d]
    seconds. *)
Definition waited (d : Q) (w w' : world) : Prop :=
  sleeps w' = (sleeps w ++ [d])%list /\ clock w' = (clock w + d)%Q.

(** The record emitted before a sleep when [LOG_DEBOUNCING] is set. *)
Definition sleep_notice (LOG_DEBOUNCING : bool) (function_name : string)
    (sleep_time : Q) : list log_record :=
  if LOG_DEBOUNCING then
    [LogRecord INFO [Lit "Sleeping for "; OfSeconds sleep_time;
                     Lit " seconds to avoid rate limit for '";
                     Lit function_name; Lit "'"] None]
  else [].

(** [w] after the remote call [c] has been issued. *)
Definition issued (c : remote_call) (w : world) : world :=
  World (clock w) (_debounce_data w) (sleeps w) (logged w)
        (calls w ++ [c]).

(** [w] after the record [r] has been logged. *)
Definition noted (r : log_record) (w : world) : world :=
  World (clock w) (_debounce_data w) (sleeps w) (logged w ++ [r])
        (calls w).

(** The resources a search reply carries; none when the body has no
    ["Resources"] entry. *)
Definition matching (response : SearchUsersResponse) : list dict :=
  default [] (Resources response).

(** The filters of the user searches among the calls [cs], in order. *)
Fixpoint searched (cs : list remote_call) : list string :=
  match cs with
  | [] => []
  | SearchUsers _ _ filter_query :: rest => filter_query :: searched rest
  | _ :: rest => searched rest
  end.

(** The payload [upload_new_single_user] sends first, and the one it
    sends when it tries again. *)
Definition first_payload (user : User) : ScimUser :=
  SlackConnector.fill_scim_user (user_name user) (user_name user)
    (email user) None None (title user) (location user) (section user) false.

Definition retry_payload (user : User) : ScimUser :=
  SlackConnector.fill_scim_user (split_head "@" (email user))
    (user_name user) (email user) None None (title user) (location user)
    (section user) false.


(** The row gives nothing for the field [name]: it has no such key, or it
    has it with [None], the value of a cell that a short record lacks. *)
Definition lacks (d : CsvManager.row) (name : string) : Prop :=
  d !! Some name = None \/ d !! Some name = Some CsvManager.Missing.


(** *** The photo update, row by row, in the words of the specification *)

(** How the attempt on one row ends. *)
Inductive outcome :=
| LookupFailed (e : exn)
| NotFound
| MutationFailed (e : exn)
| Mutated.

Section Batch.

Context (sdk : SlackSDK) (LOG_DEBOUNCING : bool).

(** The lookup of a row: the search of the user by the email of the row. *)
Definition lookup (entry : dict) : M (option dict) :=
  SlackConnector.search_user sdk LOG_DEBOUNCING
    (CsvManager.attr entry "user_email").

(** The mutation of a row: the photo of the row is given to the user
    found, who is designated by the id of the record. *)
Definition mutation (entry : dict) (user : option dict) : M unit :=
  user_id ← lift (SlackConnector.subscript user "id");
  SlackConnector.update_photo sdk LOG_DEBOUNCING user_id
    (CsvManager.attr entry "photo_url").

(** [attempt entry w o w']: the row [entry], attempted from [w], ends with
    the outcome [o] in [w'].  The row is announced; then
    - a lookup that raises is logged with its exception, and the row is
      skipped;
    - a lookup that finds no user is logged as an error, and the row is
      skipped;
    - a mutation that raises is logged with its exception, and the row is
      skipped;
    - otherwise the row is mutated. *)
Inductive attempt (entry : dict) (w : world) : outcome -> world -> Prop :=
| attempt_lookup_failed announcement e w1 report :
    levelname announcement = INFO ->
    lookup entry (noted announcement w) = (Raise e, w1) ->
    levelname report = ERROR -> exc_info report = Some e ->
    attempt entry w (LookupFailed e) (noted report w1)
| attempt_not_found announcement user w1 report :
    levelname announcement = INFO ->
    lookup entry (noted announcement w) = (Ok user, w1) ->
    UpdatePhoto.found user = false ->
    levelname report = ERROR -> exc_info report = None ->
    attempt entry w NotFound (noted report w1)
| attempt_mutation_failed announcement user w1 e w2 report :
    levelname announcement = INFO ->
    lookup entry (noted announcement w) = (Ok user, w1) ->
    UpdatePhoto.found user = true ->
    mutation entry user w1 = (Raise e, w2) ->
    levelname report = ERROR -> exc_info report = Some e ->
    attempt entry w (MutationFailed e) (noted report w2)
| attempt_mutated announcement user w1 w2 :
    levelname announcement = INFO ->
    lookup entry (noted announcement w) = (Ok user, w1) ->
    UpdatePhoto.found user = true ->
    mutation entry user w1 = (Ok tt, w2) ->
    attempt entry w Mutated w2.

(** [batch entries w os w']: the rows [entries] are attempted one after the
    other from [w], whatever the outcome of the rows before; [os] lists
    their outcomes and [w'] is where the last attempt ends. *)
Inductive batch : list dict -> world -> list outcome -> world -> Prop :=
| batch_done w : batch [] w [] w
| batch_next entry rest w o w1 os w' :
    attempt entry w o w1 -> batch rest w1 os w' ->
    batch (entry :: rest) w (o :: os) w'.

End Batch.

(** The search filter of a row. *)
Definition filter_of (entry : dict) : string :=
  "email eq " ++ CsvManager.attr entry "user_email".

End Observations.

Export Observations.

(** ** Further operations of [utils/slack_connector.py] on the SCIM client *)

Module ScimOperations.
Section Manager.

Import SlackConnector.

Context (sdk : SlackSDK) (LOG_DEBOUNCING : bool).

(** [self._debounce_data = {}] *)
Definition new_debounce_data : M unit := fun w =>
  (Ok tt, World (clock w) ∅ (sleeps w) (logged w) (calls w)).

(** [SlackConnectionManager(token)]; the two clients it builds are the
    platform [sdk]. *)
Definition __init__ (token : option string) : M unit :=
  match if_str token with
  | None => raise (ValueError (VStr "Slack Api token is required! "))
  | Some _ => new_debounce_data
  end.

(** [if user_data:] for [user_data : dict | None] *)
Definition if_dict (user_data : option dict) : bool :=
  match user_data with
  | Some d => dict_truthy d
  | None => false
  end.

(** The constructor [UserAlreadyExistsError] stands for the class; the
    argument the first [raise] gives it is not kept. *)
Definition verify_user_not_exists_in_slack (user_email : string) : M unit :=
  user_data ← try_except (search_user sdk LOG_DEBOUNCING user_email)
                (fun e => match e with
                          | MultipleUsersWithSameEmailError _ =>
                              Some (raise UserAlreadyExistsError)
                          | _ => None
                          end);
  if if_dict user_data then raise UserAlreadyExistsError else mret tt.

(** [user.slack_id] as the argument of a call *)
Definition of_slack_id (slack_id : option string) : value :=
  match slack_id with
  | Some id => VStr id
  | None => VNone
  end.

Definition deactivate_user (user : User) : M unit :=
  _debounce LOG_DEBOUNCING "admin_users_delete" 90;;
  _ ← remote (PatchUser (of_slack_id (user_slack_id user)) (Active false))
        (fun h => scim_patch_user sdk h (of_slack_id (user_slack_id user))
                    (Active false));
  mret tt.

Definition activate_user (user_id : string) : M unit :=
  _debounce LOG_DEBOUNCING "patch_user" 20;;
  response ← remote (PatchUser (VStr user_id) (Active true))
               (fun h => scim_patch_user sdk h (VStr user_id) (Active true));
  if negb (patch_status_code response =? 200) then
    errors ← match patch_body_Errors response with
             | Some v => mret v
             | None => raise (KeyError "Errors")
             end;
    raise (ValueError errors)
  else mret tt.

End Manager.
End ScimOperations.

(** ** [data_models/channel.py] and the operations of
    [utils/slack_connector.py] on the Web client that are not part of
    [SlackSDK] *)

Module WebOperations.

(** [data_models/channel.py], over [BaseSlackModel] *)
Record Channel := {
  channel_slack_id : option string;
  channel_name : string;
  description : option string;
  main_workspace : string;
  additional_workspaces : list string
}.

(** [Channel.prepared_name], for an ASCII channel name *)
Definition prepared_name (channel : Channel) : string :=
  re_sub_spaces "-" (lower (channel_name channel)).

(** Calls of the Web client. *)
Inductive web_call :=
| ConversationsCreate (name : string) (description team_id : option string)
    (is_private : bool)
| UsersList (team_id : option string) (limit : Z) (cursor : option string)
| AdminUsersInvite (team_id email : string) (channel_ids : list string)
    (email_password_policy_enabled resend : bool).

(** Replies, with the parts the code reads. *)
Record ConversationsCreateResponse := {
  (** [created_channel.data["channel"]["id"]] *)
  created_channel_id : string
}.

Record UsersListResponse := {
  (** [results.data["members"]] *)
  members : list dict;
  (** [results.data["response_metadata"].get("next_cursor")] *)
  next_cursor : option string
}.

(** The Web client: each entry point answers, or raises, depending on the
    Web calls issued so far (oldest first). *)
Record WebClient := {
  conversations_create :
    list web_call -> string -> option string -> option string -> bool ->
    result ConversationsCreateResponse;
  users_list :
    list web_call -> option string -> Z -> option string ->
    result UsersListResponse;
  admin_users_invite :
    list web_call -> string -> string -> list string -> bool -> bool ->
    result unit
}.

(** The process state together with the Web calls issued, oldest first. *)
Record session := Session {
  process : world;
  web_calls : list web_call
}.

Definition W (A : Type) : Type := session -> result A * session.

#[global] Instance W_ret : MRet W := fun A a s => (Ok a, s).

#[global] Instance W_bind : MBind W := fun A B f m s =>
  match m s with
  | (Ok a, s') => f a s'
  | (Raise e, s') => (Raise e, s')
  end.

Definition wraise {A} (e : exn) : W A := fun s => (Raise e, s).

(** A computation on the process state, run within a session. *)
Definition base {A} (m : M A) : W A := fun s =>
  let '(r, w') := m (process s) in (r, Session w' (web_calls s)).

(** Issue the Web call [c]: it is recorded, then answered by [answer] from
    the Web calls issued before it. *)
Definition web {R} (c : web_call) (answer : list web_call -> result R)
  : W R := fun s =>
  (answer (web_calls s), Session (process s) (web_calls s ++ [c])).

Section Manager.

Import SlackConnector.

Context (sdk : SlackSDK) (client : WebClient) (LOG_DEBOUNCING : bool).

Definition create_channel_in_slack (channel : Channel) (workspace : Workspace)
  : W string :=
  match if_str (channel_slack_id channel) with
  | Some id =>
      base (log_info [Lit "Channel "; Lit (channel_name channel);
                      Lit " already has a Slack ID."]);;
      mret id
  | None =>
      base (_debounce LOG_DEBOUNCING "conversations_create" 20);;
      created_channel ←
        web (ConversationsCreate (prepared_name channel) (description channel)
               (workspace_slack_id workspace) false)
            (fun h => conversations_create client h (prepared_name channel)
                        (description channel) (workspace_slack_id workspace)
                        false);
      base (_log_creation "of_type" (channel_name channel)
              (created_channel_id created_channel));;
      mret (created_channel_id created_channel)
  end.

(** [depth] bounds the nesting of the recursive calls; [None] is returned
    when it is exhausted. *)
Fixpoint get_users_of_workspace (depth : nat) (workspace : Workspace)
    (next_cursor : option string) : W (option (list dict)) :=
  match depth with
  | O => mret None
  | S depth' =>
      base (_debounce LOG_DEBOUNCING "users_list" 20);;
      results ← web (UsersList (workspace_slack_id workspace) 150 next_cursor)
                  (fun h => users_list client h (workspace_slack_id workspace)
                              150 next_cursor);
      let next_cursor := WebOperations.next_cursor results in
      match if_str next_cursor with
      | Some cursor =>
          users ← get_users_of_workspace depth' workspace (Some cursor);
          mret ((fun users => members results ++ users)%list <$> users)
      | None => mret (Some (members results))
      end
  end.

(** The record found is subscripted with ["id"] last: a record without
    that key raises [KeyError]. *)
Definition invite_new_user_to_workspace (user_email team_id : string)
    (channel_ids : list string)
    (email_password_policy_enabled resend_invitation_enabled : bool)
  : W value :=
  base (_debounce LOG_DEBOUNCING "admin_users_invite" 20);;
  web (AdminUsersInvite team_id user_email channel_ids
         email_password_policy_enabled resend_invitation_enabled)
      (fun h => admin_users_invite client h team_id user_email channel_ids
                  email_password_policy_enabled resend_invitation_enabled);;
  created_user ← base (search_user sdk LOG_DEBOUNCING user_email);
  if negb (ScimOperations.if_dict created_user) then
    wraise (ValueError (VStr ("New user with email '" ++ user_email
                              ++ "' is not found")))
  else base (lift (subscript created_user "id")).

End Manager.
End WebOperations.

(** ** The write mode of [utils/csv_manager.py] *)

Module CsvWriting.

Import CsvManager.

(** The classes of [data_models/instruction_entries.py]. *)
Inductive model_class :=
| AddUser
| AssignAdminOwner
| DeactivateRemoveUser
| InviteNewUser
| ChangeUserEmail
| AbstractUser
| AssignPhoto.

#[global] Instance model_class_eq_dec : EqDecision model_class.
Proof. solve_decision. Defined.

Definition class_name (c : model_class) : string :=
  match c with
  | AddUser => "AddUserInstructionEntry"
  | AssignAdminOwner => "AssignAdminOwnerInstructionEntry"
  | DeactivateRemoveUser => "DeactivateRemoveUserInstructionEntry"
  | InviteNewUser => "InviteNewUserInstructionEntry"
  | ChangeUserEmail => "ChangeUserEmailInstructionEntry"
  | AbstractUser => "AbstractUserInstructionEntry"
  | AssignPhoto => "AssignPhotoInstructionEntry"
  end.

(** An entry given to [add_entry]: its class and its [model_dump()]. *)
Record entry := Entry {
  entry_class : model_class;
  model_dump : dict
}.

(** The manager, the files, each with its lines, and whether the file
    object the manager opened last is still open.  A line counts as written
    when it is handed to the file object. *)
Record desk := Desk {
  self : CSVInstructionManager;
  files : gmap string (list string);
  handle_open : bool
}.

Definition set_handles (m : CSVInstructionManager)
    (current_file : option string) (writer : option (list string))
  : CSVInstructionManager :=
  {| filename := filename m;
     _current_file := current_file;
     _csv_dict_writer := writer;
     total_instructions := total_instructions m |}.

(** [AddUserInstructionEntry.model_fields.keys()] *)
Definition fieldnames : list string := field_name <$> AddUserInstructionEntry.

(** What [csv.writer] writes for a value. *)
Definition cell_text (v : value) : string :=
  match v with
  | VNone => ""
  | VStr s => s
  | VInt z => pretty z
  | VBool true => "True"
  | VBool false => "False"
  end.

Section Writer.

(** [csv.writer]: the line written for a record. *)
Context (csv_writer : list string -> string).

Definition append_line (name line : string) (fs : gmap string (list string))
  : gmap string (list string) :=
  <[name := (default [] (fs !! name) ++ [line])%list]> fs.

(** [DictWriter.writerow(rowdict)] on the writer of the manager, which
    writes to the file of the manager: a key that is no field name is
    refused (the message goes on with those keys); the cells are the values
    of the field names, in order, the empty string for a name the dict
    lacks. *)
Definition writerow (rowdict : gmap string string) (d : desk)
  : result unit * desk :=
  match _csv_dict_writer (self d) with
  | None =>
      (Raise (AttributeError "'NoneType' object has no attribute 'writerow'"),
       d)
  | Some names =>
      if forallb (fun kv => bool_decide (kv.1 ∈ names)) (map_to_list rowdict)
      then
        if handle_open d then
          let cells := (fun key => default "" (rowdict !! key)) <$> names in
          (Ok tt, Desk (self d)
                       (append_line (filename (self d)) (csv_writer cells)
                          (files d))
                       true)
        else (Raise (ValueError (VStr "I/O operation on closed file.")), d)
      else (Raise (ValueError (VStr "dict contains fields not in fieldnames")),
            d)
  end.

Definition add_entry (e : entry) (d : desk) : result unit * desk :=
  if negb (bool_decide (entry_class e = AddUser)) then
    (Raise (ValueError (VStr
       ("Expected InstructionEntry, got <class 'data_models.instruction_entries."
        ++ class_name (entry_class e) ++ "'>"))), d)
  else
    match _current_file (self d) with
    | None => (Raise (ValueError (VStr "No file opened")), d)
    | Some _ => writerow (cell_text <$> model_dump e) d
    end.

(** [with self.open_for_writing(): body].  The file is opened for writing,
    which empties it, and the header is written; [body] runs at the
    [yield].  When [body] returns, the file is closed and the two handles of
    the manager are reset.  When [body] raises, the file is closed by the
    inner [with] and the exception leaves the generator: the statements that
    reset the handles are not reached. *)
Definition open_for_writing {A} (body : desk -> result A * desk) (d : desk)
  : result A * desk :=
  let name := filename (self d) in
  let opened := Desk (set_handles (self d) (Some name) (Some fieldnames))
                     (<[name := []]> (files d)) true in
  match writerow (list_to_map (zip fieldnames fieldnames)) opened with
  | (Raise e, d1) => (Raise e, Desk (self d1) (files d1) false)
  | (Ok _, d1) =>
      match body d1 with
      | (Ok a, d2) => (Ok a, Desk (set_handles (self d2) None None) (files d2)
                                  false)
      | (Raise e, d2) => (Raise e, Desk (self d2) (files d2) false)
      end
  end.

(** [for entry in entries: self.add_entry(entry)] *)
Fixpoint add_entries (entries : list entry) (d : desk) : result unit * desk :=
  match entries with
  | [] => (Ok tt, d)
  | e :: rest =>
      match add_entry e d with
      | (Ok _, d') => add_entries rest d'
      | (Raise x, d') => (Raise x, d')
      end
  end.

End Writer.

(** A [csv.writer] for cells that need no quoting. *)
Fixpoint join_commas (cells : list string) : string :=
  match cells with
  | [] => ""
  | [c] => c
  | c :: rest => c ++ "," ++ join_commas rest
  end.

End CsvWriting.

(** ** [main.py] *)

Module Main.
Section Commands.

Context (sdk : SlackSDK) (LOG_DEBOUNCING : bool)
        (files : gmap string (list string))
        (csv_reader : list string -> list (list string))
        (SLACK_USER_TOKEN : option string).

(** the command [update-user-photos] *)
Definition change_user_emails : M unit :=
  ScimOperations.__init__ SLACK_USER_TOKEN;;
  instructions ← lift (CsvManager.__init__ files
                         "instructions/update_user_photos.csv");
  UpdatePhoto.update_user_photo_processor sdk LOG_DEBOUNCING files csv_reader
    instructions.

Definition selftest : M unit :=
  log_info [Lit "Script self test is working. Sleeping 5 seconds"];;
  asyncio_sleep 5;;
  log_info [Lit "Script self test finished"].

(** the body of the loop of [container_test]: [open] raises
    [FileNotFoundError] for a file that is not there *)
Definition check_file (instruction : string) : M unit :=
  try_except (match files !! instruction with
              | Some _ => mret tt
              | None => raise (FileNotFoundError instruction)
              end;;
              log_info [Lit "File '"; Lit instruction; Lit "' found"])
    (fun e => match e with
              | FileNotFoundError _ =>
                  Some (log_error [Lit "File '"; Lit instruction;
                                   Lit "' not found!"])
              | _ => None
              end).

(** the command [test] *)
Definition container_test : M unit :=
  let instructions_files := ["instructions/update_user_photos.csv"] in
  UpdatePhoto.for_each instructions_files check_file;;
  selftest.

End Commands.
End Main.

(** ** Vocabulary of the further statements *)

Module FurtherObservations.

(** Some character of the ASCII text [s] is whitespace. *)
Fixpoint has_space (s : string) : bool :=
  match s with
  | EmptyString => false
  | String c s' => isspace c || has_space s'
  end.

(** Some character of the ASCII text [s] is an upper-case letter, one of
    [A] to [Z]. *)
Fixpoint has_upper (s : string) : bool :=
  match s with
  | EmptyString => false
  | String c s' =>
      ((65 <=? nat_of_ascii c) && (nat_of_ascii c <=? 90))%nat || has_upper s'
  end.

(** The calls the photo update is expected to issue: searches of users and
    patches of photos. *)
Definition photo_traffic (c : remote_call) : bool :=
  match c with
  | SearchUsers _ _ _ => true
  | PatchUser _ (Photos _) => true
  | _ => false
  end.

(** The calls that create something on the platform. *)
Definition creates (c : remote_call) : bool :=
  match c with
  | CreateUser _ | AdminTeamsCreate _ _ => true
  | _ => false
  end.

(** [serves client team h cursor pages]: asked for the users of [team] from
    [cursor] on, after the Web calls [h], the client serves the pages
    [pages], each page but the last naming the cursor of the next one. *)
Inductive serves (client : WebOperations.WebClient) (team : option string)
  : list WebOperations.web_call -> option string -> list (list dict) -> Prop :=
| serves_last h cursor response :
    WebOperations.users_list client h team 150 cursor = Ok response ->
    SlackConnector.if_str (WebOperations.next_cursor response) = None ->
    serves client team h cursor [WebOperations.members response]
| serves_next h cursor response next pages :
    WebOperations.users_list client h team 150 cursor = Ok response ->
    SlackConnector.if_str (WebOperations.next_cursor response) = Some next ->
    serves client team (h ++ [WebOperations.UsersList team 150 cursor])
      (Some next) pages ->
    serves client team h cursor (WebOperations.members response :: pages).

(** The entry of class [AddUserInstructionEntry] with the given texts for
    its fields, in the order of the fields. *)
Definition add_user_entry (cells : list string) : dict :=
  list_to_map (zip CsvWriting.fieldnames (VStr <$> cells)).

Definition add_user_entries (rows : list (list string))
  : list CsvWriting.entry :=
  (fun cells => CsvWriting.Entry CsvWriting.AddUser (add_user_entry cells))
    <$> rows.


(** The desk at the [yield] of [open_for_writing]: the manager holds the
    file, which is open and has the header line only. *)
Definition at_yield (csv_writer : list string -> string)
    (d : CsvWriting.desk) : CsvWriting.desk :=
  CsvWriting.Desk
    (CsvWriting.set_handles (CsvWriting.self d)
       (Some (CsvManager.filename (CsvWriting.self d)))
       (Some CsvWriting.fieldnames))
    (<[CsvManager.filename (CsvWriting.self d)
       := [csv_writer CsvWriting.fieldnames]]> (CsvWriting.files d))
    true.

(** *** The photo update, row by row, as the platform sees it

    The relations below say what the attempt on a row is in terms of the
    answers of the platform, the calls it receives and the log, without
    reference to the operations of the connection manager. *)

(** All the records of [added] are of level INFO. *)
Definition informative (added : list log_record) : Prop :=
  Forall (fun r => levelname r = INFO) added.

(** From [w] to [w'] the log grew by records of level INFO, then by one
    record of level ERROR with [exc] as its exception. *)
Definition reported (exc : option exn) (w w' : world) : Prop :=
  exists added report,
    logged w' = (logged w ++ added ++ [report])%list /\ informative added /\
    levelname report = ERROR /\ exc_info report = exc.

(** From [w] to [w'] the log grew by records of level INFO only. *)
Definition unreported (w w' : world) : Prop :=
  exists added, logged w' = (logged w ++ added)%list /\ informative added.

(** The search of the user of a row, and the patch that gives the photo of
    the row to the user [id]. *)
Definition search_of (entry : dict) : remote_call :=
  SearchUsers 10 0 (filter_of entry).

Definition patch_of (entry : dict) (id : value) : remote_call :=
  PatchUser id (Photos [CsvManager.attr entry "photo_url"]).

Section Rows.

Context (sdk : SlackSDK).

(** How the lookup of a row ends, from the answer of the platform to the
    search, asked after the calls [h]: an answer with status 200 gives no
    user when it has no resource, the user when it has one, and an error
    when it has more; any other answer gives an error. *)
Inductive search_ends (h : list remote_call) (entry : dict)
  : result (option dict) -> Prop :=
| search_raises e :
    scim_search_users sdk h 10 0 (filter_of entry) = Raise e ->
    search_ends h entry (Raise e)
| search_bad_status response :
    scim_search_users sdk h 10 0 (filter_of entry) = Ok response ->
    search_status_code response <> 200 ->
    search_ends h entry
      (Raise (TypeError "exceptions must derive from BaseException"))
| search_none response :
    scim_search_users sdk h 10 0 (filter_of entry) = Ok response ->
    search_status_code response = 200 ->
    matching response = [] ->
    search_ends h entry (Ok None)
| search_one response user :
    scim_search_users sdk h 10 0 (filter_of entry) = Ok response ->
    search_status_code response = 200 ->
    matching response = [user] ->
    search_ends h entry (Ok (Some user))
| search_many response :
    scim_search_users sdk h 10 0 (filter_of entry) = Ok response ->
    search_status_code response = 200 ->
    (1 < length (matching response))%nat ->
    search_ends h entry
      (Raise (MultipleUsersWithSameEmailError
                ("Multiple users found with email "
                 ++ CsvManager.attr entry "user_email"))).

(** How the mutation of a row ends, from the answer of the platform to the
    patch of the photo of the user [id], asked after the calls [h]: an
    answer with status 200 is a success, any other answer an error. *)
Inductive patch_ends (h : list remote_call) (entry : dict) (id : value)
  : result unit -> Prop :=
| patch_accepted response :
    scim_patch_user sdk h id (Photos [CsvManager.attr entry "photo_url"])
    = Ok response ->
    patch_status_code response = 200 ->
    patch_ends h entry id (Ok tt)
| patch_raises e :
    scim_patch_user sdk h id (Photos [CsvManager.attr entry "photo_url"])
    = Raise e ->
    patch_ends h entry id (Raise e)
| patch_refused response errors :
    scim_patch_user sdk h id (Photos [CsvManager.attr entry "photo_url"])
    = Ok response ->
    patch_status_code response <> 200 ->
    patch_body_Errors response = Some errors ->
    patch_ends h entry id (Raise (ValueError errors))
| patch_refused_bare response :
    scim_patch_user sdk h id (Photos [CsvManager.attr entry "photo_url"])
    = Ok response ->
    patch_status_code response <> 200 ->
    patch_body_Errors response = None ->
    patch_ends h entry id (Raise (KeyError "Errors")).

(** [row_attempted entry w o w']: the row [entry], attempted from [w], ends
    with the outcome [o] in [w'].
    - The platform receives the search of the row, and nothing else unless
      the search finds a user with an id: it then receives the patch of the
      photo of the row for that id, and nothing else.
    - The row is mutated when the platform accepts that patch; the log then
      grows by records of level INFO only.
    - In every other case the log ends with one record of level ERROR:
      with the exception of the lookup, with no exception when no user is
      found, with the exception of the mutation. *)
Inductive row_attempted (entry : dict) (w : world) : outcome -> world -> Prop :=
| row_lookup_failed e w' :
    search_ends (calls w) entry (Raise e) ->
    calls w' = (calls w ++ [search_of entry])%list ->
    reported (Some e) w w' ->
    row_attempted entry w (LookupFailed e) w'
| row_not_found user w' :
    search_ends (calls w) entry (Ok user) ->
    UpdatePhoto.found user = false ->
    calls w' = (calls w ++ [search_of entry])%list ->
    reported None w w' ->
    row_attempted entry w NotFound w'
| row_without_id user e w' :
    search_ends (calls w) entry (Ok user) ->
    UpdatePhoto.found user = true ->
    SlackConnector.subscript user "id" = Raise e ->
    calls w' = (calls w ++ [search_of entry])%list ->
    reported (Some e) w w' ->
    row_attempted entry w (MutationFailed e) w'
| row_refused user id e w' :
    search_ends (calls w) entry (Ok user) ->
    UpdatePhoto.found user = true ->
    SlackConnector.subscript user "id" = Ok id ->
    patch_ends (calls w ++ [search_of entry]) entry id (Raise e) ->
    calls w' = (calls w ++ [search_of entry; patch_of entry id])%list ->
    reported (Some e) w w' ->
    row_attempted entry w (MutationFailed e) w'
| row_mutated user id w' :
    search_ends (calls w) entry (Ok user) ->
    UpdatePhoto.found user = true ->
    SlackConnector.subscript user "id" = Ok id ->
    patch_ends (calls w ++ [search_of entry]) entry id (Ok tt) ->
    calls w' = (calls w ++ [search_of entry; patch_of entry id])%list ->
    unreported w w' ->
    row_attempted entry w Mutated w'.

(** [rows_attempted entries w os w']: every row of [entries] is attempted,
    in order, each from where the attempt on the row before ended, whatever
    its outcome. *)
Inductive rows_attempted : list dict -> world -> list outcome -> world -> Prop :=
| rows_done w : rows_attempted [] w [] w
| rows_next entry rest w o w1 os w' :
    row_attempted entry w o w1 -> rows_attempted rest w1 os w' ->
    rows_attempted (entry :: rest) w (o :: os) w'.

End Rows.

End FurtherObservations.

Export FurtherObservations.

(** ** Further concrete platforms, clients and files *)

Module Cases.

(** A platform whose SCIM client answers every patch with [status]. *)
Definition patching (status : Z) : SlackSDK := {|
  scim_create_user := fun _ _ => Raise Scenarios.unreachable;
  scim_search_users := fun _ _ _ _ => Raise Scenarios.unreachable;
  scim_patch_user := fun _ _ _ =>
    Ok {| patch_status_code := status;
          patch_body_Errors := Some (VStr "user_not_found") |};
  admin_teams_list := fun _ => Raise Scenarios.unreachable;
  admin_teams_create := fun _ _ _ => Raise Scenarios.unreachable
|}.


(** A platform that keeps track of the teams it creates: the listing shows
    one team for each creation call issued so far. *)
Fixpoint created_teams (h : list remote_call) : list team :=
  match h with
  | [] => []
  | AdminTeamsCreate name _ :: rest =>
      {| team_name := name; team_id := "T-" ++ name |} :: created_teams rest
  | _ :: rest => created_teams rest
  end.

Definition bookkeeping : SlackSDK := {|
  scim_create_user := fun _ _ => Raise Scenarios.unreachable;
  scim_search_users := fun _ _ _ _ => Raise Scenarios.unreachable;
  scim_patch_user := fun _ _ _ => Raise Scenarios.unreachable;
  admin_teams_list := fun h =>
    Ok {| list_ok := true; teams := created_teams h |};
  admin_teams_create := fun _ name _ =>
    Ok {| create_ok := true; created_team := "T-" ++ name |}
|}.

Definition sales : Workspace :=
  {| workspace_slack_id := None; workspace_name := "Sales  EMEA" |}.


(** A Web client that serves the users of a team in two pages and accepts
    every invitation. *)
Definition erin : dict := <["id" := VStr "U10"]> ∅.
Definition frank : dict := <["id" := VStr "U11"]> ∅.
Definition grace : dict := <["id" := VStr "U12"]> ∅.

Definition two_pages : WebOperations.WebClient := {|
  WebOperations.conversations_create := fun _ name _ _ _ =>
    Ok {| WebOperations.created_channel_id := "C-" ++ name |};
  WebOperations.users_list := fun _ _ _ cursor =>
    match cursor with
    | None => Ok {| WebOperations.members := [erin; frank];
                    WebOperations.next_cursor := Some "page-2" |}
    | Some _ => Ok {| WebOperations.members := [grace];
                      WebOperations.next_cursor := Some "" |}
    end;
  WebOperations.admin_users_invite := fun _ _ _ _ _ _ => Ok tt
|}.

Definition engineering : Workspace :=
  {| workspace_slack_id := Some "T01"; workspace_name := "Engineering" |}.

Definition announcements : WebOperations.Channel := {|
  WebOperations.channel_slack_id := None;
  WebOperations.channel_name := "Team  Announcements";
  WebOperations.description := Some "news";
  WebOperations.main_workspace := "Engineering";
  WebOperations.additional_workspaces := []
|}.

Definition known_channel : WebOperations.Channel := {|
  WebOperations.channel_slack_id := Some "C77";
  WebOperations.channel_name := "Random";
  WebOperations.description := None;
  WebOperations.main_workspace := "Engineering";
  WebOperations.additional_workspaces := []
|}.

Definition start : WebOperations.session := WebOperations.Session (fresh 0) [].

(** A platform whose SCIM client answers every creation with status 500. *)
Definition failing_creation : SlackSDK :=
  Scenarios.creating (fun _ =>
    Ok {| create_status_code := 500;
          create_body := <["detail" := VStr "internal_error"]> ∅;
          create_errors_description := None |}).


(** Two rows of the shape [AddUserInstructionEntry]; a desk whose manager
    was made for a file that held its header only. *)
Definition memberships : list (list string) :=
  [["Engineering"; "T01"; "general"; "C01"; "erin@corp.example"; "U10"];
   ["Engineering"; "T01"; "random"; "C02"; "frank@corp.example"; "U11"]].

Definition memberships_desk : CsvWriting.desk :=
  CsvWriting.Desk (Scenarios.manager_of "instructions/add_users.csv" 0)
    (<["instructions/add_users.csv" := ["old line"]]> ∅) false.

Definition photo_entry : CsvWriting.entry :=
  CsvWriting.Entry CsvWriting.AssignPhoto
    (<["user_email" := VStr "erin@corp.example"]>
       (<["photo_url" := VStr "https://img.example/e.png"]> ∅)).

End Cases.

(** * Properties *)

(** ** The monad *)

Lemma Qltb_lt (a b : Q) : Qltb a b = true <-> (a < b)%Q.
Proof.
  unfold Qltb. rewrite negb_true_iff, <- not_true_iff_false, Qle_bool_iff.
  split; [apply Qnot_le_lt | apply Qlt_not_le].
Qed.

Lemma Qltb_ge (a b : Q) : Qltb a b = false <-> (b <= a)%Q.
Proof. unfold Qltb. rewrite negb_false_iff. apply Qle_bool_iff. Qed.

(** Unfolds one layer of the monad's operations. *)
Ltac run :=
  unfold mbind, M_bind, mret, M_ret, raise, raise_str, lift, try_except, remote,
    datetime_now, asyncio_sleep, get_debounce_data, set_debounce_data,
    log_info, log_warning, log_error, log_exception, emit, truediv; simpl.

(** ** Debouncing *)

Section DebounceFacts.

Import SlackConnector.

Context (LOG_DEBOUNCING : bool).

Lemma debounce_first k r w :
  _debounce_data w !! k = None ->
  _debounce LOG_DEBOUNCING k r w =
    (Ok tt, World (clock w) (<[k := clock w]> (_debounce_data w)) (sleeps w)
                  (logged w) (calls w)).
Proof. intros H. unfold _debounce. run. rewrite H. reflexivity. Qed.

Lemma debounce_within k r w last :
  _debounce_data w !! k = Some last -> r <> 0 ->
  (clock w - last < 60 / inject_Z r)%Q ->
  let sleep_time := (60 / inject_Z r - (clock w - last) + 1)%Q in
  _debounce LOG_DEBOUNCING k r w =
    (Ok tt, World (clock w + sleep_time) (<[k := clock w]> (_debounce_data w))
                  (sleeps w ++ [sleep_time])
                  (logged w ++ sleep_notice LOG_DEBOUNCING k sleep_time)
                  (calls w)).
Proof.
  intros H Hr Hlt. unfold _debounce, sleep_notice. run. rewrite H.
  apply Z.eqb_neq in Hr. rewrite Hr. simpl.
  apply Qltb_lt in Hlt. change (inject_Z 60) with 60%Q. rewrite Hlt.
  destruct LOG_DEBOUNCING; simpl; [reflexivity|].
  rewrite app_nil_r. reflexivity.
Qed.

Lemma debounce_after k r w last :
  _debounce_data w !! k = Some last -> r <> 0 ->
  (60 / inject_Z r <= clock w - last)%Q ->
  _debounce LOG_DEBOUNCING k r w =
    (Ok tt, World (clock w) (<[k := clock w]> (_debounce_data w)) (sleeps w)
                  (logged w) (calls w)).
Proof.
  intros H Hr Hge. unfold _debounce. run. rewrite H.
  apply Z.eqb_neq in Hr. rewrite Hr. simpl.
  apply Qltb_ge in Hge. change (inject_Z 60) with 60%Q. rewrite Hge.
  reflexivity.
Qed.

(** With a rate limit other than zero the step always returns, and it
    issues no remote call. *)
Lemma debounce_returns k r w :
  r <> 0 ->
  exists w', _debounce LOG_DEBOUNCING k r w = (Ok tt, w')
             /\ calls w' = calls w.
Proof.
  intros Hr. destruct (_debounce_data w !! k) as [last|] eqn:E.
  - destruct (Qlt_le_dec (clock w - last) (60 / inject_Z r)) as [Hlt|Hge].
    + eexists. split; [apply (debounce_within k r w last E Hr Hlt)|reflexivity].
    + eexists. split; [apply (debounce_after k r w last E Hr Hge)|reflexivity].
  - eexists. split; [apply (debounce_first k r w E)|reflexivity].
Qed.

(** One step, from any table: the step for key [k] at rate limit [r]
    returns, and: when no timestamp is recorded for [k] it introduces no
    wait; when a timestamp is recorded and less than [60/r] seconds have
    elapsed since, it sleeps once, for exactly [(60/r - elapsed) + 1]
    seconds; when at least [60/r] seconds have elapsed, it introduces no
    wait.  The rate limit must not be zero once a timestamp is recorded. *)
Lemma debounce_step (k : string) (r : Z) (w : world)
    (Hr : is_Some (_debounce_data w !! k) -> r <> 0) :
  fst (_debounce LOG_DEBOUNCING k r w) = Ok tt /\
  let w' := snd (_debounce LOG_DEBOUNCING k r w) in
  match _debounce_data w !! k with
  | None => no_wait w w'
  | Some recorded =>
      let elapsed := (clock w - recorded)%Q in
      ((elapsed < 60 / inject_Z r)%Q ->
         waited (60 / inject_Z r - elapsed + 1)%Q w w') /\
      ((60 / inject_Z r <= elapsed)%Q -> no_wait w w')
  end.
Proof.
  destruct (_debounce_data w !! k) as [recorded|] eqn:E.
  - assert (r <> 0) as Hr0 by (apply Hr; eauto).
    destruct (Qlt_le_dec (clock w - recorded) (60 / inject_Z r)) as [Hlt|Hge].
    + rewrite (debounce_within k r w recorded E Hr0 Hlt). simpl.
      split; [reflexivity|]. split.
      * intros _. split; reflexivity.
      * intros Hge. exfalso. apply (Qlt_not_le _ _ Hlt Hge).
    + rewrite (debounce_after k r w recorded E Hr0 Hge). simpl.
      split; [reflexivity|]. split.
      * intros Hlt. exfalso. apply (Qlt_not_le _ _ Hlt Hge).
      * intros _. split; reflexivity.
  - rewrite (debounce_first k r w E). simpl. split; [reflexivity|].
    split; reflexivity.
Qed.

End DebounceFacts.

(** C2.  Three calls for the key ["patch_user"] at 20 calls per minute, at
    time 0, then 0.1 s later, then 0.1 s after the second call returned.  The
    second call sleeps 3.9 s and returns at time 4, yet the timestamp it
    stores is 0.1, the time read before the sleep.  The third call, made 0.1 s
    after the second one proceeded, therefore sees 4 s elapsed and does not
    wait. *)
Theorem debounce_stores_time_read_before_sleep :
  Forall2 Qeq (sleeps Scenarios.after_second) [(39 # 10)%Q] /\
  (clock Scenarios.after_second == 4)%Q /\
  (exists stored, _debounce_data Scenarios.after_second !! "patch_user"
                  = Some stored /\ (stored == 1 # 10)%Q) /\
  sleeps Scenarios.after_third = sleeps Scenarios.after_second /\
  (clock Scenarios.after_third - clock Scenarios.after_second == 1 # 10)%Q.
Proof.
  split; [|split; [|split; [|split]]].
  - vm_compute. repeat constructor; discriminate.
  - vm_compute. reflexivity.
  - eexists. split; [vm_compute; reflexivity|]. reflexivity.
  - vm_compute. reflexivity.
  - vm_compute. reflexivity.
Qed.

Section DebounceStale.

Import SlackConnector.

(** Whenever the step sleeps, the timestamp it stores is the time at which
    it proceeds less the time slept. *)
Lemma debounce_stale_timestamp LOG_DEBOUNCING k r w last :
  _debounce_data w !! k = Some last -> r <> 0 ->
  (clock w - last < 60 / inject_Z r)%Q ->
  let w' := snd (_debounce LOG_DEBOUNCING k r w) in
  exists stored d,
    _debounce_data w' !! k = Some stored /\
    sleeps w' = (sleeps w ++ [d])%list /\ (1 < d)%Q /\
    (stored == clock w' - d)%Q.
Proof.
  intros E Hr Hlt. rewrite (debounce_within _ k r w last E Hr Hlt). simpl.
  eexists _, _. rewrite lookup_insert_eq.
  repeat split; [lra | ring].
Qed.

(** Two calls in a row, as a caller sees them: the first call ever made for
    [k], then a second call [elapsed] seconds later. *)
Lemma debounce_two_calls LOG_DEBOUNCING k r w elapsed :
  r <> 0 -> _debounce_data w !! k = None ->
  let w1 := snd (_debounce LOG_DEBOUNCING k r w) in
  let w1' := idle elapsed w1 in
  let w2 := snd (_debounce LOG_DEBOUNCING k r w1') in
  no_wait w w1 /\
  ((elapsed < 60 / inject_Z r)%Q ->
     exists d, (d == 60 / inject_Z r - elapsed + 1)%Q /\ waited d w1' w2) /\
  ((60 / inject_Z r <= elapsed)%Q -> no_wait w1' w2).
Proof.
  intros Hr E. rewrite (debounce_first _ k r w E). simpl.
  split; [split; reflexivity|].
  set (w1' := idle elapsed _).
  assert (_debounce_data w1' !! k = Some (clock w)) as E1
    by apply lookup_insert_eq.
  assert (clock w1' - clock w == elapsed)%Q as Hel by (simpl; ring).
  set (limit := (60 / inject_Z r)%Q) in *.
  split; intros H.
  - assert (clock w1' - clock w < limit)%Q as Hlt by (rewrite Hel; exact H).
    rewrite (debounce_within _ k r w1' _ E1 Hr Hlt). simpl.
    exists (limit - (clock w1' - clock w) + 1)%Q.
    split; [rewrite Hel; reflexivity | split; reflexivity].
  - assert (limit <= clock w1' - clock w)%Q as Hge by (rewrite Hel; exact H).
    rewrite (debounce_after _ k r w1' _ E1 Hr Hge). simpl.
    split; reflexivity.
Qed.

(** C1.  Take a key [k] for which no call was made yet, and a rate limit
    [r].  The first call of the debounce step for [k] returns without a
    wait and records the time of the call as the timestamp of [k].  When
    [r] is not zero, a second call for [k], made [elapsed] seconds after
    the first, returns too: it sleeps once, for [(60/r - elapsed) + 1]
    seconds exactly, when [elapsed < 60/r], and it introduces no wait when
    [60/r <= elapsed].  The same holds of any later call, with [elapsed]
    counted from the timestamp recorded for [k] at the time. *)
Theorem debounce_wait (LOG_DEBOUNCING : bool) (k : string) (r : Z)
    (w : world) (elapsed : Q)
    (Hnew : _debounce_data w !! k = None) :
  let first := _debounce LOG_DEBOUNCING k r w in
  let later := idle elapsed (snd first) in
  let second := _debounce LOG_DEBOUNCING k r later in
  (fst first = Ok tt /\ no_wait w (snd first) /\
   _debounce_data (snd first) !! k = Some (clock w)) /\
  (r <> 0 ->
   (fst second = Ok tt /\
    ((elapsed < 60 / inject_Z r)%Q ->
       exists d, (d == 60 / inject_Z r - elapsed + 1)%Q /\
                 waited d later (snd second)) /\
    ((60 / inject_Z r <= elapsed)%Q -> no_wait later (snd second))) /\
   (forall (v : world) (recorded : Q),
      _debounce_data v !! k = Some recorded ->
      let run := _debounce LOG_DEBOUNCING k r v in
      let since := (clock v - recorded)%Q in
      fst run = Ok tt /\
      ((since < 60 / inject_Z r)%Q ->
         waited (60 / inject_Z r - since + 1)%Q v (snd run)) /\
      ((60 / inject_Z r <= since)%Q -> no_wait v (snd run)))).
Proof.
  cbv zeta. split.
  - rewrite (debounce_first _ k r w Hnew). simpl.
    split; [reflexivity|]. split; [split; reflexivity|].
    apply lookup_insert_eq.
  - intros Hr. split.
    + pose proof (debounce_two_calls LOG_DEBOUNCING k r w elapsed Hr Hnew)
        as (_ & Hwithin & Hafter).
      split; [|split; [exact Hwithin | exact Hafter]].
      destruct (debounce_returns LOG_DEBOUNCING k r
                  (idle elapsed (snd (_debounce LOG_DEBOUNCING k r w))) Hr)
        as (w2 & -> & _).
      reflexivity.
    + intros v recorded Hv.
      pose proof (debounce_step LOG_DEBOUNCING k r v (fun _ => Hr)) as [H1 H2].
      cbv zeta in H2. rewrite Hv in H2. split; [exact H1 | exact H2].
Qed.

End DebounceStale.

(** C1 on two calls for ["patch_user"] at 20 calls per minute, in a process
    started at time 0, the second call 0.1 s after the first: the first call
    does not sleep and records time 0, the second sleeps once, for
    3 - 0.1 + 1 seconds. *)
Lemma debounce_wait_witness :
  sleeps Scenarios.after_first = [] /\
  _debounce_data Scenarios.after_first !! "patch_user" = Some 0%Q /\
  exists d, (d == 39 # 10)%Q /\ sleeps Scenarios.after_second = [d].
Proof.
  pose proof (debounce_wait false "patch_user" 20 (fresh 0) (1 # 10) eq_refl)
    as [(_ & [Hsleeps _] & Hstored) Hsecond].
  assert (20 <> 0) as Hrate by lia.
  destruct (Hsecond Hrate) as [(_ & Hwithin & _) _].
  assert (1 # 10 < 60 / inject_Z 20)%Q as Hearly by reflexivity.
  destruct (Hwithin Hearly) as (d & Hd & [Hslept _]).
  split; [exact Hsleeps|]. split; [exact Hstored|].
  exists d. split; [rewrite Hd; reflexivity | exact Hslept].
Defined.

(** ** Searching users *)

Section SearchFacts.

Import SlackConnector.

Context (sdk : SlackSDK) (LOG_DEBOUNCING : bool).

(** What [search_user] returns from a reply of the platform. *)
Lemma search_user_run user_email w :
  exists w1,
    _debounce LOG_DEBOUNCING "scim_search_users" 20 w = (Ok tt, w1) /\
    calls w1 = calls w /\
    search_user sdk LOG_DEBOUNCING user_email w =
      (match scim_search_users sdk (calls w) 10 0 ("email eq " ++ user_email) with
       | Raise e => Raise e
       | Ok response =>
           if negb (search_status_code response =? 200) then
             Raise (TypeError "exceptions must derive from BaseException")
           else
             match matching response with
             | [] => Ok None
             | [user] => Ok (Some user)
             | _ :: _ :: _ =>
                 Raise (MultipleUsersWithSameEmailError
                          ("Multiple users found with email " ++ user_email))
             end
       end,
       issued (SearchUsers 10 0 ("email eq " ++ user_email)) w1).
Proof.
  destruct (debounce_returns LOG_DEBOUNCING "scim_search_users" 20 w)
    as (w1 & E & Hc); [lia|].
  exists w1. split; [exact E|]. split; [exact Hc|].
  unfold search_user, issued. run. rewrite E, <- Hc. simpl.
  destruct (scim_search_users sdk (calls w1) 10 0 _) as [response|e];
    [|reflexivity].
  destruct (search_status_code response =? 200); simpl; [|reflexivity].
  unfold matching. destruct (Resources response) as [[|user [|other others]]|];
    try reflexivity.
  match goal with
  | |- context [1 <? ?n] =>
      replace (1 <? n) with true by (symmetry; apply Z.ltb_lt; cbn [length]; lia)
  end.
  reflexivity.
Qed.

(** [search_user] issues exactly one remote call, the search. *)
Lemma search_user_calls user_email w :
  calls (snd (search_user sdk LOG_DEBOUNCING user_email w))
  = (calls w ++ [SearchUsers 10 0 ("email eq " ++ user_email)])%list.
Proof.
  destruct (search_user_run user_email w) as (w1 & _ & Hc & ->).
  simpl. rewrite Hc. reflexivity.
Qed.

(** C3.  When the remote search answers with status 200, [search_user]
    returns [None] if the reply carries no matching resource, the single
    user record if it carries exactly one, and raises
    [MultipleUsersWithSameEmailError] if it carries two or more. *)
Theorem search_user_by_matches (user_email : string) (w : world)
    (response : SearchUsersResponse)
    (Hreply : scim_search_users sdk (calls w) 10 0 ("email eq " ++ user_email)
              = Ok response)
    (Hstatus : search_status_code response = 200) :
  let returned := fst (search_user sdk LOG_DEBOUNCING user_email w) in
  (length (matching response) = 0%nat -> returned = Ok None) /\
  (forall user, matching response = [user] -> returned = Ok (Some user)) /\
  ((2 <= length (matching response))%nat ->
     returned = Raise (MultipleUsersWithSameEmailError
                         ("Multiple users found with email " ++ user_email))).
Proof.
  destruct (search_user_run user_email w) as (w1 & _ & _ & ->).
  rewrite Hreply, Hstatus. simpl.
  destruct (matching response) as [|user [|other others]]; simpl.
  - repeat split; [intros user H; discriminate | lia].
  - repeat split; [discriminate | intros u [= ->]; reflexivity | lia].
  - repeat split; [discriminate | intros u H; discriminate].
Qed.

(** C8, as the code has it.  When the remote search answers with a status
    other than 200, [search_user] fails: its [raise] statement, given a
    string, raises [TypeError].  No result, absent or not, is returned. *)
Theorem search_user_fails_on_bad_status (user_email : string) (w : world)
    (response : SearchUsersResponse)
    (Hreply : scim_search_users sdk (calls w) 10 0 ("email eq " ++ user_email)
              = Ok response)
    (Hstatus : search_status_code response <> 200) :
  fst (search_user sdk LOG_DEBOUNCING user_email w)
  = Raise (TypeError "exceptions must derive from BaseException").
Proof.
  destruct (search_user_run user_email w) as (w1 & _ & _ & ->).
  rewrite Hreply. simpl. apply Z.eqb_neq in Hstatus. rewrite Hstatus.
  reflexivity.
Qed.

(** What [verify_deactivated_user_email] does with the result of the
    search. *)
Lemma verify_deactivated_after_search user_email w user_data w1 :
  search_user sdk LOG_DEBOUNCING user_email w = (Ok user_data, w1) ->
  fst (verify_deactivated_user_email sdk LOG_DEBOUNCING user_email w) =
    match user_data with
    | None => Raise (TypeError "'NoneType' object is not subscriptable")
    | Some d =>
        if dict_truthy d then
          match getitem d "active" with
          | Raise e => Raise e
          | Ok a => if truthy a then Raise UserIsActiveError
                    else getitem d "id"
          end
        else getitem d "id"
    end.
Proof.
  intros E. unfold verify_deactivated_user_email. run. rewrite E.
  destruct user_data as [d|]; simpl; [|reflexivity].
  destruct (dict_truthy d); simpl.
  - destruct (getitem d "active") as [a|e]; simpl; [|reflexivity].
    destruct (truthy a); simpl; [reflexivity|].
    destruct (getitem d "id"); reflexivity.
  - destruct (getitem d "id"); reflexivity.
Qed.

(** An active match makes the verification fail with [UserIsActiveError];
    an inactive match makes it return the record's id. *)
Lemma verify_deactivated_on_match user_email w user w1 active id :
  search_user sdk LOG_DEBOUNCING user_email w = (Ok (Some user), w1) ->
  user !! "active" = Some (VBool active) -> user !! "id" = Some id ->
  fst (verify_deactivated_user_email sdk LOG_DEBOUNCING user_email w) =
    if active then Raise UserIsActiveError else Ok id.
Proof.
  intros E Ha Hid. rewrite (verify_deactivated_after_search _ _ _ _ E).
  assert (dict_truthy user = true) as ->.
  { unfold dict_truthy. rewrite bool_decide_eq_false_2; [reflexivity|].
    intros ->. rewrite lookup_empty in Hid. discriminate. }
  unfold getitem. rewrite Ha, Hid. reflexivity.
Qed.

(** No match makes the verification fail on the subscript of [None]. *)
Lemma verify_deactivated_on_no_match user_email w response :
  scim_search_users sdk (calls w) 10 0 ("email eq " ++ user_email)
  = Ok response ->
  search_status_code response = 200 -> matching response = [] ->
  fst (verify_deactivated_user_email sdk LOG_DEBOUNCING user_email w)
  = Raise (TypeError "'NoneType' object is not subscriptable").
Proof.
  intros Hreply Hstatus Hnone.
  destruct (search_user_run user_email w) as (w1 & _ & _ & E).
  rewrite Hreply, Hstatus, Hnone in E. simpl in E.
  rewrite (verify_deactivated_after_search _ _ _ _ E). reflexivity.
Qed.

End SearchFacts.

(** C3 on a one-match reply: the record is returned. *)
Lemma search_user_by_matches_witness :
  fst (SlackConnector.search_user Scenarios.only_alice false "alice@corp.example"
         (fresh 0))
  = Ok (Some Scenarios.alice).
Proof.
  refine (proj1 (proj2 (search_user_by_matches Scenarios.only_alice false
            "alice@corp.example" (fresh 0)
            {| search_status_code := 200; Resources := Some [Scenarios.alice] |}
            eq_refl eq_refl)) Scenarios.alice eq_refl).
Defined.

Example search_user_no_match :
  fst (SlackConnector.search_user Scenarios.nobody false "carol@corp.example"
         (fresh 0)) = Ok None.
Proof. vm_compute. reflexivity. Qed.

Example search_user_two_matches :
  fst (SlackConnector.search_user Scenarios.twins false "alice@corp.example"
         (fresh 0))
  = Raise (MultipleUsersWithSameEmailError
             "Multiple users found with email alice@corp.example").
Proof. vm_compute. reflexivity. Qed.

(** C8 as stated fails: on a reply with status 500 [search_user] does not
    return an absent result, it raises. *)
Lemma search_user_bad_status_not_absent :
  fst (SlackConnector.search_user Scenarios.broken_search false
         "alice@corp.example" (fresh 0))
  = Raise (TypeError "exceptions must derive from BaseException")
  /\ fst (SlackConnector.search_user Scenarios.broken_search false
            "alice@corp.example" (fresh 0)) <> Ok None.
Proof. split; [vm_compute; reflexivity | vm_compute; discriminate]. Qed.

Lemma search_user_fails_on_bad_status_witness :
  fst (SlackConnector.search_user Scenarios.broken_search true
         "alice@corp.example" Scenarios.just_patched)
  = Raise (TypeError "exceptions must derive from BaseException").
Proof.
  apply (search_user_fails_on_bad_status Scenarios.broken_search true
           "alice@corp.example" Scenarios.just_patched
           {| search_status_code := 500; Resources := None |} eq_refl).
  simpl. lia.
Defined.

(** C7.  The search finds no user for the email: the verification does not
    return, it raises [TypeError] on the subscript of [None]. *)
Theorem verify_deactivated_raises_when_no_match :
  fst (SlackConnector.verify_deactivated_user_email Scenarios.nobody false
         "carol@corp.example" (fresh 0))
  = Raise (TypeError "'NoneType' object is not subscriptable").
Proof. vm_compute. reflexivity. Qed.

Example verify_deactivated_active :
  fst (SlackConnector.verify_deactivated_user_email Scenarios.only_alice false
         "alice@corp.example" (fresh 0)) = Raise UserIsActiveError.
Proof. vm_compute. reflexivity. Qed.

Example verify_deactivated_inactive :
  fst (SlackConnector.verify_deactivated_user_email Scenarios.only_former_bob
         false "bob@corp.example" (fresh 0)) = Ok (VStr "U02").
Proof. vm_compute. reflexivity. Qed.

(** ** Creating users *)

Section CreationFacts.

Import SlackConnector.

Context (sdk : SlackSDK) (LOG_DEBOUNCING : bool).

(** What [_create_slack_user] makes of the platform's reply. *)
Lemma create_slack_user_run scim_user w :
  exists w1,
    _debounce LOG_DEBOUNCING "create_user" 20 w = (Ok tt, w1) /\
    calls w1 = calls w /\
    _create_slack_user sdk LOG_DEBOUNCING scim_user w =
      (match scim_create_user sdk (calls w) scim_user with
       | Raise e => Raise e
       | Ok response =>
           if create_status_code response =? 201 then
             getitem (create_body response) "id"
           else if (create_status_code response =? 400)
                   || (create_status_code response =? 409) then
             match create_errors_description response with
             | None => Raise (AttributeError
                         "'NoneType' object has no attribute 'description'")
             | Some description =>
                 if bool_decide (split_head " " description
                                 ∈ bad_username_errors)
                 then Raise (BadUsernameError (create_body response))
                 else Ok VNone
             end
           else Raise (UnknownSlackUserCreationError (create_body response))
       end,
       issued (CreateUser scim_user) w1).
Proof.
  destruct (debounce_returns LOG_DEBOUNCING "create_user" 20 w)
    as (w1 & E & Hc); [lia|].
  exists w1. split; [exact E|]. split; [exact Hc|].
  unfold _create_slack_user, issued. run. rewrite E, <- Hc. simpl.
  destruct (scim_create_user sdk (calls w1) scim_user) as [response|e];
    [|reflexivity].
  destruct (create_status_code response =? 201); simpl.
  { destruct (getitem (create_body response) "id"); reflexivity. }
  destruct ((create_status_code response =? 400)
            || (create_status_code response =? 409)); simpl; [|reflexivity].
  destruct (create_errors_description response) as [description|]; simpl;
    [|reflexivity].
  destruct (bool_decide _); reflexivity.
Qed.

(** [_create_slack_user] issues exactly one remote call, the creation. *)
Lemma create_slack_user_calls scim_user w :
  calls (snd (_create_slack_user sdk LOG_DEBOUNCING scim_user w))
  = (calls w ++ [CreateUser scim_user])%list.
Proof.
  destruct (create_slack_user_run scim_user w) as (w1 & _ & Hc & ->).
  simpl. rewrite Hc. reflexivity.
Qed.

(** When the first creation raises [BadUsernameError], the creation is
    attempted once more, with the local part of the email as username, and
    the outcome of that second attempt is the outcome of the upload:
    its id is logged and returned, its exception propagates as it is. *)
Lemma upload_retries_once user w body w1 :
  _create_slack_user sdk LOG_DEBOUNCING (first_payload user) w
  = (Raise (BadUsernameError body), w1) ->
  exists warning r2 w2,
    _create_slack_user sdk LOG_DEBOUNCING (retry_payload user)
      (noted warning w1) = (r2, w2) /\
    levelname warning = WARNING /\
    userName (retry_payload user) = strip (split_head "@" (email user)) /\
    calls w2 = (calls w ++ [CreateUser (first_payload user);
                            CreateUser (retry_payload user)])%list /\
    match r2 with
    | Ok id =>
        exists success,
          upload_new_single_user sdk LOG_DEBOUNCING user w
          = (Ok id, noted success w2) /\
          levelname success = INFO /\ OfValue id ∈ message success
    | Raise e =>
        upload_new_single_user sdk LOG_DEBOUNCING user w = (Raise e, w2)
    end.
Proof.
  intros E1.
  pose proof (create_slack_user_calls (first_payload user) w) as Hc1.
  rewrite E1 in Hc1. simpl in Hc1.
  eexists (LogRecord WARNING _ None).
  destruct (_create_slack_user sdk LOG_DEBOUNCING (retry_payload user)
              (noted (LogRecord WARNING
                 [Lit "Full name is too long for user "; Lit (email user);
                  Lit ". Using short name '";
                  Lit (split_head "@" (email user)); Lit "'."] None) w1))
    as [r2 w2] eqn:E2.
  exists r2, w2. split; [exact E2|]. split; [reflexivity|].
  split; [reflexivity|]. split.
  { pose proof (create_slack_user_calls (retry_payload user)
                  (noted (LogRecord WARNING
                     [Lit "Full name is too long for user "; Lit (email user);
                      Lit ". Using short name '";
                      Lit (split_head "@" (email user)); Lit "'."] None) w1))
      as Hc2.
    rewrite E2 in Hc2. simpl in Hc2. rewrite Hc2, Hc1, <- app_assoc.
    reflexivity. }
  unfold upload_new_single_user. fold (first_payload user).
  fold (retry_payload user). run. rewrite E1. simpl.
  unfold noted in E2. rewrite E2.
  destruct r2 as [id|e]; [|reflexivity].
  eexists (LogRecord INFO _ None). split; [reflexivity|].
  split; [reflexivity|]. simpl. set_solver.
Qed.

(** A first creation answered with status 201 is logged and its id
    returned. *)
Lemma upload_returns_created_id user w response id :
  scim_create_user sdk (calls w) (first_payload user) = Ok response ->
  create_status_code response = 201 ->
  create_body response !! "id" = Some id ->
  exists w1 success,
    upload_new_single_user sdk LOG_DEBOUNCING user w
    = (Ok id, noted success w1) /\
    levelname success = INFO /\ OfValue id ∈ message success /\
    calls w1 = (calls w ++ [CreateUser (first_payload user)])%list.
Proof.
  intros Hreply Hstatus Hid.
  destruct (create_slack_user_run (first_payload user) w)
    as (w0 & _ & Hc & E).
  rewrite Hreply, Hstatus in E. simpl in E. unfold getitem in E.
  rewrite Hid in E.
  exists (issued (CreateUser (first_payload user)) w0).
  eexists (LogRecord INFO _ None).
  unfold upload_new_single_user. fold (first_payload user). run.
  rewrite E. simpl. split; [reflexivity|]. split; [reflexivity|].
  split; [set_solver|]. simpl. rewrite Hc. reflexivity.
Qed.

(** A first creation answered with status 400 or 409 for a reason other
    than the username raises nothing: the upload logs a success and
    returns [None]. *)
Lemma upload_passes_over_other_rejections user w response description :
  scim_create_user sdk (calls w) (first_payload user) = Ok response ->
  create_status_code response = 400 \/ create_status_code response = 409 ->
  create_errors_description response = Some description ->
  split_head " " description ∉ bad_username_errors ->
  exists w1 success,
    upload_new_single_user sdk LOG_DEBOUNCING user w
    = (Ok VNone, noted success w1) /\
    levelname success = INFO /\ logged w1 = logged (snd (_debounce
      LOG_DEBOUNCING "create_user" 20 w)).
Proof.
  intros Hreply Hstatus Hdesc Hother.
  destruct (create_slack_user_run (first_payload user) w)
    as (w0 & E0 & Hc & E).
  rewrite Hreply, Hdesc in E.
  assert ((create_status_code response =? 201) = false) as Hne
    by (apply Z.eqb_neq; lia).
  assert (((create_status_code response =? 400)
           || (create_status_code response =? 409)) = true) as Hor.
  { apply orb_true_iff. rewrite !Z.eqb_eq. exact Hstatus. }
  rewrite Hne, Hor, bool_decide_eq_false_2 in E by exact Hother.
  exists (issued (CreateUser (first_payload user)) w0).
  eexists (LogRecord INFO _ None).
  unfold upload_new_single_user. fold (first_payload user). run.
  rewrite E, E0. simpl. split; [reflexivity|]. split; reflexivity.
Qed.

End CreationFacts.

(** C5.  The platform rejects the creation with status 400 and a reason that
    is not about the username.  [upload_new_single_user] raises nothing and
    logs no failure: after the single creation call it logs a success with id
    [None] and returns [None]. *)
Theorem upload_reports_success_on_other_rejection :
  let run := SlackConnector.upload_new_single_user Scenarios.rejecting_email
               false Scenarios.dana (fresh 0) in
  fst run = Ok VNone /\
  logged (snd run)
  = [LogRecord INFO [Lit "User "; Lit "dana.scully@corp.example";
                     Lit " created successfully. Slack ID: "; OfValue VNone]
                    None] /\
  length (calls (snd run)) = 1%nat.
Proof. vm_compute. repeat split; reflexivity. Qed.

(** The retry: the full name is refused as too long, the local part of the
    email is accepted. *)
Example upload_retry_with_local_part :
  let run := SlackConnector.upload_new_single_user Scenarios.long_name_then_fine
               false Scenarios.dana (fresh 0) in
  fst run = Ok (VStr "U07") /\
  userName <$> (calls (snd run) ≫= fun c =>
                  match c with CreateUser u => [u] | _ => [] end)
  = ["Dana Katherine Scully"; "dana.scully"].
Proof. vm_compute. split; reflexivity. Qed.

(** No second retry: a username refused twice ends the upload after two
    creation calls. *)
Example upload_gives_up_after_one_retry :
  let run := SlackConnector.upload_new_single_user Scenarios.always_taken
               false Scenarios.dana (fresh 0) in
  fst run = Raise (BadUsernameError ∅) /\ length (calls (snd run)) = 2%nat.
Proof. vm_compute. split; reflexivity. Qed.

(** ** Creating workspaces *)

Section WorkspaceFacts.

Import SlackConnector.

Context (sdk : SlackSDK) (LOG_DEBOUNCING : bool).


End WorkspaceFacts.



(** When the platform already lists a team of that name, the long domain is
    never looked at: the id of the team is returned. *)
Example create_workspace_returns_existing :
  fst (SlackConnector.create_workspace_in_slack
         (Scenarios.with_teams
            [{| team_name := "Training ABCDEFGHIJKLMNOP"; team_id := "T42" |}])
         false Scenarios.training (fresh 0))
  = Ok "T42".
Proof. vm_compute. reflexivity. Qed.

(** ** Reading instructions *)

Import CsvManager.

Section CsvFacts.

Lemma validate_reports_lacking (model_fields : list FieldInfo) (d : row) f :
  f ∈ model_fields -> is_required f = true -> lacks d (field_name f) ->
  exists kind, (field_name f, kind) ∈ (validate model_fields d).2.
Proof.
  intros Hin Hreq Hlacks. induction model_fields as [|g fields IH].
  - inversion Hin.
  - simpl. destruct (validate fields d) as [instance errors] eqn:E.
    apply elem_of_cons in Hin as [<-|Hin].
    + unfold validate_field.
      destruct Hlacks as [-> | ->].
      * rewrite Hreq. eexists. simpl. left.
      * destruct (field_type f); eexists; simpl; left.
    + destruct (IH Hin) as [kind Hk]. exists kind. simpl in Hk.
      destruct (validate_field g (d !! Some (field_name g))); simpl;
        [exact Hk | right; exact Hk].
Qed.

(** A row that gives nothing for a required field is refused. *)
Lemma BaseModel_refuses_lacking (model_fields : list FieldInfo) (d : row) f :
  f ∈ model_fields -> is_required f = true -> lacks d (field_name f) ->
  exists e, BaseModel model_fields d = Raise e.
Proof.
  intros Hin Hreq Hlacks.
  destruct (validate_reports_lacking model_fields d f Hin Hreq Hlacks)
    as [kind Hk].
  unfold BaseModel. destruct (bool_decide _); [eauto|].
  destruct (validate model_fields d) as [instance [|err errors]]; [|eauto].
  simpl in Hk. inversion Hk.
Qed.

Lemma validate_ignores_extra (model_fields : list FieldInfo) (d : row) k :
  (forall f, f ∈ model_fields -> field_name f <> k) ->
  validate model_fields (delete (Some k) d) = validate model_fields d.
Proof.
  intros Hextra. induction model_fields as [|g fields IH]; [reflexivity|].
  simpl. rewrite IH by (intros f Hf; apply Hextra; right; exact Hf).
  rewrite lookup_delete_ne; [reflexivity|].
  intros [= Heq]. apply (Hextra g); [left | symmetry; exact Heq].
Qed.

(** A key that names no field changes nothing to the construction. *)
Lemma BaseModel_ignores_extra (model_fields : list FieldInfo) (d : row) k :
  (forall f, f ∈ model_fields -> field_name f <> k) ->
  BaseModel model_fields d = BaseModel model_fields (delete (Some k) d).
Proof.
  intros Hextra. unfold BaseModel.
  rewrite (validate_ignores_extra model_fields d k Hextra).
  rewrite lookup_delete_ne by discriminate. reflexivity.
Qed.

(** The generator stops at the first row whose construction raises. *)
Lemma yield_rows_stops instructions_type before d after e :
  Forall (fun r => exists entry, instructions_type r = Ok entry) before ->
  instructions_type d = Raise e ->
  raised (yield_rows instructions_type (before ++ d :: after)) = Some e /\
  length (yielded (yield_rows instructions_type (before ++ d :: after)))
  = length before.
Proof.
  intros Hbefore Hd. induction Hbefore as [|r before [entry Hr] _ IH]; simpl.
  - rewrite Hd. split; reflexivity.
  - rewrite Hr. simpl. destruct IH as [-> ->]. split; reflexivity.
Qed.

Context (files : gmap string (list string))
        (csv_reader : list string -> list (list string)).

(** C9, as the code has it.  Let a file be read as instructions of the shape
    [model_fields], and let [d] be one of its rows, the rows before it being
    well formed.  If [d] gives nothing for a required field of the shape, its
    construction raises and that exception ends the sequence: the rows
    before [d] are yielded and nothing after them.  A key of [d] that names
    no field of the shape is ignored: [d] is constructed as the row without
    that key is. *)
Theorem read_entries_row_shape (model_fields : list FieldInfo)
    (self : CSVInstructionManager) (file : list string)
    (before : list row) (d : row) (after : list row)
    (Hfile : files !! filename self = Some file)
    (Hrows : DictReader (csv_reader file) = (before ++ d :: after)%list)
    (Hbefore : Forall (fun r => exists entry, BaseModel model_fields r = Ok entry)
                 before) :
  let g := _read_entries files csv_reader self (BaseModel model_fields) in
  (forall f, f ∈ model_fields -> is_required f = true ->
             lacks d (field_name f) ->
     exists e, BaseModel model_fields d = Raise e /\ raised g = Some e /\
               length (yielded g) = length before) /\
  (forall k, (forall f, f ∈ model_fields -> field_name f <> k) ->
     BaseModel model_fields d = BaseModel model_fields (delete (Some k) d)).
Proof.
  split.
  - intros f Hin Hreq Hlacks.
    destruct (BaseModel_refuses_lacking model_fields d f Hin Hreq Hlacks)
      as [e He].
    exists e. split; [exact He|]. unfold _read_entries. rewrite Hfile, Hrows.
    apply yield_rows_stops; assumption.
  - intros k Hextra. apply BaseModel_ignores_extra. exact Hextra.
Qed.

(** C10.  Constructing the manager for a file that can be opened succeeds and
    sets [total_instructions] to the number of lines of the file less one,
    whatever that number: -1 for a file without lines, 0 for a file with its
    header only.  The construction fails exactly when the file cannot be
    opened. *)
Theorem total_instructions_is_lines_less_one (filename : string) :
  match files !! filename with
  | Some file =>
      exists manager,
        __init__ files filename = Ok manager /\
        total_instructions manager = Z.of_nat (length file) - 1 /\
        (file = [] -> total_instructions manager = -1) /\
        (forall header, file = [header] -> total_instructions manager = 0)
  | None => __init__ files filename = Raise (FileNotFoundError filename)
  end.
Proof.
  unfold __init__. destruct (files !! filename) as [file|]; [|reflexivity].
  eexists. split; [reflexivity|]. simpl. split; [reflexivity|].
  split; [intros ->; reflexivity | intros header ->; reflexivity].
Qed.

End CsvFacts.

(** C9 on the file [short_row]: its second row is short, the first row is
    yielded and the sequence ends with the exception of the second. *)
Lemma read_entries_row_shape_witness :
  let g := CsvManager.yield_assign_photo_instructions Scenarios.disk
             CsvManager.plain_csv_reader
             (Scenarios.manager_of "instructions/short_row.csv" 3) in
  exists e, raised g = Some e /\ length (yielded g) = 1%nat.
Proof.
  destruct (proj1 (read_entries_row_shape Scenarios.disk
              CsvManager.plain_csv_reader CsvManager.AssignPhotoInstructionEntry
              (Scenarios.manager_of "instructions/short_row.csv" 3)
              Scenarios.short_row
              [CsvManager.row_of Scenarios.photo_header
                 ["a@corp.example"; "https://img.example/a.png"]]
              (CsvManager.row_of Scenarios.photo_header ["b@corp.example"])
              [CsvManager.row_of Scenarios.photo_header
                 ["c@corp.example"; "https://img.example/c.png"]]
              eq_refl
              ltac:(vm_compute; reflexivity)
              ltac:(repeat constructor; eexists; vm_compute; reflexivity))
            (CsvManager.required "photo_url")
            ltac:(set_solver) eq_refl
            ltac:(right; vm_compute; reflexivity))
    as (e & _ & Hraised & Hyielded).
  exists e. split; [exact Hraised | exact Hyielded].
Defined.

(** C9 as stated fails: the row of [annotated_photos] carries a field the
    shape does not have, and it is not rejected; the entry is yielded. *)
Lemma read_entries_accepts_extra_field :
  let g := CsvManager.yield_assign_photo_instructions Scenarios.disk
             CsvManager.plain_csv_reader
             (Scenarios.manager_of "instructions/annotated.csv" 1) in
  raised g = None /\
  yielded g = [<["user_email" := VStr "a@corp.example"]>
               (<["photo_url" := VStr "https://img.example/a.png"]> ∅)].
Proof. vm_compute. split; reflexivity. Qed.

(** A record with more cells than the header has its surplus under the key
    [None], which cannot be passed as a keyword. *)
Example surplus_cells_are_refused :
  BaseModel AssignPhotoInstructionEntry
    (row_of Scenarios.photo_header
       ["a@corp.example"; "https://img.example/a.png"; "new badge"])
  = Raise (TypeError "keywords must be strings").
Proof. vm_compute. reflexivity. Qed.

Example total_instructions_of_empty_file :
  total_instructions <$>
    (match CsvManager.__init__ Scenarios.disk "instructions/empty.csv" with
     | Ok manager => Some manager
     | Raise _ => None
     end) = Some (-1).
Proof. reflexivity. Qed.

Example total_instructions_of_header_only_file :
  CsvManager.__init__ Scenarios.disk "instructions/header_only.csv"
  = Ok (Scenarios.manager_of "instructions/header_only.csv" 0).
Proof. reflexivity. Qed.

Example no_manager_for_missing_file :
  CsvManager.__init__ Scenarios.disk "instructions/nowhere.csv"
  = Raise (FileNotFoundError "instructions/nowhere.csv").
Proof. reflexivity. Qed.

(** ** The photo-update processor *)

Section ProcessorFacts.

Import SlackConnector UpdatePhoto.

Context (sdk : SlackSDK) (LOG_DEBOUNCING : bool).

Lemma searched_app (cs1 cs2 : list remote_call) :
  searched (cs1 ++ cs2) = (searched cs1 ++ searched cs2)%list.
Proof.
  induction cs1 as [|c cs1 IH]; [reflexivity|].
  destruct c; simpl; rewrite IH; reflexivity.
Qed.

(** [update_photo] issues one remote call, the patch. *)
Lemma update_photo_calls user_id photo_url w :
  calls (snd (update_photo sdk LOG_DEBOUNCING user_id photo_url w))
  = (calls w ++ [PatchUser user_id (Photos [photo_url])])%list.
Proof.
  destruct (debounce_returns LOG_DEBOUNCING "patch_user" 20 w)
    as (w1 & E & Hc); [lia|].
  unfold update_photo. run. rewrite E. simpl.
  destruct (scim_patch_user sdk (calls w1) user_id (Photos [photo_url]))
    as [response|e]; simpl; [|rewrite Hc; reflexivity].
  destruct (patch_status_code response =? 200); simpl;
    [rewrite Hc; reflexivity|].
  destruct (patch_body_Errors response); simpl; rewrite Hc; reflexivity.
Qed.

(** The mutation of a row issues no search. *)
Lemma mutation_searches_nothing entry user w :
  searched (calls (snd (mutation sdk LOG_DEBOUNCING entry user w)))
  = searched (calls w).
Proof.
  unfold mutation. run. destruct (subscript user "id") as [user_id|e];
    [|reflexivity].
  pose proof (update_photo_calls user_id (attr entry "photo_url") w) as Hc.
  destruct (update_photo sdk LOG_DEBOUNCING user_id (attr entry "photo_url") w)
    as [r w2].
  simpl in Hc |- *. rewrite Hc, searched_app. simpl. apply app_nil_r.
Qed.

(** The body of the loop never raises: it ends the attempt on its row with
    one of the four outcomes, after exactly one search, that of the row. *)
Lemma process_entry_attempts entry w :
  exists o w',
    process_entry sdk LOG_DEBOUNCING entry w = (Ok tt, w') /\
    attempt sdk LOG_DEBOUNCING entry w o w' /\
    searched (calls w') = (searched (calls w) ++ [filter_of entry])%list.
Proof.
  set (announcement := LogRecord INFO
         [Lit "Working on "; Lit (attr entry "user_email")] None).
  pose proof (search_user_calls sdk LOG_DEBOUNCING (attr entry "user_email")
                (noted announcement w)) as Hc.
  destruct (search_user sdk LOG_DEBOUNCING (attr entry "user_email")
              (noted announcement w)) as [[user|e] w1] eqn:E;
    simpl in Hc.
  - destruct (found user) eqn:Hfound.
    + pose proof (mutation_searches_nothing entry user w1) as Hm.
      destruct (mutation sdk LOG_DEBOUNCING entry user w1) as [[[]|e] w2] eqn:E2;
        simpl in Hm.
      * exists Mutated, w2. split; [|split].
        -- unfold process_entry. run. fold announcement. unfold noted in E.
           rewrite E. simpl. rewrite Hfound. simpl.
           unfold mutation in E2. revert E2. run. intros ->. reflexivity.
        -- eapply attempt_mutated with (announcement := announcement); eauto.
        -- rewrite Hm, Hc, searched_app. reflexivity.
      * eexists (MutationFailed e), (noted (LogRecord ERROR _ (Some e)) w2).
        split; [|split].
        -- unfold process_entry. run. fold announcement. unfold noted in E.
           rewrite E. simpl. rewrite Hfound. simpl.
           unfold mutation in E2. revert E2. run. intros ->. reflexivity.
        -- eapply attempt_mutation_failed with (announcement := announcement);
             eauto.
        -- simpl. rewrite Hm, Hc, searched_app. reflexivity.
    + eexists NotFound, (noted (LogRecord ERROR _ None) w1). split; [|split].
      * unfold process_entry. run. fold announcement. unfold noted in E.
        rewrite E. simpl. rewrite Hfound. reflexivity.
      * eapply attempt_not_found with (announcement := announcement); eauto.
      * simpl. rewrite Hc, searched_app. reflexivity.
  - destruct (is_ValueError e) eqn:Hclass.
    + eexists (LookupFailed e), (noted (LogRecord ERROR _ (Some e)) w1).
      split; [|split].
      * unfold process_entry. run. fold announcement. unfold noted in E.
        rewrite E. simpl. rewrite Hclass. reflexivity.
      * eapply attempt_lookup_failed with (announcement := announcement); eauto.
      * simpl. rewrite Hc, searched_app. reflexivity.
    + eexists (LookupFailed e), (noted (LogRecord ERROR _ (Some e)) w1).
      split; [|split].
      * unfold process_entry. run. fold announcement. unfold noted in E.
        rewrite E. simpl. rewrite Hclass. reflexivity.
      * eapply attempt_lookup_failed with (announcement := announcement); eauto.
      * simpl. rewrite Hc, searched_app. reflexivity.
Qed.

(** The loop attempts every entry, in order, and returns. *)
Lemma for_each_batch entries w :
  exists outcomes w',
    for_each entries (process_entry sdk LOG_DEBOUNCING) w = (Ok tt, w') /\
    batch sdk LOG_DEBOUNCING entries w outcomes w' /\
    searched (calls w') = (searched (calls w) ++ (filter_of <$> entries))%list.
Proof.
  revert w. induction entries as [|entry rest IH]; intros w.
  - exists [], w. split; [reflexivity|]. split; [constructor|].
    simpl. rewrite app_nil_r. reflexivity.
  - destruct (process_entry_attempts entry w) as (o & w1 & E1 & Ha & Hs1).
    destruct (IH w1) as (os & w' & E & Hb & Hs).
    exists (o :: os), w'. split; [|split].
    + simpl. run. rewrite E1. exact E.
    + econstructor; eassumption.
    + rewrite Hs, Hs1, <- app_assoc. reflexivity.
Qed.

End ProcessorFacts.

(** The scenario of C4 in full.  Rows for a@, b@ and c@; the directory knows
    a@ and c@ and refuses the photo of c@.  The processor returns normally;
    a@ is mutated, b@ is reported as not found, c@ is reported with the
    exception of its mutation; the remote calls are the search and the patch
    for a@, the search for b@, the search and the patch for c@. *)
Example three_row_scenario :
  let run := UpdatePhoto.update_user_photo_processor Scenarios.directory false
               Scenarios.disk plain_csv_reader
               (Scenarios.manager_of "instructions/update_user_photos.csv" 3)
               (fresh 0) in
  fst run = Ok tt /\
  calls (snd run)
  = [SearchUsers 10 0 "email eq a@corp.example";
     PatchUser (VStr "UA") (Photos ["https://img.example/a.png"]);
     SearchUsers 10 0 "email eq b@corp.example";
     SearchUsers 10 0 "email eq c@corp.example";
     PatchUser (VStr "UC") (Photos ["https://img.example/c.png"])] /\
  logged (snd run)
  = [LogRecord INFO [Lit "Working on "; Lit "a@corp.example"] None;
     LogRecord INFO [Lit "Working on "; Lit "b@corp.example"] None;
     LogRecord ERROR [Lit "User '"; Lit "b@corp.example";
                      Lit "' not found in Slack"] None;
     LogRecord INFO [Lit "Working on "; Lit "c@corp.example"] None;
     LogRecord ERROR [Lit "Failed to update photo for user '";
                      Lit "c@corp.example"; Lit "': ";
                      OfExn (ValueError (VStr "invalid_photo"))]
               (Some (ValueError (VStr "invalid_photo")))] /\
  batch Scenarios.directory false
    (yielded (yield_assign_photo_instructions Scenarios.disk plain_csv_reader
                (Scenarios.manager_of "instructions/update_user_photos.csv" 3)))
    (fresh 0)
    [Mutated; NotFound; MutationFailed (ValueError (VStr "invalid_photo"))]
    (snd run).
Proof.
  split; [vm_compute; reflexivity|].
  split; [vm_compute; reflexivity|].
  split; [vm_compute; reflexivity|].
  cbv zeta.
  eapply batch_next.
  { eapply attempt_mutated
      with (announcement := LogRecord INFO
              [Lit "Working on "; Lit "a@corp.example"] None);
      [reflexivity | vm_compute; reflexivity | reflexivity
      | vm_compute; reflexivity]. }
  eapply batch_next.
  { eapply attempt_not_found
      with (announcement := LogRecord INFO
              [Lit "Working on "; Lit "b@corp.example"] None)
           (report := LogRecord ERROR
              [Lit "User '"; Lit "b@corp.example"; Lit "' not found in Slack"]
              None);
      [reflexivity | vm_compute; reflexivity | reflexivity | reflexivity
      | reflexivity]. }
  eapply batch_next.
  { eapply attempt_mutation_failed
      with (announcement := LogRecord INFO
              [Lit "Working on "; Lit "c@corp.example"] None)
           (report := LogRecord ERROR
              [Lit "Failed to update photo for user '"; Lit "c@corp.example";
               Lit "': "; OfExn (ValueError (VStr "invalid_photo"))]
              (Some (ValueError (VStr "invalid_photo"))));
      [reflexivity | vm_compute; reflexivity | reflexivity
      | vm_compute; reflexivity | reflexivity | reflexivity]. }
  vm_compute. apply batch_done.
Qed.

(** * Further properties *)

(** ** The debounce table *)

Section DebounceTable.

Import SlackConnector.

Context (LOG_DEBOUNCING : bool).

(** What a returning step leaves in the state. *)
Lemma debounce_state k r w :
  (is_Some (_debounce_data w !! k) -> r <> 0) ->
  exists w',
    _debounce LOG_DEBOUNCING k r w = (Ok tt, w') /\
    _debounce_data w' = <[k := clock w]> (_debounce_data w) /\
    calls w' = calls w /\
    (sleeps w' = sleeps w /\ clock w' = clock w \/
     exists recorded,
       _debounce_data w !! k = Some recorded /\
       (clock w - recorded < 60 / inject_Z r)%Q /\
       sleeps w' = (sleeps w ++ [60 / inject_Z r - (clock w - recorded) + 1]%Q)%list /\
       clock w' = (clock w + (60 / inject_Z r - (clock w - recorded) + 1))%Q).
Proof.
  intros Hr. destruct (_debounce_data w !! k) as [recorded|] eqn:E.
  - assert (r <> 0) as Hr0 by (apply Hr; eauto).
    destruct (Qlt_le_dec (clock w - recorded) (60 / inject_Z r)) as [Hlt|Hge].
    + eexists. split; [apply (debounce_within _ k r w recorded E Hr0 Hlt)|].
      simpl. repeat split. right. exists recorded. repeat split. exact Hlt.
    + eexists. split; [apply (debounce_after _ k r w recorded E Hr0 Hge)|].
      simpl. repeat split. left. split; reflexivity.
  - eexists. split; [apply (debounce_first _ k r w E)|].
    simpl. repeat split. left. split; reflexivity.
Qed.

(** X1.  A debounce step that returns records, for its key, the time it
    read on entry; it leaves the timestamps of all other keys as they were,
    never removes a key (the set of keys grows by the key of the step), and
    issues no remote call. *)
Theorem debounce_touches_only_its_key (k : string) (r : Z) (w : world)
    (Hr : is_Some (_debounce_data w !! k) -> r <> 0) :
  let w' := snd (_debounce LOG_DEBOUNCING k r w) in
  _debounce_data w' !! k = Some (clock w) /\
  (forall k', k' <> k -> _debounce_data w' !! k' = _debounce_data w !! k') /\
  dom (_debounce_data w') = {[k]} ∪ dom (_debounce_data w) /\
  calls w' = calls w.
Proof.
  destruct (debounce_state k r w Hr) as (w' & -> & Hd & Hc & _). simpl.
  rewrite Hd. split; [apply lookup_insert_eq|].
  split; [intros k' Hk'; apply lookup_insert_ne; congruence|].
  split; [apply dom_insert_L | exact Hc].
Qed.

(** X2.  When a debounce step sleeps, it sleeps for more than one second;
    and if the clock has not gone backwards since the recorded call, for at
    most [60/r + 1] seconds. *)
Theorem debounce_sleep_bounds (k : string) (r : Z) (w : world) (d : Q)
    (Hslept : sleeps (snd (_debounce LOG_DEBOUNCING k r w))
              = (sleeps w ++ [d])%list) :
  (1 < d)%Q /\
  (forall recorded, _debounce_data w !! k = Some recorded ->
                    (recorded <= clock w)%Q -> (d <= 60 / inject_Z r + 1)%Q).
Proof.
  assert (forall l : list Q, l <> (l ++ [d])%list) as Hneq.
  { intros l H. apply (f_equal length) in H. rewrite length_app in H.
    simpl in H. lia. }
  destruct (_debounce_data w !! k) as [recorded|] eqn:E.
  - destruct (Z.eq_dec r 0) as [->|Hr0].
    { exfalso. revert Hslept. unfold _debounce. run. rewrite E. simpl.
      apply Hneq. }
    destruct (debounce_state k r w (fun _ => Hr0))
      as (w' & Hrun & _ & _ & [[Hs _]|(rec' & E' & Hlt & Hs & _)]);
      rewrite Hrun in Hslept; simpl in Hslept; rewrite Hs in Hslept.
    + exfalso. exact (Hneq _ Hslept).
    + apply app_inv_head in Hslept. injection Hslept as <-.
      rewrite E in E'. injection E' as <-.
      set (limit := (60 / inject_Z r)%Q) in *.
      split; [lra|]. intros recorded' [= <-] Hmono. lra.
  - exfalso. rewrite (debounce_first _ k r w E) in Hslept. simpl in Hslept.
    exact (Hneq _ Hslept).
Qed.

End DebounceTable.

(** X1 on the first call of a process. *)
Lemma debounce_touches_only_its_key_witness :
  _debounce_data (snd (SlackConnector._debounce false "users_list" 20
                         Scenarios.just_patched)) !! "patch_user"
  = Some 0%Q.
Proof.
  refine (proj1 (proj2 (debounce_touches_only_its_key false "users_list" 20
            Scenarios.just_patched _)) "patch_user" _).
  - intros [x Hx]. vm_compute in Hx. discriminate.
  - discriminate.
Defined.

(** X2 on the call of [just_patched]: 3.9 seconds lie between 1 and 4. *)
Lemma debounce_sleep_bounds_witness :
  (1 < 60 / inject_Z 20 - ((1 # 10) - 0) + 1)%Q.
Proof.
  exact (proj1 (debounce_sleep_bounds false "patch_user" 20
                  Scenarios.just_patched _ eq_refl)).
Defined.

(** ** Operations on the SCIM client *)

Section ScimFacts.

Import SlackConnector ScimOperations.

Context (sdk : SlackSDK) (LOG_DEBOUNCING : bool).

(** The three patches: the world after the call, and what is made of the
    reply. *)
Lemma update_photo_run user_id photo_url w :
  exists w1,
    _debounce LOG_DEBOUNCING "patch_user" 20 w = (Ok tt, w1) /\
    update_photo sdk LOG_DEBOUNCING user_id photo_url w =
      (match scim_patch_user sdk (calls w) user_id (Photos [photo_url]) with
       | Raise e => Raise e
       | Ok response =>
           if patch_status_code response =? 200 then Ok tt
           else match patch_body_Errors response with
                | Some v => Raise (ValueError v)
                | None => Raise (KeyError "Errors")
                end
       end,
       issued (PatchUser user_id (Photos [photo_url])) w1).
Proof.
  destruct (debounce_returns LOG_DEBOUNCING "patch_user" 20 w)
    as (w1 & E & Hc); [lia|].
  exists w1. split; [exact E|].
  unfold update_photo, issued. run. rewrite E, <- Hc. simpl.
  destruct (scim_patch_user sdk (calls w1) user_id (Photos [photo_url]))
    as [response|e]; [|reflexivity].
  destruct (patch_status_code response =? 200); simpl; [reflexivity|].
  destruct (patch_body_Errors response); reflexivity.
Qed.

Lemma activate_user_run user_id w :
  exists w1,
    _debounce LOG_DEBOUNCING "patch_user" 20 w = (Ok tt, w1) /\
    activate_user sdk LOG_DEBOUNCING user_id w =
      (match scim_patch_user sdk (calls w) (VStr user_id) (Active true) with
       | Raise e => Raise e
       | Ok response =>
           if patch_status_code response =? 200 then Ok tt
           else match patch_body_Errors response with
                | Some v => Raise (ValueError v)
                | None => Raise (KeyError "Errors")
                end
       end,
       issued (PatchUser (VStr user_id) (Active true)) w1).
Proof.
  destruct (debounce_returns LOG_DEBOUNCING "patch_user" 20 w)
    as (w1 & E & Hc); [lia|].
  exists w1. split; [exact E|].
  unfold activate_user, issued. run. rewrite E, <- Hc. simpl.
  destruct (scim_patch_user sdk (calls w1) (VStr user_id) (Active true))
    as [response|e]; [|reflexivity].
  destruct (patch_status_code response =? 200); simpl; [reflexivity|].
  destruct (patch_body_Errors response); reflexivity.
Qed.

Lemma deactivate_user_run user w :
  exists w1,
    _debounce LOG_DEBOUNCING "admin_users_delete" 90 w = (Ok tt, w1) /\
    deactivate_user sdk LOG_DEBOUNCING user w =
      (match scim_patch_user sdk (calls w) (of_slack_id (user_slack_id user))
               (Active false) with
       | Raise e => Raise e
       | Ok _ => Ok tt
       end,
       issued (PatchUser (of_slack_id (user_slack_id user)) (Active false)) w1).
Proof.
  destruct (debounce_returns LOG_DEBOUNCING "admin_users_delete" 90 w)
    as (w1 & E & Hc); [lia|].
  exists w1. split; [exact E|].
  unfold deactivate_user, issued. run. rewrite E, <- Hc. simpl.
  destruct (scim_patch_user sdk (calls w1) _ (Active false)); reflexivity.
Qed.

(** X3.  [activate_user] and [update_photo] debounce on the same key: a
    photo update asked for less than 3 seconds after the activation of a
    user, the first patch of the process, sleeps for (3 - elapsed) + 1
    seconds.  [deactivate_user], which patches users too, has a key of its
    own: its first call, at that same moment, does not wait. *)
Theorem patches_share_one_cooldown (activated photo_url : string)
    (pictured : value) (deactivated : User) (w : world) (elapsed : Q)
    (Hpatch : _debounce_data w !! "patch_user" = None)
    (Hdelete : _debounce_data w !! "admin_users_delete" = None)
    (Hearly : (elapsed < 3)%Q) :
  let later := idle elapsed (snd (activate_user sdk LOG_DEBOUNCING activated w)) in
  (exists d, (d == 3 - elapsed + 1)%Q /\
             waited d later
               (snd (update_photo sdk LOG_DEBOUNCING pictured photo_url later)))
  /\ no_wait later (snd (deactivate_user sdk LOG_DEBOUNCING deactivated later)).
Proof.
  destruct (activate_user_run activated w) as (w1 & E1 & ->).
  rewrite (debounce_first _ _ _ _ Hpatch) in E1. injection E1 as <-.
  simpl. set (later := idle elapsed _).
  assert (_debounce_data later !! "patch_user" = Some (clock w)) as Hrec
    by apply lookup_insert_eq.
  assert (_debounce_data later !! "admin_users_delete" = None) as Hfree.
  { simpl. rewrite lookup_insert_ne by discriminate. exact Hdelete. }
  assert (clock later - clock w == elapsed)%Q as Hel by (simpl; ring).
  assert (60 / inject_Z 20 == 3)%Q as Hlimit by reflexivity.
  split.
  - destruct (update_photo_run pictured photo_url later) as (w2 & E2 & ->).
    assert (clock later - clock w < 60 / inject_Z 20)%Q as Hlt
      by (rewrite Hel, Hlimit; exact Hearly).
    assert (20 <> 0) as Hrate by lia.
    rewrite (debounce_within _ _ _ _ _ Hrec Hrate Hlt) in E2.
    injection E2 as <-.
    exists (60 / inject_Z 20 - (clock later - clock w) + 1)%Q.
    split; [rewrite Hel, Hlimit; reflexivity|]. split; reflexivity.
  - destruct (deactivate_user_run deactivated later) as (w2 & E2 & ->).
    rewrite (debounce_first _ _ _ _ Hfree) in E2. injection E2 as <-.
    simpl. split; reflexivity.
Qed.

(** X4.  [deactivate_user] does not look at the reply: whatever the status
    of the answer to its patch, it returns normally, after that one call,
    which sets [active] to false for the id of the user, or for [None] when
    the user has no id. *)
Theorem deactivate_user_ignores_status (user : User) (w : world)
    (response : UserPatchResponse)
    (Hreply : scim_patch_user sdk (calls w) (of_slack_id (user_slack_id user))
                (Active false) = Ok response) :
  let run := deactivate_user sdk LOG_DEBOUNCING user w in
  fst run = Ok tt /\
  calls (snd run)
  = (calls w ++ [PatchUser (of_slack_id (user_slack_id user)) (Active false)])%list.
Proof.
  destruct (deactivate_user_run user w) as (w1 & E & ->).
  rewrite Hreply. simpl. split; [reflexivity|].
  destruct (debounce_returns LOG_DEBOUNCING "admin_users_delete" 90 w)
    as (w1' & E' & Hc); [lia|].
  rewrite E in E'. injection E' as <-. rewrite Hc. reflexivity.
Qed.

(** X5.  [activate_user] and [update_photo] do look at the reply: given an
    answer to their patch, they return normally exactly when its status is
    200; otherwise they raise [ValueError] with the errors of the body, or
    [KeyError] when the body has none. *)
Theorem patches_succeed_only_on_200 (user_id photo_url : string) (w : world)
    (activation photo : UserPatchResponse)
    (Hactivation : scim_patch_user sdk (calls w) (VStr user_id) (Active true)
                   = Ok activation)
    (Hphoto : scim_patch_user sdk (calls w) (VStr user_id) (Photos [photo_url])
              = Ok photo) :
  let failure (response : UserPatchResponse) : exn :=
    match patch_body_Errors response with
    | Some errors => ValueError errors
    | None => KeyError "Errors"
    end in
  (fst (activate_user sdk LOG_DEBOUNCING user_id w) = Ok tt
     <-> patch_status_code activation = 200) /\
  (patch_status_code activation <> 200 ->
     fst (activate_user sdk LOG_DEBOUNCING user_id w)
     = Raise (failure activation)) /\
  (fst (update_photo sdk LOG_DEBOUNCING (VStr user_id) photo_url w) = Ok tt
     <-> patch_status_code photo = 200) /\
  (patch_status_code photo <> 200 ->
     fst (update_photo sdk LOG_DEBOUNCING (VStr user_id) photo_url w)
     = Raise (failure photo)).
Proof.
  destruct (activate_user_run user_id w) as (w1 & _ & ->).
  destruct (update_photo_run (VStr user_id) photo_url w) as (w2 & _ & ->).
  rewrite Hactivation, Hphoto. simpl.
  destruct (Z.eqb_spec (patch_status_code activation) 200) as [Ea|Ea];
    destruct (Z.eqb_spec (patch_status_code photo) 200) as [Ep|Ep];
    repeat split; try tauto; try (intros _; assumption);
    try (intros H; exfalso;
         first [ destruct (patch_body_Errors activation); discriminate
               | destruct (patch_body_Errors photo); discriminate ]);
    try (intros _; destruct (patch_body_Errors activation); reflexivity);
    try (intros _; destruct (patch_body_Errors photo); reflexivity).
Qed.

(** X6.  [verify_user_not_exists_in_slack] on a search answered with status
    200: it returns when no user matches, raises [UserAlreadyExistsError]
    when one record matches (an empty record counts as no match), and raises
    [UserAlreadyExistsError] as well when several match, in place of the
    error of the search. *)
Theorem verify_user_not_exists_by_matches (user_email : string) (w : world)
    (response : SearchUsersResponse)
    (Hreply : scim_search_users sdk (calls w) 10 0 ("email eq " ++ user_email)
              = Ok response)
    (Hstatus : search_status_code response = 200) :
  let returned :=
    fst (verify_user_not_exists_in_slack sdk LOG_DEBOUNCING user_email w) in
  (matching response = [] -> returned = Ok tt) /\
  (forall user, matching response = [user] ->
     returned = if dict_truthy user then Raise UserAlreadyExistsError
                else Ok tt) /\
  ((2 <= length (matching response))%nat ->
     returned = Raise UserAlreadyExistsError).
Proof.
  destruct (search_user_run sdk LOG_DEBOUNCING user_email w)
    as (w1 & _ & _ & E).
  rewrite Hreply, Hstatus in E. simpl in E.
  unfold verify_user_not_exists_in_slack. run. rewrite E.
  destruct (matching response) as [|user [|other others]]; simpl.
  - repeat split; [intros user H; discriminate | lia].
  - repeat split; [discriminate | | lia].
    intros u [= ->]. destruct (dict_truthy u); reflexivity.
  - repeat split; [discriminate | intros u H; discriminate].
Qed.

(** An exception of the search other than the one for several matches is
    not turned into [UserAlreadyExistsError]: a reply with another status
    than 200 makes the verification raise [TypeError], as the search
    does. *)
Lemma verify_user_not_exists_on_bad_status user_email w response :
  scim_search_users sdk (calls w) 10 0 ("email eq " ++ user_email)
  = Ok response ->
  search_status_code response <> 200 ->
  fst (verify_user_not_exists_in_slack sdk LOG_DEBOUNCING user_email w)
  = Raise (TypeError "exceptions must derive from BaseException").
Proof.
  intros Hreply Hstatus.
  destruct (search_user_run sdk LOG_DEBOUNCING user_email w)
    as (w1 & _ & _ & E).
  rewrite Hreply in E. apply Z.eqb_neq in Hstatus. rewrite Hstatus in E.
  simpl in E. unfold verify_user_not_exists_in_slack. run. rewrite E.
  reflexivity.
Qed.

End ScimFacts.

Lemma patches_share_one_cooldown_witness :
  exists d, (d == 3 - (1 # 10) + 1)%Q /\
    waited d
      (idle (1 # 10) (snd (ScimOperations.activate_user (Cases.patching 200)
                             false "U01" (fresh 0))))
      (snd (SlackConnector.update_photo (Cases.patching 200) false (VStr "U02")
              "https://img.example/b.png"
              (idle (1 # 10)
                 (snd (ScimOperations.activate_user (Cases.patching 200) false
                         "U01" (fresh 0)))))).
Proof.
  exact (proj1 (patches_share_one_cooldown (Cases.patching 200) false "U01"
                  "https://img.example/b.png" (VStr "U02") Scenarios.dana
                  (fresh 0) (1 # 10) eq_refl eq_refl ltac:(reflexivity))).
Defined.

Lemma deactivate_user_ignores_status_witness :
  fst (ScimOperations.deactivate_user (Cases.patching 404) false Scenarios.dana
         (fresh 0)) = Ok tt.
Proof.
  exact (proj1 (deactivate_user_ignores_status (Cases.patching 404) false
                  Scenarios.dana (fresh 0) _ eq_refl)).
Defined.

Lemma patches_succeed_only_on_200_witness :
  fst (ScimOperations.activate_user (Cases.patching 404) false "U01" (fresh 0))
  = Raise (ValueError (VStr "user_not_found")).
Proof.
  refine (proj1 (proj2 (patches_succeed_only_on_200 (Cases.patching 404) false
            "U01" "https://img.example/a.png" (fresh 0) _ _ eq_refl eq_refl))
            _).
  simpl. lia.
Defined.

Lemma verify_user_not_exists_by_matches_witness :
  fst (ScimOperations.verify_user_not_exists_in_slack Scenarios.twins false
         "alice@corp.example" (fresh 0))
  = Raise UserAlreadyExistsError.
Proof.
  refine (proj2 (proj2 (verify_user_not_exists_by_matches Scenarios.twins false
            "alice@corp.example" (fresh 0) _ eq_refl eq_refl)) _).
  simpl. lia.
Defined.

(** ** Workspaces *)

Section WorkspaceMoreFacts.

Import SlackConnector.

Context (sdk : SlackSDK) (LOG_DEBOUNCING : bool).

Lemma verify_workspace_exists_run workspace w :
  exists w1,
    _debounce LOG_DEBOUNCING "admin_teams_list" 50 w = (Ok tt, w1) /\
    calls w1 = calls w /\
    verify_workspace_exists_in_slack sdk LOG_DEBOUNCING workspace w =
      (match admin_teams_list sdk (calls w) with
       | Raise e => Raise e
       | Ok response =>
           if list_ok response then
             Ok (first_team_named (workspace_name workspace) (teams response))
           else Raise (Exception_ "Failed to list teams in Slack")
       end,
       issued AdminTeamsList w1).
Proof.
  destruct (debounce_returns LOG_DEBOUNCING "admin_teams_list" 50 w)
    as (w1 & E & Hc); [lia|].
  exists w1. split; [exact E|]. split; [exact Hc|].
  unfold verify_workspace_exists_in_slack, issued. run. rewrite E, <- Hc.
  simpl. destruct (admin_teams_list sdk (calls w1)) as [response|e];
    [|reflexivity].
  destruct (list_ok response); reflexivity.
Qed.

(** X7.  When the listing of the teams shows a team with the name of the
    workspace and an id, [create_workspace_in_slack] returns that id.  The
    listing is its only remote call, and the cooldown of the creation is
    left as it was. *)
Theorem create_workspace_finds_existing (workspace : Workspace) (w : world)
    (response : TeamsListResponse) (id : string)
    (Hreply : admin_teams_list sdk (calls w) = Ok response)
    (Hok : list_ok response = true)
    (Hfound : if_str (first_team_named (workspace_name workspace)
                        (teams response)) = Some id) :
  let run := create_workspace_in_slack sdk LOG_DEBOUNCING workspace w in
  fst run = Ok id /\
  calls (snd run) = (calls w ++ [AdminTeamsList])%list /\
  _debounce_data (snd run) !! "admin_teams_create"
  = _debounce_data w !! "admin_teams_create".
Proof.
  destruct (verify_workspace_exists_run workspace w) as (w1 & E1 & Hc & E).
  rewrite Hreply, Hok in E.
  unfold create_workspace_in_slack. run. rewrite E, Hfound. simpl.
  split; [reflexivity|]. split; [rewrite Hc; reflexivity|].
  destruct (debounce_state LOG_DEBOUNCING "admin_teams_list" 50 w
              ltac:(intros _; lia)) as (w1' & E1' & Hd & _).
  rewrite E1 in E1'. injection E1' as <-. rewrite Hd.
  apply lookup_insert_ne. discriminate.
Qed.

(** X8.  When the listing succeeds and shows no team with the name of the
    workspace, the name is ASCII and the derived domain has at most 21
    characters,
    [create_workspace_in_slack] asks for the creation of a team with the
    name of the workspace and the derived domain, after the listing.  If the
    answer is marked ok its team is returned; if not, the function raises. *)
Theorem create_workspace_creates (workspace : Workspace) (w : world)
    (listing : TeamsListResponse) (response : TeamsCreateResponse)
    (Hlisting : admin_teams_list sdk (calls w) = Ok listing)
    (Hok : list_ok listing = true)
    (Hnew : if_str (first_team_named (workspace_name workspace)
                      (teams listing)) = None)
    (Hascii : isascii (workspace_name workspace) = true)
    (Hshort : len (domain_of (workspace_name workspace)) <= 21)
    (Hreply : admin_teams_create sdk (calls w ++ [AdminTeamsList])
                (workspace_name workspace)
                (domain_of (workspace_name workspace)) = Ok response) :
  let run := create_workspace_in_slack sdk LOG_DEBOUNCING workspace w in
  fst run = (if create_ok response then Ok (created_team response)
             else Raise (Exception_ "Failed to create workspace in Slack")) /\
  calls (snd run)
  = (calls w ++ [AdminTeamsList;
                 AdminTeamsCreate (workspace_name workspace)
                   (domain_of (workspace_name workspace))])%list.
Proof.
  destruct (verify_workspace_exists_run workspace w) as (w1 & _ & Hc & E).
  rewrite Hlisting, Hok in E.
  destruct (debounce_returns LOG_DEBOUNCING "admin_teams_create" 1
              (issued AdminTeamsList w1)) as (w2 & E2 & Hc2); [lia|].
  simpl in Hc2. rewrite Hc in Hc2.
  unfold create_workspace_in_slack. run. rewrite E, Hnew. simpl.
  rewrite E2. assert ((21 <? len (domain_of (workspace_name workspace)))
                      = false) as -> by (apply Z.ltb_ge; exact Hshort).
  simpl. rewrite Hc2, Hreply.
  destruct (create_ok response); simpl;
    (split; [reflexivity | rewrite <- app_assoc; reflexivity]).
Qed.

End WorkspaceMoreFacts.

(** Creating a workspace twice on a platform that keeps track of its teams:
    the second call finds the team of the first and creates nothing. *)
Example create_workspace_twice :
  let first := SlackConnector.create_workspace_in_slack Cases.bookkeeping false
                 Cases.sales (fresh 0) in
  let second := SlackConnector.create_workspace_in_slack Cases.bookkeeping false
                  Cases.sales (snd first) in
  fst first = Ok "T-Sales  EMEA" /\ fst second = Ok "T-Sales  EMEA" /\
  calls (snd second)
  = [AdminTeamsList; AdminTeamsCreate "Sales  EMEA" "sales-emea-misr";
     AdminTeamsList].
Proof. vm_compute. repeat split; reflexivity. Qed.

Lemma create_workspace_finds_existing_witness :
  fst (SlackConnector.create_workspace_in_slack Cases.bookkeeping false
         Cases.sales
         (snd (SlackConnector.create_workspace_in_slack Cases.bookkeeping false
                 Cases.sales (fresh 0))))
  = Ok "T-Sales  EMEA".
Proof.
  exact (proj1 (create_workspace_finds_existing Cases.bookkeeping false
                  Cases.sales
                  (snd (SlackConnector.create_workspace_in_slack
                          Cases.bookkeeping false Cases.sales (fresh 0)))
                  _ "T-Sales  EMEA" eq_refl eq_refl eq_refl)).
Defined.

Lemma create_workspace_creates_witness :
  fst (SlackConnector.create_workspace_in_slack Cases.bookkeeping false
         Cases.sales (fresh 0))
  = Ok "T-Sales  EMEA".
Proof.
  refine (proj1 (create_workspace_creates Cases.bookkeeping false Cases.sales
                   (fresh 0) _ _ eq_refl eq_refl eq_refl eq_refl _ eq_refl)).
  vm_compute. discriminate.
Defined.

(** ** Names sent to the platform *)

Section NameFacts.

Import SlackConnector WebOperations.

Lemma isspace_lower_ascii c : isspace (lower_ascii c) = isspace c.
Proof. destruct c as [[] [] [] [] [] [] [] []]; reflexivity. Qed.

Lemma lower_ascii_not_upper c :
  ((65 <=? nat_of_ascii (lower_ascii c))
   && (nat_of_ascii (lower_ascii c) <=? 90))%nat = false.
Proof. destruct c as [[] [] [] [] [] [] [] []]; reflexivity. Qed.

Lemma lower_ascii_idempotent c : lower_ascii (lower_ascii c) = lower_ascii c.
Proof. destruct c as [[] [] [] [] [] [] [] []]; reflexivity. Qed.

Lemma string_length_app (s t : string) :
  String.length (s ++ t) = (String.length s + String.length t)%nat.
Proof. induction s as [|c s IH]; simpl; [reflexivity | rewrite IH; reflexivity]. Qed.

Lemma has_space_app (s t : string) :
  has_space (s ++ t) = has_space s || has_space t.
Proof.
  induction s as [|c s IH]; simpl; [reflexivity|].
  rewrite IH, orb_assoc. reflexivity.
Qed.

Lemma has_upper_app (s t : string) :
  has_upper (s ++ t) = has_upper s || has_upper t.
Proof.
  induction s as [|c s IH]; simpl; [reflexivity|].
  rewrite IH, orb_assoc. reflexivity.
Qed.

Lemma has_space_lower s : has_space (lower s) = has_space s.
Proof.
  induction s as [|c s IH]; simpl; [reflexivity|].
  rewrite isspace_lower_ascii, IH. reflexivity.
Qed.

Lemma has_upper_lower s : has_upper (lower s) = false.
Proof.
  induction s as [|c s IH]; cbn [lower has_upper]; [reflexivity|].
  rewrite lower_ascii_not_upper, IH. reflexivity.
Qed.

Lemma lower_idempotent s : lower (lower s) = lower s.
Proof.
  induction s as [|c s IH]; simpl; [reflexivity|].
  rewrite lower_ascii_idempotent, IH. reflexivity.
Qed.

Lemma length_lower s : String.length (lower s) = String.length s.
Proof. induction s as [|c s IH]; simpl; [reflexivity | rewrite IH; reflexivity]. Qed.

Lemma has_upper_lstrip s : has_upper s = false -> has_upper (lstrip s) = false.
Proof.
  induction s as [|c s IH]; cbn [has_upper lstrip]; [reflexivity|].
  intros H. destruct (isspace c); [|exact H].
  apply orb_false_iff in H as [_ H]. apply IH. exact H.
Qed.

Lemma length_lstrip s : (String.length (lstrip s) <= String.length s)%nat.
Proof.
  induction s as [|c s IH]; simpl; [lia|].
  destruct (isspace c); simpl; lia.
Qed.

Lemma has_space_lstrip s : has_space s = false -> lstrip s = s.
Proof.
  destruct s as [|c s]; simpl; [reflexivity|].
  intros H. apply orb_false_iff in H as [-> _]. reflexivity.
Qed.

(** ASCII text stays ASCII. *)
Lemma isascii_cons c s :
  isascii (String c s) = (nat_of_ascii c <? 128)%nat && isascii s.
Proof. reflexivity. Qed.

Lemma isascii_app (s t : string) : isascii (s ++ t) = isascii s && isascii t.
Proof.
  induction s as [|c s IH]; [reflexivity|].
  change (String c s ++ t) with (String c (s ++ t)).
  rewrite !isascii_cons, IH, andb_assoc. reflexivity.
Qed.

Lemma lower_ascii_code c :
  (nat_of_ascii (lower_ascii c) <? 128)%nat = (nat_of_ascii c <? 128)%nat.
Proof. destruct c as [[] [] [] [] [] [] [] []]; reflexivity. Qed.

Lemma isascii_lower s : isascii (lower s) = isascii s.
Proof.
  induction s as [|c s IH]; [reflexivity|]. cbn [lower].
  rewrite !isascii_cons, lower_ascii_code, IH. reflexivity.
Qed.

Lemma isascii_lstrip s : isascii s = true -> isascii (lstrip s) = true.
Proof.
  induction s as [|c s IH]; [reflexivity|]. cbn [lstrip].
  destruct (isspace c); [|intros H; exact H].
  rewrite isascii_cons. intros H. apply andb_true_iff in H as [_ H].
  apply IH. exact H.
Qed.

Lemma isascii_sub_spaces b s :
  isascii s = true -> isascii (sub_spaces_from b "-" s) = true.
Proof.
  revert b. induction s as [|c s IH]; intros b; [reflexivity|].
  cbn [sub_spaces_from]. rewrite isascii_cons. intros H.
  apply andb_true_iff in H as [Hc Hs].
  destruct (isspace c).
  - destruct b; [apply IH; exact Hs|].
    rewrite isascii_app, (IH true Hs). reflexivity.
  - rewrite isascii_cons, Hc, (IH false Hs). reflexivity.
Qed.

(** The substitution leaves no whitespace, adds no upper-case letter, does
    not lengthen the text, and changes nothing in a text without
    whitespace. *)
Lemma sub_spaces_no_space b s : has_space (sub_spaces_from b "-" s) = false.
Proof.
  revert b. induction s as [|c s IH]; intros b; simpl; [reflexivity|].
  destruct (isspace c) eqn:E.
  - destruct b; [apply IH|]. simpl. apply IH.
  - simpl. rewrite E. apply IH.
Qed.

Lemma sub_spaces_no_upper b s :
  has_upper s = false -> has_upper (sub_spaces_from b "-" s) = false.
Proof.
  revert b. induction s as [|c s IH]; intros b; simpl; [reflexivity|].
  intros H. apply orb_false_iff in H as [Hc Hs].
  destruct (isspace c).
  - destruct b; [apply IH; exact Hs|]. simpl. apply IH. exact Hs.
  - simpl. rewrite Hc. apply IH. exact Hs.
Qed.

Lemma sub_spaces_length b s :
  (String.length (sub_spaces_from b "-" s) <= String.length s)%nat.
Proof.
  revert b. induction s as [|c s IH]; intros b; simpl; [lia|].
  destruct (isspace c).
  - destruct b; [specialize (IH true); lia|].
    rewrite string_length_app. simpl. specialize (IH true). lia.
  - simpl. specialize (IH false). lia.
Qed.

Lemma sub_spaces_clean b s :
  has_space s = false -> sub_spaces_from b "-" s = s.
Proof.
  revert b. induction s as [|c s IH]; intros b; simpl; [reflexivity|].
  intros H. apply orb_false_iff in H as [-> Hs]. rewrite (IH false Hs).
  reflexivity.
Qed.

(** X9.  The prepared name of a channel with an ASCII name is ASCII, has no
    whitespace and no upper-case letter, is not longer than the name, and
    preparing it again changes nothing. *)
Theorem prepared_name_is_normal (channel : Channel)
    (Hascii : isascii (channel_name channel) = true) :
  isascii (prepared_name channel) = true /\
  has_space (prepared_name channel) = false /\
  has_upper (prepared_name channel) = false /\
  len (prepared_name channel) <= len (channel_name channel) /\
  prepared_name {| channel_slack_id := channel_slack_id channel;
                   channel_name := prepared_name channel;
                   description := description channel;
                   main_workspace := main_workspace channel;
                   additional_workspaces := additional_workspaces channel |}
  = prepared_name channel.
Proof.
  unfold prepared_name, re_sub_spaces, len. simpl.
  split; [apply isascii_sub_spaces; rewrite isascii_lower; exact Hascii|].
  split; [apply sub_spaces_no_space|].
  split; [apply sub_spaces_no_upper, has_upper_lower|].
  split.
  - pose proof (sub_spaces_length false (lower (channel_name channel))) as H.
    pose proof (length_lower (channel_name channel)) as Hl. lia.
  - assert (forall s, has_space s = false -> has_upper s = false ->
                      lower s = s) as Hfix.
    { induction s as [|c s IH]; cbn [has_space has_upper lower];
        [reflexivity|].
      intros Hs Hu. apply orb_false_iff in Hs as [_ Hs].
      apply orb_false_iff in Hu as [Hc Hu]. rewrite (IH Hs Hu).
      f_equal. unfold lower_ascii. cbv zeta. rewrite Hc. reflexivity. }
    rewrite (Hfix _ (sub_spaces_no_space false _)
               (sub_spaces_no_upper false _ (has_upper_lower _))).
    apply sub_spaces_clean, sub_spaces_no_space.
Qed.

(** X10.  The domain derived from an ASCII workspace name is ASCII, has no
    whitespace and no upper-case letter, and is at most 5 characters longer
    than the name: a
    name of at most 16 characters always passes the length check of
    [create_workspace_in_slack].  For a name without whitespace the domain
    is exactly 5 characters longer, so that such a name passes the check
    exactly when it has at most 16 characters. *)
Theorem domain_of_length (name : string) (Hascii : isascii name = true) :
  isascii (domain_of name) = true /\
  has_space (domain_of name) = false /\
  has_upper (domain_of name) = false /\
  len (domain_of name) <= len name + 5 /\
  (len name <= 16 -> (21 <? len (domain_of name)) = false) /\
  (has_space name = false ->
     len (domain_of name) = len name + 5 /\
     ((21 <? len (domain_of name)) = false <-> len name <= 16)).
Proof.
  split.
  { unfold domain_of, re_sub_spaces.
    rewrite isascii_app, isascii_sub_spaces; [reflexivity|].
    apply isascii_lstrip. rewrite isascii_lower. exact Hascii. }
  unfold domain_of, re_sub_spaces, len.
  pose proof (length_lower name) as Hl.
  pose proof (length_lstrip (lower name)) as H1.
  pose proof (sub_spaces_length false (lstrip (lower name))) as H2.
  rewrite string_length_app, has_space_app, has_upper_app,
    sub_spaces_no_space. simpl.
  rewrite (sub_spaces_no_upper false _
             (has_upper_lstrip _ (has_upper_lower name))).
  split; [reflexivity|]. split; [reflexivity|]. split; [lia|].
  split; [intros H; apply Z.ltb_ge; lia|].
  intros Hclean.
  rewrite <- has_space_lower in Hclean.
  rewrite (has_space_lstrip _ Hclean), (sub_spaces_clean false _ Hclean), Hl.
  split; [lia|]. rewrite Z.ltb_ge. lia.
Qed.

End NameFacts.

Lemma prepared_name_is_normal_witness :
  isascii (WebOperations.prepared_name Cases.announcements) = true /\
  has_space (WebOperations.prepared_name Cases.announcements) = false.
Proof.
  pose proof (prepared_name_is_normal Cases.announcements eq_refl) as H.
  split; [exact (proj1 H) | exact (proj1 (proj2 H))].
Defined.

Lemma domain_of_length_witness :
  len (SlackConnector.domain_of "Sales  EMEA") <= len "Sales  EMEA" + 5.
Proof.
  exact (proj1 (proj2 (proj2 (proj2 (domain_of_length "Sales  EMEA" eq_refl))))).
Defined.

(** The prepared name and the domain of the cases. *)
Example names_of_the_cases :
  WebOperations.prepared_name Cases.announcements = "team-announcements" /\
  SlackConnector.domain_of "Sales  EMEA" = "sales-emea-misr" /\
  SlackConnector.domain_of "  Quality Assurance" = "quality-assurance-misr".
Proof. vm_compute. repeat split; reflexivity. Qed.

(** ** Operations on the Web client *)

(** Unfolds one layer of the operations of a session. *)
Ltac wrun :=
  unfold mbind, WebOperations.W_bind, mret, WebOperations.W_ret,
    WebOperations.wraise, WebOperations.base, WebOperations.web; simpl.

Section WebFacts.

Import SlackConnector WebOperations.

Context (sdk : SlackSDK) (client : WebClient) (LOG_DEBOUNCING : bool).

(** X11.  A channel that already has an id is not created again:
    [create_channel_in_slack] returns the id it has, issues no call to the
    platform, does not wait and leaves the debounce table as it was. *)
Theorem create_channel_keeps_existing_id (channel : Channel)
    (workspace : Workspace) (s : session) (id : string)
    (Hid : if_str (channel_slack_id channel) = Some id) :
  let run := create_channel_in_slack client LOG_DEBOUNCING channel workspace s in
  fst run = Ok id /\
  web_calls (snd run) = web_calls s /\
  calls (process (snd run)) = calls (process s) /\
  sleeps (process (snd run)) = sleeps (process s) /\
  _debounce_data (process (snd run)) = _debounce_data (process s).
Proof.
  unfold create_channel_in_slack. rewrite Hid. wrun. repeat split.
Qed.

(** X12.  A channel without an id, with an ASCII name, is created with one
    call, after the debounce step: the channel is public, it belongs to the
    team of the given workspace, and its name is the prepared name, which is
    ASCII and has no whitespace and no upper-case letter.  The id of the
    answer is returned. *)
Theorem create_channel_creates_public (channel : Channel)
    (workspace : Workspace) (s : session)
    (response : ConversationsCreateResponse)
    (Hnew : if_str (channel_slack_id channel) = None)
    (Hascii : isascii (channel_name channel) = true)
    (Hreply : conversations_create client (web_calls s) (prepared_name channel)
                (description channel) (workspace_slack_id workspace) false
              = Ok response) :
  let run := create_channel_in_slack client LOG_DEBOUNCING channel workspace s in
  fst run = Ok (created_channel_id response) /\
  web_calls (snd run)
  = (web_calls s ++ [ConversationsCreate (prepared_name channel)
                       (description channel)
                       (workspace_slack_id workspace) false])%list /\
  isascii (prepared_name channel) = true /\
  has_space (prepared_name channel) = false /\
  has_upper (prepared_name channel) = false /\
  calls (process (snd run)) = calls (process s).
Proof.
  destruct (debounce_returns LOG_DEBOUNCING "conversations_create" 20
              (process s)) as (w1 & E & Hc); [lia|].
  unfold create_channel_in_slack. rewrite Hnew. wrun. rewrite E. simpl.
  rewrite Hreply. simpl. split; [reflexivity|]. split; [reflexivity|].
  unfold prepared_name, re_sub_spaces.
  split; [apply isascii_sub_spaces; rewrite isascii_lower; exact Hascii|].
  split; [apply sub_spaces_no_space|].
  split; [apply sub_spaces_no_upper, has_upper_lower | exact Hc].
Qed.

(** One page is asked for with one call, after the debounce step. *)
Lemma get_users_step depth workspace cursor s :
  exists w1,
    calls w1 = calls (process s) /\
    get_users_of_workspace client LOG_DEBOUNCING (S depth) workspace cursor s =
      match users_list client (web_calls s) (workspace_slack_id workspace)
              150 cursor with
      | Raise e =>
          (Raise e,
           Session w1 (web_calls s
                       ++ [UsersList (workspace_slack_id workspace) 150 cursor]))
      | Ok results =>
          match if_str (next_cursor results) with
          | Some next =>
              let '(r, s') :=
                get_users_of_workspace client LOG_DEBOUNCING depth workspace
                  (Some next)
                  (Session w1
                     (web_calls s
                      ++ [UsersList (workspace_slack_id workspace) 150 cursor]))
              in
              (match r with
               | Ok users =>
                   Ok ((fun users => members results ++ users)%list <$> users)
               | Raise e => Raise e
               end, s')
          | None =>
              (Ok (Some (members results)),
               Session w1
                 (web_calls s
                  ++ [UsersList (workspace_slack_id workspace) 150 cursor]))
          end
      end.
Proof.
  destruct (debounce_returns LOG_DEBOUNCING "users_list" 20 (process s))
    as (w1 & E & Hc); [lia|].
  exists w1. split; [exact Hc|].
  cbn [get_users_of_workspace]. wrun. rewrite E. simpl.
  destruct (users_list client (web_calls s) (workspace_slack_id workspace)
              150 cursor) as [results|e]; [|reflexivity].
  destruct (if_str (next_cursor results)) as [next|]; [|reflexivity].
  destruct (get_users_of_workspace client LOG_DEBOUNCING depth workspace
              (Some next) _) as [[users|e] s']; reflexivity.
Qed.

(** X13.  When the client serves the users of the team of a workspace in
    pages, each page but the last naming the cursor of the next,
    [get_users_of_workspace] returns the members of all the pages, in the
    order of the pages, provided the nesting of its calls may be as deep as
    there are pages.  It issues one listing call per page, of at most 150
    users each, the first from the given cursor, and no call to the SCIM
    client. *)
Theorem get_users_concatenates_pages (workspace : Workspace)
    (cursor : option string) (pages : list (list dict)) (depth : nat)
    (s : session)
    (Hserves : serves client (workspace_slack_id workspace) (web_calls s)
                 cursor pages)
    (Hdepth : (length pages <= depth)%nat) :
  let run := get_users_of_workspace client LOG_DEBOUNCING depth workspace
               cursor s in
  fst run = Ok (Some (concat pages)) /\
  (exists cursors,
     web_calls (snd run)
     = (web_calls s
        ++ (UsersList (workspace_slack_id workspace) 150 <$> cursors))%list /\
     length cursors = length pages /\ head cursors = Some cursor) /\
  calls (process (snd run)) = calls (process s).
Proof.
  remember (web_calls s) as h eqn:Hh.
  revert depth s Hh Hdepth.
  induction Hserves as [h cursor response Hreply Hlast
                       |h cursor response next pages Hreply Hnext _ IH];
    intros depth s -> Hdepth; (destruct depth as [|depth]; [simpl in Hdepth; lia|]);
    destruct (get_users_step depth workspace cursor s) as (w1 & Hc & ->);
    rewrite Hreply.
  - rewrite Hlast. simpl. split; [rewrite app_nil_r; reflexivity|].
    split; [exists [cursor]; repeat split | exact Hc].
  - rewrite Hnext.
    destruct (IH depth
                (Session w1 (web_calls s
                   ++ [UsersList (workspace_slack_id workspace) 150 cursor]))
                eq_refl ltac:(simpl in Hdepth; lia))
      as (Hr & (cursors & Hw & Hl & _) & Hcalls).
    destruct (get_users_of_workspace client LOG_DEBOUNCING depth workspace
                (Some next) _) as [r s'].
    simpl in Hr, Hw, Hcalls |- *. subst r. simpl.
    split; [reflexivity|]. split; [|rewrite Hcalls; exact Hc].
    exists (cursor :: cursors). rewrite Hw, <- app_assoc. simpl.
    repeat split. rewrite Hl. reflexivity.
Qed.

(** An exception of the client at any page ends the listing: the pages
    obtained so far are not returned. *)
Lemma get_users_first_page_fails depth workspace cursor s e :
  users_list client (web_calls s) (workspace_slack_id workspace) 150 cursor
  = Raise e ->
  fst (get_users_of_workspace client LOG_DEBOUNCING (S depth) workspace cursor s)
  = Raise e.
Proof.
  intros Hreply.
  destruct (get_users_step depth workspace cursor s) as (w1 & _ & ->).
  rewrite Hreply. reflexivity.
Qed.

(** X14.  [invite_new_user_to_workspace], when the invitation is accepted
    and the search that follows is answered with status 200: if the search
    finds one record for the email, it returns the ["id"] of that record,
    and raises [KeyError] if the record, not being empty, has no ["id"]; it
    raises [ValueError] if the search finds none, or an empty record.  The
    invitation is issued first, then the search; nothing else is. *)
Theorem invite_new_user_then_search (user_email team_id : string)
    (channel_ids : list string) (policy resend : bool) (s : session)
    (response : SearchUsersResponse)
    (Hinvite : admin_users_invite client (web_calls s) team_id user_email
                 channel_ids policy resend = Ok tt)
    (Hsearch : scim_search_users sdk (calls (process s)) 10 0
                 ("email eq " ++ user_email) = Ok response)
    (Hstatus : search_status_code response = 200) :
  let run := invite_new_user_to_workspace sdk client LOG_DEBOUNCING user_email
               team_id channel_ids policy resend s in
  (forall user id, matching response = [user] -> user !! "id" = Some id ->
     fst run = Ok id) /\
  (forall user, matching response = [user] -> dict_truthy user = true ->
     user !! "id" = None -> fst run = Raise (KeyError "id")) /\
  (matching response = [] \/ matching response = [∅] ->
     fst run = Raise (ValueError (VStr ("New user with email '" ++ user_email
                                        ++ "' is not found")))) /\
  web_calls (snd run)
  = (web_calls s ++ [AdminUsersInvite team_id user_email channel_ids policy
                       resend])%list /\
  calls (process (snd run))
  = (calls (process s) ++ [SearchUsers 10 0 ("email eq " ++ user_email)])%list.
Proof.
  destruct (debounce_returns LOG_DEBOUNCING "admin_users_invite" 20 (process s))
    as (w1 & E & Hc); [lia|].
  destruct (search_user_run sdk LOG_DEBOUNCING user_email w1)
    as (w2 & _ & Hc2 & E2).
  rewrite Hc, Hsearch, Hstatus in E2. simpl in E2.
  unfold invite_new_user_to_workspace. wrun. rewrite E. simpl.
  rewrite Hinvite. simpl. rewrite E2.
  destruct (matching response) as [|user [|other others]]; simpl.
  - repeat split; [intros user id H; discriminate | intros user H; discriminate
                  | rewrite Hc2, Hc; reflexivity].
  - destruct (dict_truthy user) eqn:Hu; simpl; unfold getitem;
      (split; [|split; [|split; [|split;
                          [reflexivity | rewrite Hc2, Hc; reflexivity]]]]).
    + intros u id [= <-] ->. reflexivity.
    + intros u [= <-] _ ->. reflexivity.
    + intros [H|[= ->]]; [discriminate|]. vm_compute in Hu. discriminate.
    + intros u id [= <-] Hid. unfold dict_truthy in Hu.
      apply negb_false_iff, bool_decide_eq_true in Hu. subst user.
      rewrite lookup_empty in Hid. discriminate.
    + intros u [= <-] Hu'. congruence.
    + reflexivity.
  - repeat split; [intros u id H; discriminate | intros u H; discriminate
                  | intros [H|H]; discriminate
                  | rewrite Hc2, Hc; reflexivity].
Qed.

(** When the invitation raises, no search is made. *)
Lemma invite_new_user_refused user_email team_id channel_ids policy resend s e :
  admin_users_invite client (web_calls s) team_id user_email channel_ids policy
    resend = Raise e ->
  let run := invite_new_user_to_workspace sdk client LOG_DEBOUNCING user_email
               team_id channel_ids policy resend s in
  fst run = Raise e /\ calls (process (snd run)) = calls (process s).
Proof.
  intros Hinvite.
  destruct (debounce_returns LOG_DEBOUNCING "admin_users_invite" 20 (process s))
    as (w1 & E & Hc); [lia|].
  unfold invite_new_user_to_workspace. wrun. rewrite E. simpl.
  rewrite Hinvite. simpl. split; [reflexivity | exact Hc].
Qed.

End WebFacts.

Lemma create_channel_keeps_existing_id_witness :
  fst (WebOperations.create_channel_in_slack Cases.two_pages false
         Cases.known_channel Cases.engineering Cases.start) = Ok "C77".
Proof.
  exact (proj1 (create_channel_keeps_existing_id Cases.two_pages false
                  Cases.known_channel Cases.engineering Cases.start "C77"
                  eq_refl)).
Defined.

Lemma create_channel_creates_public_witness :
  fst (WebOperations.create_channel_in_slack Cases.two_pages false
         Cases.announcements Cases.engineering Cases.start)
  = Ok "C-team-announcements".
Proof.
  exact (proj1 (create_channel_creates_public Cases.two_pages false
                  Cases.announcements Cases.engineering Cases.start
                  {| WebOperations.created_channel_id := "C-team-announcements" |}
                  eq_refl eq_refl eq_refl)).
Defined.

Lemma get_users_concatenates_pages_witness :
  fst (WebOperations.get_users_of_workspace Cases.two_pages false 2
         Cases.engineering None Cases.start)
  = Ok (Some [Cases.erin; Cases.frank; Cases.grace]).
Proof.
  refine (proj1 (get_users_concatenates_pages Cases.two_pages false
                   Cases.engineering None
                   [[Cases.erin; Cases.frank]; [Cases.grace]] 2 Cases.start
                   _ _)).
  - eapply (serves_next Cases.two_pages (Some "T01") [] None
              {| WebOperations.members := [Cases.erin; Cases.frank];
                 WebOperations.next_cursor := Some "page-2" |} "page-2"
              [[Cases.grace]] eq_refl eq_refl).
    exact (serves_last Cases.two_pages (Some "T01") _ (Some "page-2")
             {| WebOperations.members := [Cases.grace];
                WebOperations.next_cursor := Some "" |} eq_refl eq_refl).
  - simpl. lia.
Defined.

Lemma invite_new_user_then_search_witness :
  fst (WebOperations.invite_new_user_to_workspace Scenarios.only_alice
         Cases.two_pages false "alice@corp.example" "T01" ["C77"] false false
         Cases.start) = Ok (VStr "U01").
Proof.
  refine (proj1 (invite_new_user_then_search Scenarios.only_alice
            Cases.two_pages false "alice@corp.example" "T01" ["C77"] false false
            Cases.start _ eq_refl eq_refl eq_refl) Scenarios.alice (VStr "U01")
            eq_refl _).
  vm_compute. reflexivity.
Defined.

(** ** Writing instructions *)

Section WritingFacts.

Import CsvWriting.

Context (csv_writer : list string -> string).

Lemma six_cells (cells : list string) :
  length cells = 6%nat ->
  exists c1 c2 c3 c4 c5 c6, cells = [c1; c2; c3; c4; c5; c6].
Proof.
  intros H. do 6 (destruct cells as [|? cells]; [discriminate|]).
  destruct cells; [|discriminate]. eauto 7.
Qed.

(** With the file open, an entry with its six texts is written as one
    line, the cells in the order of the fields. *)
Lemma add_entry_writes cells d name :
  length cells = 6%nat ->
  _current_file (self d) = Some name ->
  _csv_dict_writer (self d) = Some fieldnames ->
  handle_open d = true ->
  add_entry csv_writer (Entry AddUser (add_user_entry cells)) d
  = (Ok tt, Desk (self d)
              (append_line (filename (self d)) (csv_writer cells) (files d))
              true).
Proof.
  intros Hlen Hfile Hwriter Hopen.
  destruct (six_cells cells Hlen) as (c1 & c2 & c3 & c4 & c5 & c6 & ->).
  unfold add_entry, writerow. cbn [entry_class model_dump].
  rewrite Hfile, Hwriter, Hopen.
  assert (forallb (fun kv => bool_decide (kv.1 ∈ fieldnames))
            (map_to_list (cell_text <$> add_user_entry [c1; c2; c3; c4; c5; c6]))
          = true) as -> by (vm_compute; reflexivity).
  assert ((fun key => default ""
             ((cell_text <$> add_user_entry [c1; c2; c3; c4; c5; c6]) !! key))
            <$> fieldnames = [c1; c2; c3; c4; c5; c6]) as ->
    by (vm_compute; reflexivity).
  reflexivity.
Qed.

Lemma add_entries_writes rows : forall d name lines,
  Forall (fun cells => length cells = 6%nat) rows ->
  _current_file (self d) = Some name ->
  _csv_dict_writer (self d) = Some fieldnames ->
  handle_open d = true ->
  files d !! filename (self d) = Some lines ->
  exists d',
    add_entries csv_writer (add_user_entries rows) d = (Ok tt, d') /\
    self d' = self d /\ handle_open d' = true /\
    files d' !! filename (self d)
    = Some (lines ++ (csv_writer <$> rows))%list.
Proof.
  induction rows as [|cells rows IH]; intros d name lines Hrows Hfile Hwriter
    Hopen Hlines.
  - exists d. simpl. rewrite app_nil_r. split; [reflexivity|].
    split; [reflexivity|]. split; [exact Hopen | exact Hlines].
  - apply Forall_cons in Hrows as [Hlen Hrows]. simpl.
    rewrite (add_entry_writes cells d name Hlen Hfile Hwriter Hopen).
    destruct (IH (Desk (self d)
                    (append_line (filename (self d)) (csv_writer cells)
                       (files d)) true)
                name (lines ++ [csv_writer cells])%list Hrows Hfile Hwriter
                eq_refl)
      as (d' & E & Hself & Hopen' & Hlines').
    { simpl. unfold append_line. rewrite lookup_insert_eq, Hlines.
      reflexivity. }
    exists d'. rewrite E. split; [reflexivity|]. split; [exact Hself|].
    split; [exact Hopen'|]. simpl in Hlines'. rewrite Hlines', <- app_assoc.
    reflexivity.
Qed.

Lemma open_for_writing_run {A} (body : desk -> result A * desk) d :
  open_for_writing csv_writer body d =
    match body (at_yield csv_writer d) with
    | (Ok a, d2) =>
        (Ok a, Desk (set_handles (self d2) None None) (files d2) false)
    | (Raise e, d2) => (Raise e, Desk (self d2) (files d2) false)
    end.
Proof.
  unfold open_for_writing, writerow, at_yield. cbn [self _csv_dict_writer
    handle_open files set_handles filename].
  assert (forallb (fun kv => bool_decide (kv.1 ∈ fieldnames))
            (map_to_list (list_to_map (zip fieldnames fieldnames)
                          : gmap string string)) = true) as ->
    by (vm_compute; reflexivity).
  assert ((fun key => default ""
             ((list_to_map (zip fieldnames fieldnames) : gmap string string)
              !! key)) <$> fieldnames = fieldnames) as ->
    by (vm_compute; reflexivity).
  unfold append_line. rewrite lookup_insert_eq, insert_insert_eq. simpl.
  reflexivity.
Qed.

(** X15.  [add_entry] needs the write mode.  On a manager as it is
    constructed, and again once a [with self.open_for_writing()] block has
    returned, giving it an entry of class [AddUserInstructionEntry] raises
    [ValueError] ("No file opened") and leaves the files as they are.  An
    entry of another class is refused first, whether a file is open or
    not. *)
Theorem add_entry_needs_write_mode (e : entry) (d : desk) :
  (entry_class e <> AddUser ->
     exists message, add_entry csv_writer e d
                     = (Raise (ValueError (VStr message)), d)) /\
  (entry_class e = AddUser -> _current_file (self d) = None ->
     add_entry csv_writer e d = (Raise (ValueError (VStr "No file opened")), d))
  /\
  (entry_class e = AddUser ->
     forall A (body : desk -> result A * desk) (a : A),
       fst (open_for_writing csv_writer body d) = Ok a ->
       let after := snd (open_for_writing csv_writer body d) in
       add_entry csv_writer e after
       = (Raise (ValueError (VStr "No file opened")), after)).
Proof.
  split; [|split].
  - intros Hclass. unfold add_entry.
    rewrite bool_decide_eq_false_2 by exact Hclass. simpl. eauto.
  - intros Hclass Hnone. unfold add_entry.
    rewrite bool_decide_eq_true_2 by exact Hclass. simpl. rewrite Hnone.
    reflexivity.
  - intros Hclass A body a. rewrite open_for_writing_run.
    destruct (body (at_yield csv_writer d)) as [[a'|x] d2]; simpl; [|discriminate].
    intros _. unfold add_entry.
    rewrite bool_decide_eq_true_2 by exact Hclass. reflexivity.
Qed.

(** X16.  When the block of [open_for_writing] raises, the exception
    reaches the caller, and the manager keeps its handles on the file, which
    is closed: a later [add_entry], for a block that did not touch the
    manager, passes the "No file opened" check and fails on the closed
    file. *)
Theorem failed_block_leaves_stale_handles {A}
    (body : desk -> result A * desk) (d : desk) (x : exn)
    (cells : list string)
    (Hraises : fst (body (at_yield csv_writer d)) = Raise x)
    (Hself : self (snd (body (at_yield csv_writer d)))
             = self (at_yield csv_writer d))
    (Hcells : length cells = 6%nat) :
  let run := open_for_writing csv_writer body d in
  fst run = Raise x /\
  _current_file (self (snd run)) = Some (filename (self d)) /\
  handle_open (snd run) = false /\
  add_entry csv_writer (Entry AddUser (add_user_entry cells)) (snd run)
  = (Raise (ValueError (VStr "I/O operation on closed file.")), snd run).
Proof.
  rewrite open_for_writing_run.
  destruct (body (at_yield csv_writer d)) as [[a|x'] d2] eqn:E; simpl in *;
    [discriminate|]. injection Hraises as ->.
  split; [reflexivity|]. rewrite Hself. split; [reflexivity|].
  split; [reflexivity|].
  destruct (six_cells cells Hcells) as (c1 & c2 & c3 & c4 & c5 & c6 & ->).
  unfold add_entry, writerow. cbn [entry_class model_dump self
    _current_file _csv_dict_writer set_handles handle_open].
  assert (forallb (fun kv => bool_decide (kv.1 ∈ fieldnames))
            (map_to_list (cell_text <$> add_user_entry [c1; c2; c3; c4; c5; c6]))
          = true) as -> by (vm_compute; reflexivity).
  reflexivity.
Qed.

Context (csv_reader : list string -> list (list string)).

Lemma read_back_rows rows :
  Forall (fun cells => length cells = 6%nat) rows ->
  CsvManager.yield_rows (BaseModel AddUserInstructionEntry)
    (row_of fieldnames <$> rows)
  = Generator (add_user_entry <$> rows) None.
Proof.
  induction 1 as [|cells rows Hlen _ IH]; [reflexivity|].
  destruct (six_cells cells Hlen) as (c1 & c2 & c3 & c4 & c5 & c6 & ->).
  cbn [fmap list_fmap yield_rows].
  assert (BaseModel AddUserInstructionEntry
            (row_of fieldnames [c1; c2; c3; c4; c5; c6])
          = Ok (add_user_entry [c1; c2; c3; c4; c5; c6])) as ->
    by (vm_compute; reflexivity).
  change (list_fmap _ _ (row_of fieldnames) rows)
    with (row_of fieldnames <$> rows).
  rewrite IH. reflexivity.
Qed.

(** X17.  What is written is read back.  Entries of class
    [AddUserInstructionEntry], each with a text for its six fields, are
    added within [open_for_writing]; then the file holds the header and one
    line per entry, whatever it held before, and
    [yield_add_to_channel_instructions] yields these entries, in order, and
    ends normally.  The handles of the manager are reset, and its
    [total_instructions] is still the count made at construction.  This
    holds for every [csv.writer] whose lines [csv.reader] reads back as the
    records written. *)
Theorem written_entries_are_read_back (rows : list (list string)) (d : desk)
    (Hrows : Forall (fun cells => length cells = 6%nat) rows)
    (Hcsv : csv_reader (csv_writer <$> (fieldnames :: rows))
            = fieldnames :: rows) :
  let run := open_for_writing csv_writer
               (add_entries csv_writer (add_user_entries rows)) d in
  fst run = Ok tt /\
  files (snd run) !! filename (self d)
  = Some (csv_writer <$> (fieldnames :: rows)) /\
  yield_add_to_channel_instructions (files (snd run)) csv_reader
    (self (snd run))
  = Generator (add_user_entry <$> rows) None /\
  _current_file (self (snd run)) = None /\
  _csv_dict_writer (self (snd run)) = None /\
  total_instructions (self (snd run)) = total_instructions (self d).
Proof.
  rewrite open_for_writing_run.
  destruct (add_entries_writes rows (at_yield csv_writer d)
              (filename (self d))
              [csv_writer fieldnames] Hrows eq_refl eq_refl eq_refl)
    as (d2 & E & Hself & _ & Hlines).
  { simpl. apply lookup_insert_eq. }
  rewrite E. simpl in Hlines |- *. rewrite Hself. simpl.
  split; [reflexivity|]. split; [exact Hlines|].
  split; [|repeat split].
  unfold yield_add_to_channel_instructions, _read_entries. simpl.
  rewrite Hlines.
  change (csv_writer fieldnames :: (csv_writer <$> rows))
    with (csv_writer <$> (fieldnames :: rows)).
  rewrite Hcsv. unfold DictReader.
  assert (filter (fun r : list string => r <> []) rows = rows) as ->.
  { clear -Hrows. induction Hrows as [|cells rows Hlen _ IH]; [reflexivity|].
    rewrite filter_cons_True by (intros ->; discriminate). rewrite IH.
    reflexivity. }
  apply read_back_rows. exact Hrows.
Qed.

End WritingFacts.

Lemma failed_block_leaves_stale_handles_witness :
  CsvWriting.add_entry CsvWriting.join_commas
    (CsvWriting.Entry CsvWriting.AddUser
       (add_user_entry ["Engineering"; "T01"; "general"; "C01";
                        "erin@corp.example"; "U10"]))
    (snd (CsvWriting.open_for_writing CsvWriting.join_commas
            (CsvWriting.add_entry CsvWriting.join_commas Cases.photo_entry)
            Cases.memberships_desk))
  = (Raise (ValueError (VStr "I/O operation on closed file.")),
     snd (CsvWriting.open_for_writing CsvWriting.join_commas
            (CsvWriting.add_entry CsvWriting.join_commas Cases.photo_entry)
            Cases.memberships_desk)).
Proof.
  exact (proj2 (proj2 (proj2 (failed_block_leaves_stale_handles
           CsvWriting.join_commas
           (CsvWriting.add_entry CsvWriting.join_commas Cases.photo_entry)
           Cases.memberships_desk _
           ["Engineering"; "T01"; "general"; "C01"; "erin@corp.example"; "U10"]
           eq_refl eq_refl eq_refl)))).
Defined.

Lemma written_entries_are_read_back_witness :
  yield_add_to_channel_instructions
    (CsvWriting.files
       (snd (CsvWriting.open_for_writing CsvWriting.join_commas
               (CsvWriting.add_entries CsvWriting.join_commas
                  (add_user_entries Cases.memberships))
               Cases.memberships_desk)))
    plain_csv_reader
    (CsvWriting.self
       (snd (CsvWriting.open_for_writing CsvWriting.join_commas
               (CsvWriting.add_entries CsvWriting.join_commas
                  (add_user_entries Cases.memberships))
               Cases.memberships_desk)))
  = Generator (add_user_entry <$> Cases.memberships) None.
Proof.
  refine (proj1 (proj2 (proj2 (written_entries_are_read_back
            CsvWriting.join_commas plain_csv_reader Cases.memberships
            Cases.memberships_desk _ _)))).
  - repeat constructor.
  - vm_compute. reflexivity.
Defined.

(** ** The processor, beyond well-formed files *)

Section ProcessorMoreFacts.

Import SlackConnector UpdatePhoto.

Context (sdk : SlackSDK) (LOG_DEBOUNCING : bool).

(** The calls of one row: its search, then at most one patch of a photo. *)
Lemma process_entry_calls entry w :
  exists new,
    calls (snd (process_entry sdk LOG_DEBOUNCING entry w))
    = (calls w ++ new)%list /\
    forallb photo_traffic new = true /\ (length new <= 2)%nat.
Proof.
  set (announcement := LogRecord INFO
         [Lit "Working on "; Lit (attr entry "user_email")] None).
  pose proof (search_user_calls sdk LOG_DEBOUNCING (attr entry "user_email")
                (noted announcement w)) as Hc.
  unfold process_entry. run. fold announcement. fold (noted announcement w).
  destruct (search_user sdk LOG_DEBOUNCING (attr entry "user_email")
              (noted announcement w)) as [[user|e] w1]; simpl in Hc |- *.
  - destruct (found user); simpl.
    + destruct (subscript user "id") as [user_id|e]; simpl.
      * pose proof (update_photo_calls sdk LOG_DEBOUNCING user_id
                      (attr entry "photo_url") w1) as Hp.
        destruct (update_photo sdk LOG_DEBOUNCING user_id
                    (attr entry "photo_url") w1) as [[[]|e] w2];
          simpl in Hp |- *; rewrite Hp, Hc, <- app_assoc;
          (eexists; split; [reflexivity|]; split; [reflexivity | simpl; lia]).
      * rewrite Hc. eexists. split; [reflexivity|].
        split; [reflexivity | simpl; lia].
    + rewrite Hc. eexists. split; [reflexivity|].
      split; [reflexivity | simpl; lia].
  - destruct (is_ValueError e); simpl; rewrite Hc;
      (eexists; split; [reflexivity|]; split; [reflexivity | simpl; lia]).
Qed.

Lemma for_each_calls entries w :
  exists new,
    calls (snd (for_each entries (process_entry sdk LOG_DEBOUNCING) w))
    = (calls w ++ new)%list /\
    forallb photo_traffic new = true /\
    (length new <= 2 * length entries)%nat.
Proof.
  revert w. induction entries as [|entry rest IH]; intros w.
  - exists []. simpl. rewrite app_nil_r. repeat split. lia.
  - destruct (process_entry_attempts sdk LOG_DEBOUNCING entry w)
      as (o & w1 & E1 & _ & _).
    destruct (process_entry_calls entry w) as (new1 & Hc1 & Hf1 & Hl1).
    rewrite E1 in Hc1. simpl in Hc1.
    destruct (IH w1) as (new & Hc & Hf & Hl).
    exists (new1 ++ new)%list. simpl. run. rewrite E1.
    rewrite Hc, Hc1, <- app_assoc. split; [reflexivity|].
    rewrite forallb_app, Hf1, Hf, length_app. split; [reflexivity|].
    simpl. lia.
Qed.

Context (files : gmap string (list string))
        (csv_reader : list string -> list (list string)).

(** X18.  When the sequence of instructions ends with an exception (the
    file cannot be opened, or a row does not construct), the processor
    raises that exception, after it has attempted the rows yielded before,
    in order: what these attempts did stays done. *)
Theorem processor_stops_at_bad_row (instructions : CSVInstructionManager)
    (w : world) (e : exn)
    (Hraised : raised (yield_assign_photo_instructions files csv_reader
                         instructions) = Some e) :
  let entries := yielded (yield_assign_photo_instructions files csv_reader
                            instructions) in
  exists outcomes w',
    update_user_photo_processor sdk LOG_DEBOUNCING files csv_reader
      instructions w = (Raise e, w') /\
    batch sdk LOG_DEBOUNCING entries w outcomes w' /\
    searched (calls w') = (searched (calls w) ++ (filter_of <$> entries))%list.
Proof.
  intros entries.
  destruct (for_each_batch sdk LOG_DEBOUNCING entries w)
    as (outcomes & w' & E & Hb & Hs).
  exists outcomes, w'. split; [|split; [exact Hb | exact Hs]].
  unfold update_user_photo_processor, for_in. fold entries. run.
  rewrite E, Hraised. reflexivity.
Qed.

(** X19.  Whatever the file and the platform, every remote call the
    processor issues is a search of users or a patch of a photo: it creates
    nothing and changes no other attribute.  It issues at most two calls
    per row yielded. *)
Theorem processor_only_searches_and_patches_photos
    (instructions : CSVInstructionManager) (w : world) :
  let g := yield_assign_photo_instructions files csv_reader instructions in
  exists new,
    calls (snd (update_user_photo_processor sdk LOG_DEBOUNCING files csv_reader
                  instructions w))
    = (calls w ++ new)%list /\
    forallb photo_traffic new = true /\
    (length new <= 2 * length (yielded g))%nat.
Proof.
  intros g.
  destruct (for_each_calls (yielded g) w) as (new & Hc & Hf & Hl).
  destruct (for_each_batch sdk LOG_DEBOUNCING (yielded g) w)
    as (outcomes & w' & E & _ & _).
  rewrite E in Hc. simpl in Hc.
  exists new. split; [|split; [exact Hf | exact Hl]].
  unfold update_user_photo_processor, for_in. fold g. run. rewrite E.
  destruct (raised g); simpl; exact Hc.
Qed.

End ProcessorMoreFacts.

Lemma processor_stops_at_bad_row_witness :
  exists w',
    UpdatePhoto.update_user_photo_processor Scenarios.directory false
      Scenarios.disk plain_csv_reader
      (Scenarios.manager_of "instructions/short_row.csv" 3) (fresh 0)
    = (Raise (ValidationError [("photo_url", "string_type")]), w') /\
    searched (calls w') = ["email eq a@corp.example"].
Proof.
  destruct (processor_stops_at_bad_row Scenarios.directory false
              Scenarios.disk plain_csv_reader
              (Scenarios.manager_of "instructions/short_row.csv" 3) (fresh 0)
              (ValidationError [("photo_url", "string_type")])
              ltac:(vm_compute; reflexivity))
    as (outcomes & w' & E & _ & Hs).
  exists w'. split; [exact E | exact Hs].
Defined.

(** ** Photo instructions *)

Section EntryFacts.

(** X20.  An entry constructed as a photo instruction has exactly the two
    fields of the shape, and they hold the texts the row gives under
    ["user_email"] and ["photo_url"]: the email the processor searches and
    the photo it sends are those of the row. *)
Theorem photo_entry_holds_the_cells (d : row) (entry : dict)
    (Hentry : BaseModel AssignPhotoInstructionEntry d = Ok entry) :
  exists user_email photo_url,
    d !! Some "user_email" = Some (Text user_email) /\
    d !! Some "photo_url" = Some (Text photo_url) /\
    entry = <["user_email" := VStr user_email]>
              (<["photo_url" := VStr photo_url]> ∅) /\
    attr entry "user_email" = user_email /\
    attr entry "photo_url" = photo_url.
Proof.
  unfold BaseModel in Hentry. destruct (bool_decide _); [discriminate|].
  unfold AssignPhotoInstructionEntry, validate, validate_field, required
    in Hentry. cbn [field_name field_type is_required] in Hentry.
  destruct (d !! Some "user_email") as [[user_email| |]|];
    destruct (d !! Some "photo_url") as [[photo_url| |]|];
    try discriminate.
  injection Hentry as <-. exists user_email, photo_url.
  repeat split.
Qed.

End EntryFacts.

Lemma photo_entry_holds_the_cells_witness :
  exists user_email photo_url,
    row_of Scenarios.photo_header
      ["a@corp.example"; "https://img.example/a.png"] !! Some "user_email"
    = Some (Text user_email) /\
    row_of Scenarios.photo_header
      ["a@corp.example"; "https://img.example/a.png"] !! Some "photo_url"
    = Some (Text photo_url).
Proof.
  assert (BaseModel AssignPhotoInstructionEntry
            (row_of Scenarios.photo_header
               ["a@corp.example"; "https://img.example/a.png"])
          = Ok (<["user_email" := VStr "a@corp.example"]>
                  (<["photo_url" := VStr "https://img.example/a.png"]> ∅)))
    as Hentry by (vm_compute; reflexivity).
  destruct (photo_entry_holds_the_cells _ _ Hentry)
    as (user_email & photo_url & Hu & Hp & _).
  exists user_email, photo_url. split; [exact Hu | exact Hp].
Defined.

(** ** The commands *)

Section CommandFacts.

Import SlackConnector UpdatePhoto Main.

Context (sdk : SlackSDK) (LOG_DEBOUNCING : bool)
        (files : gmap string (list string))
        (csv_reader : list string -> list (list string)).

(** X21.  The command [update-user-photos].  Without a token it raises
    [ValueError] and nothing else happens.  With a token and without the
    file ["instructions/update_user_photos.csv"] it raises
    [FileNotFoundError] before any remote call.  With a token and a file
    whose rows all construct, it returns normally after one lookup per row,
    in file order. *)
Theorem change_user_emails_outcomes (SLACK_USER_TOKEN : option string)
    (w : world) :
  let path := "instructions/update_user_photos.csv" in
  let run := change_user_emails sdk LOG_DEBOUNCING files csv_reader
               SLACK_USER_TOKEN w in
  (if_str SLACK_USER_TOKEN = None ->
     run = (Raise (ValueError (VStr "Slack Api token is required! ")), w)) /\
  (if_str SLACK_USER_TOKEN <> None -> files !! path = None ->
     fst run = Raise (FileNotFoundError path) /\ calls (snd run) = calls w) /\
  (if_str SLACK_USER_TOKEN <> None ->
   forall instructions,
     CsvManager.__init__ files path = Ok instructions ->
     raised (yield_assign_photo_instructions files csv_reader instructions)
     = None ->
     fst run = Ok tt /\
     searched (calls (snd run))
     = (searched (calls w)
        ++ (filter_of <$> yielded (yield_assign_photo_instructions files
                                     csv_reader instructions)))%list).
Proof.
  cbv zeta. unfold change_user_emails, ScimOperations.__init__.
  destruct (if_str SLACK_USER_TOKEN) as [token|] eqn:Htoken.
  - split; [discriminate|]. split.
    + intros _ Hnone. run. unfold CsvManager.__init__. rewrite Hnone.
      simpl. split; reflexivity.
    + intros _ instructions Hinit Hraised. run. rewrite Hinit.
      set (w0 := World (clock w) ∅ (sleeps w) (logged w) (calls w)).
      set (g := yield_assign_photo_instructions files csv_reader instructions)
        in *.
      destruct (for_each_batch sdk LOG_DEBOUNCING (yielded g) w0)
        as (outcomes & w' & E & _ & Hs).
      assert (update_user_photo_processor sdk LOG_DEBOUNCING files csv_reader
                instructions w0 = (Ok tt, w')) as ->.
      { unfold update_user_photo_processor, for_in. fold g. run.
        rewrite E, Hraised. reflexivity. }
      simpl. split; [reflexivity | exact Hs].
  - split; [intros _; reflexivity|]. split; intros H; congruence.
Qed.

(** X22.  The command [test] returns normally whether or not the
    instruction file is there: a file that is missing only changes the level
    of the record logged for it.  It sleeps once, for 5 seconds, issues no
    remote call and logs three records. *)
Theorem container_test_always_returns (w : world) :
  let run := container_test files w in
  let path := "instructions/update_user_photos.csv" in
  fst run = Ok tt /\
  sleeps (snd run) = (sleeps w ++ [5%Q])%list /\
  calls (snd run) = calls w /\
  exists about_file started finished,
    logged (snd run) = (logged w ++ [about_file; started; finished])%list /\
    levelname about_file
    = (if decide (is_Some (files !! path)) then INFO else ERROR) /\
    levelname started = INFO /\ levelname finished = INFO.
Proof.
  unfold container_test, selftest, check_file. run.
  destruct (files !! "instructions/update_user_photos.csv") as [file|] eqn:E;
    simpl; (split; [reflexivity|]; split; [reflexivity|];
            split; [reflexivity|]).
  - eexists _, _, _. rewrite <- !app_assoc. simpl.
    split; [reflexivity|].
    destruct (decide (is_Some (Some file))) as [_|H];
      [repeat split | exfalso; apply H; eauto].
  - eexists _, _, _. rewrite <- !app_assoc. simpl.
    split; [reflexivity|].
    destruct (decide (is_Some (None : option (list string)))) as [[x H]|_];
      [discriminate | repeat split].
Qed.

End CommandFacts.

(** The command on the three rows of [photos]. *)
Example change_user_emails_on_three_rows :
  let run := Main.change_user_emails Scenarios.directory false Scenarios.disk
               plain_csv_reader (Some "xoxp-token") Scenarios.just_patched in
  fst run = Ok tt /\ length (calls (snd run)) = 5%nat /\
  size (_debounce_data (snd run)) = 2%nat.
Proof. vm_compute. repeat split; reflexivity. Qed.

(** ** Creating users, the failures that are reported *)

Section CreationMoreFacts.

Import SlackConnector.

Context (sdk : SlackSDK) (LOG_DEBOUNCING : bool).

(** X23.  When the platform answers the creation of a user with a status
    other than 201, 400 and 409, [upload_new_single_user] logs the failure,
    with the exception, and raises [UnknownSlackUserCreationError] with the
    body of the answer; it has issued one creation call and does not try
    again. *)
Theorem upload_reraises_unknown_status (user : User) (w : world)
    (response : UserCreateResponse)
    (Hreply : scim_create_user sdk (calls w) (first_payload user)
              = Ok response)
    (Hstatus : create_status_code response <> 201 /\
               create_status_code response <> 400 /\
               create_status_code response <> 409) :
  let failure := UnknownSlackUserCreationError (create_body response) in
  exists w1 report,
    upload_new_single_user sdk LOG_DEBOUNCING user w
    = (Raise failure, noted report w1) /\
    levelname report = ERROR /\ exc_info report = Some failure /\
    calls w1 = (calls w ++ [CreateUser (first_payload user)])%list.
Proof.
  destruct Hstatus as (H201 & H400 & H409).
  destruct (create_slack_user_run sdk LOG_DEBOUNCING (first_payload user) w)
    as (w0 & _ & Hc & E).
  rewrite Hreply in E.
  apply Z.eqb_neq in H201, H400, H409. rewrite H201, H400, H409 in E.
  simpl in E.
  exists (issued (CreateUser (first_payload user)) w0).
  eexists (LogRecord ERROR _ (Some _)).
  unfold upload_new_single_user. fold (first_payload user). run. rewrite E.
  simpl. split; [reflexivity|]. split; [reflexivity|].
  split; [reflexivity|]. rewrite Hc. reflexivity.
Qed.

(** X24.  When the platform refuses the first creation with status 400 or
    409 for its username (invalid, too long or taken) and accepts the second
    with status 201, [upload_new_single_user] returns the id of the second
    answer.  It has issued two creation calls, the second with the local
    part of the email, stripped, as username, and has logged a warning and
    then the success. *)
Theorem upload_retries_with_local_part (user : User) (w : world)
    (refusal acceptance : UserCreateResponse) (reason : string) (id : value)
    (Hfirst : scim_create_user sdk (calls w) (first_payload user) = Ok refusal)
    (Hstatus : create_status_code refusal = 400
               \/ create_status_code refusal = 409)
    (Hreason : create_errors_description refusal = Some reason)
    (Hbad : split_head " " reason ∈ bad_username_errors)
    (Hsecond : scim_create_user sdk
                 (calls w ++ [CreateUser (first_payload user)])
                 (retry_payload user) = Ok acceptance)
    (Hcreated : create_status_code acceptance = 201)
    (Hid : create_body acceptance !! "id" = Some id) :
  let run := upload_new_single_user sdk LOG_DEBOUNCING user w in
  fst run = Ok id /\
  calls (snd run) = (calls w ++ [CreateUser (first_payload user);
                                 CreateUser (retry_payload user)])%list /\
  userName (retry_payload user) = strip (split_head "@" (email user)) /\
  exists before warning success,
    logged (snd run) = (before ++ [success])%list /\
    warning ∈ before /\ levelname warning = WARNING /\
    levelname success = INFO.
Proof.
  destruct (create_slack_user_run sdk LOG_DEBOUNCING (first_payload user) w)
    as (w0 & _ & Hc0 & E1).
  rewrite Hfirst, Hreason in E1.
  assert ((create_status_code refusal =? 201) = false) as H201
    by (apply Z.eqb_neq; lia).
  assert (((create_status_code refusal =? 400)
           || (create_status_code refusal =? 409)) = true) as Hor.
  { apply orb_true_iff. rewrite !Z.eqb_eq. exact Hstatus. }
  rewrite H201, Hor, bool_decide_eq_true_2 in E1 by exact Hbad.
  destruct (upload_retries_once sdk LOG_DEBOUNCING user w _ _ E1)
    as (warning & r2 & w2 & E2 & Hlevel & Hname & Hcalls & Hrun).
  destruct (create_slack_user_run sdk LOG_DEBOUNCING (retry_payload user)
              (noted warning (issued (CreateUser (first_payload user)) w0)))
    as (w2' & Ed & _ & E2').
  rewrite E2 in E2'. simpl in E2'. rewrite Hc0, Hsecond, Hcreated in E2'.
  simpl in E2'. unfold getitem in E2'. rewrite Hid in E2'.
  injection E2' as -> ->.
  destruct Hrun as (success & Hrun & Hinfo & _). rewrite Hrun. simpl.
  split; [reflexivity|]. split; [exact Hcalls|]. split; [exact Hname|].
  exists (logged w2'), warning, success.
  split; [reflexivity|]. split; [|split; [exact Hlevel | exact Hinfo]].
  set (v := noted warning (issued (CreateUser (first_payload user)) w0)) in *.
  assert (warning ∈ logged v) as Hin
    by (simpl; apply elem_of_app; right; left).
  destruct (_debounce_data v !! "create_user") as [last|] eqn:El.
  - assert (20 <> 0) as Hrate by lia.
    destruct (Qlt_le_dec (clock v - last) (60 / inject_Z 20)) as [Hlt|Hge].
    + rewrite (debounce_within _ _ _ _ _ El Hrate Hlt) in Ed.
      injection Ed as <-. simpl. apply elem_of_app. left. exact Hin.
    + rewrite (debounce_after _ _ _ _ _ El Hrate Hge) in Ed.
      injection Ed as <-. exact Hin.
  - rewrite (debounce_first _ _ _ _ El) in Ed. injection Ed as <-. exact Hin.
Qed.

End CreationMoreFacts.

Lemma upload_reraises_unknown_status_witness :
  fst (SlackConnector.upload_new_single_user Cases.failing_creation false
         Scenarios.dana (fresh 0))
  = Raise (UnknownSlackUserCreationError
             (<["detail" := VStr "internal_error"]> ∅)).
Proof.
  destruct (upload_reraises_unknown_status Cases.failing_creation false
              Scenarios.dana (fresh 0) _ eq_refl
              ltac:(simpl; repeat split; lia))
    as (w1 & report & E & _).
  rewrite E. reflexivity.
Defined.

Lemma upload_retries_with_local_part_witness :
  fst (SlackConnector.upload_new_single_user Scenarios.long_name_then_fine
         false Scenarios.dana (fresh 0)) = Ok (VStr "U07").
Proof.
  refine (proj1 (upload_retries_with_local_part Scenarios.long_name_then_fine
            false Scenarios.dana (fresh 0) _ _ "username_too_long (max 21)"
            (VStr "U07") eq_refl (or_introl eq_refl) eq_refl _ eq_refl eq_refl
            eq_refl)).
  vm_compute. set_solver.
Defined.

(** ** The photo update as the platform sees it *)

Section ProcessorRows.

Import SlackConnector UpdatePhoto.

Context (sdk : SlackSDK) (LOG_DEBOUNCING : bool).

(** With a rate limit other than zero the debounce step returns; it issues
    no call and logs records of level INFO only. *)
Lemma debounce_effects k r w :
  r <> 0 ->
  exists w' added,
    _debounce LOG_DEBOUNCING k r w = (Ok tt, w') /\
    calls w' = calls w /\
    logged w' = (logged w ++ added)%list /\ informative added.
Proof.
  intros Hr. destruct (_debounce_data w !! k) as [last|] eqn:E.
  - destruct (Qlt_le_dec (clock w - last) (60 / inject_Z r)) as [Hlt|Hge].
    + eexists _, _.
      split; [apply (debounce_within LOG_DEBOUNCING k r w last E Hr Hlt)|].
      simpl. split; [reflexivity|]. split; [reflexivity|].
      unfold informative, sleep_notice.
      destruct LOG_DEBOUNCING; repeat constructor.
    + eexists _, [].
      split; [apply (debounce_after LOG_DEBOUNCING k r w last E Hr Hge)|].
      simpl. rewrite app_nil_r. repeat split. constructor.
  - eexists _, []. split; [apply (debounce_first LOG_DEBOUNCING k r w E)|].
    simpl. rewrite app_nil_r. repeat split. constructor.
Qed.

(** The lookup of a row: one call, the search of the row; records of level
    INFO only; the result is what the answer of the platform gives. *)
Lemma lookup_effects entry w :
  exists w1 added,
    snd (lookup sdk LOG_DEBOUNCING entry w) = issued (search_of entry) w1 /\
    calls w1 = calls w /\
    logged w1 = (logged w ++ added)%list /\ informative added /\
    search_ends sdk (calls w) entry (fst (lookup sdk LOG_DEBOUNCING entry w)).
Proof.
  destruct (search_user_run sdk LOG_DEBOUNCING (attr entry "user_email") w)
    as (w1 & Ed & Hc & Es).
  destruct (debounce_effects "scim_search_users" 20 w)
    as (w1' & added & Ed' & _ & Hl & Hi); [lia|].
  rewrite Ed in Ed'. injection Ed' as <-.
  exists w1, added. unfold lookup. rewrite Es. simpl.
  split; [reflexivity|]. split; [exact Hc|]. split; [exact Hl|].
  split; [exact Hi|].
  fold (filter_of entry).
  destruct (scim_search_users sdk (calls w) 10 0 (filter_of entry))
    as [response|e] eqn:Ea; [|apply search_raises; exact Ea].
  destruct (search_status_code response =? 200) eqn:Hs; simpl.
  - apply Z.eqb_eq in Hs.
    destruct (matching response) as [|user [|other others]] eqn:Hm.
    + eapply search_none; eassumption.
    + eapply search_one; eassumption.
    + eapply search_many; [eassumption | exact Hs |].
      rewrite Hm. simpl. lia.
  - apply Z.eqb_neq in Hs. eapply search_bad_status; eassumption.
Qed.

(** The patch of the photo of a row: one call; records of level INFO only;
    the result is what the answer of the platform gives. *)
Lemma update_photo_effects entry id w :
  exists w1 added,
    snd (update_photo sdk LOG_DEBOUNCING id (attr entry "photo_url") w)
    = issued (patch_of entry id) w1 /\
    calls w1 = calls w /\
    logged w1 = (logged w ++ added)%list /\ informative added /\
    patch_ends sdk (calls w) entry id
      (fst (update_photo sdk LOG_DEBOUNCING id (attr entry "photo_url") w)).
Proof.
  destruct (update_photo_run sdk LOG_DEBOUNCING id (attr entry "photo_url") w)
    as (w1 & Ed & Eu).
  destruct (debounce_effects "patch_user" 20 w)
    as (w1' & added & Ed' & Hc & Hl & Hi); [lia|].
  rewrite Ed in Ed'. injection Ed' as <-.
  exists w1, added. rewrite Eu. simpl.
  split; [reflexivity|]. split; [exact Hc|]. split; [exact Hl|].
  split; [exact Hi|].
  destruct (scim_patch_user sdk (calls w) id (Photos [attr entry "photo_url"]))
    as [response|e] eqn:Ea; [|apply patch_raises; exact Ea].
  destruct (patch_status_code response =? 200) eqn:Hs.
  - apply Z.eqb_eq in Hs. eapply patch_accepted; eassumption.
  - apply Z.eqb_neq in Hs.
    destruct (patch_body_Errors response) as [errors|] eqn:He.
    + eapply patch_refused; eassumption.
    + eapply patch_refused_bare; eassumption.
Qed.

(** An attempt on a row is one as the platform sees it. *)
Lemma attempt_row entry w o w' :
  attempt sdk LOG_DEBOUNCING entry w o w' -> row_attempted sdk entry w o w'.
Proof.
  intros H.
  destruct H as [ann e w1 report Hann Hl Hlev Hexc
                |ann user w1 report Hann Hl Hf Hlev Hexc
                |ann user w1 e w2 report Hann Hl Hf Hm Hlev Hexc
                |ann user w1 w2 Hann Hl Hf Hm];
    destruct (lookup_effects entry (noted ann w))
      as (w0 & a1 & Hw & Hc & Hlog & Hi & Hs);
    rewrite Hl in Hw, Hs; simpl in Hw, Hs, Hc, Hlog; subst w1.
  - apply row_lookup_failed; [exact Hs | simpl; rewrite Hc; reflexivity |].
    exists (ann :: a1), report. simpl. rewrite Hlog, <- !app_assoc.
    split; [reflexivity|]. split; [constructor; assumption|].
    split; assumption.
  - apply (row_not_found sdk entry w user);
      [exact Hs | exact Hf | simpl; rewrite Hc; reflexivity |].
    exists (ann :: a1), report. simpl. rewrite Hlog, <- !app_assoc.
    split; [reflexivity|]. split; [constructor; assumption|].
    split; assumption.
  - revert Hm. unfold mutation. run.
    destruct (subscript user "id") as [id|e'] eqn:Hid.
    + intros Hm.
      destruct (update_photo_effects entry id (issued (search_of entry) w0))
        as (w3 & a2 & Hw2 & Hc2 & Hlog2 & Hi2 & Hp).
      rewrite Hm in Hw2, Hp. simpl in Hw2, Hp, Hc2, Hlog2. subst w2.
      rewrite Hc in Hp, Hc2.
      apply (row_refused sdk entry w user id);
        [exact Hs | exact Hf | exact Hid | exact Hp
        | simpl; rewrite Hc2, <- app_assoc; reflexivity |].
      exists (ann :: a1 ++ a2)%list, report. simpl.
      rewrite Hlog2, Hlog, <- !app_assoc.
      split; [reflexivity|].
      split; [constructor; [assumption | apply Forall_app; split; assumption]|].
      split; assumption.
    + intros [= <- <-].
      apply (row_without_id sdk entry w user);
        [exact Hs | exact Hf | exact Hid | simpl; rewrite Hc; reflexivity |].
      exists (ann :: a1), report. simpl. rewrite Hlog, <- !app_assoc.
      split; [reflexivity|]. split; [constructor; assumption|].
      split; assumption.
  - revert Hm. unfold mutation. run.
    destruct (subscript user "id") as [id|e'] eqn:Hid; [|discriminate].
    intros Hm.
    destruct (update_photo_effects entry id (issued (search_of entry) w0))
      as (w3 & a2 & Hw2 & Hc2 & Hlog2 & Hi2 & Hp).
    rewrite Hm in Hw2, Hp. simpl in Hw2, Hp, Hc2, Hlog2. subst w2.
    rewrite Hc in Hp, Hc2.
    apply (row_mutated sdk entry w user id);
      [exact Hs | exact Hf | exact Hid | exact Hp
      | simpl; rewrite Hc2, <- app_assoc; reflexivity |].
    exists (ann :: a1 ++ a2)%list. simpl.
    rewrite Hlog2, Hlog, <- !app_assoc.
    split; [reflexivity|].
    constructor; [assumption | apply Forall_app; split; assumption].
Qed.

Lemma batch_rows entries w os w' :
  batch sdk LOG_DEBOUNCING entries w os w' -> rows_attempted sdk entries w os w'.
Proof.
  induction 1 as [w|entry rest w o w1 os w' Ha _ IH]; [constructor|].
  econstructor; [apply attempt_row; exact Ha | exact IH].
Qed.

(** The answers of the platform leave one way for a lookup and for a
    mutation to end, hence one outcome for a row, and one list of outcomes
    for a file. *)
Lemma search_ends_functional h entry r r' :
  search_ends sdk h entry r -> search_ends sdk h entry r' -> r = r'.
Proof.
  intros H H'.
  destruct H as [e E|response E Hs|response E Hs Hm|response user E Hs Hm
                |response E Hs Hm];
    destruct H' as [e' E'|response' E' Hs'|response' E' Hs' Hm'
                   |response' user' E' Hs' Hm'|response' E' Hs' Hm'];
    rewrite E in E'; try discriminate; injection E' as <-;
    try reflexivity; try contradiction;
    try (rewrite Hm in Hm'; simpl in Hm'; first [lia | congruence]);
    try (rewrite Hm' in Hm; simpl in Hm; first [lia | congruence]).
Qed.

Lemma patch_ends_functional h entry id r r' :
  patch_ends sdk h entry id r -> patch_ends sdk h entry id r' -> r = r'.
Proof.
  intros H H'.
  destruct H as [response E Hs|e E|response errors E Hs He|response E Hs He];
    destruct H' as [response' E' Hs'|e' E'|response' errors' E' Hs' He'
                   |response' E' Hs' He'];
    rewrite E in E'; try discriminate; injection E' as <-;
    try reflexivity; try contradiction; congruence.
Qed.

Lemma row_attempted_functional entry w o w1 v o' v1 :
  row_attempted sdk entry w o w1 -> row_attempted sdk entry v o' v1 ->
  calls w = calls v -> o = o' /\ calls w1 = calls v1.
Proof.
  intros H H' Hc.
  destruct H as [e w1 Hs Hc1 _|user w1 Hs Hf Hc1 _|user e w1 Hs Hf Hid Hc1 _
                |user id e w1 Hs Hf Hid Hp Hc1 _|user id w1 Hs Hf Hid Hp Hc1 _];
    destruct H' as [e' v1 Hs' Hc1' _|user' v1 Hs' Hf' Hc1' _
                   |user' e' v1 Hs' Hf' Hid' Hc1' _
                   |user' id' e' v1 Hs' Hf' Hid' Hp' Hc1' _
                   |user' id' v1 Hs' Hf' Hid' Hp' Hc1' _];
    rewrite <- Hc in Hs', Hc1';
    pose proof (search_ends_functional _ _ _ _ Hs Hs') as Heq;
    try discriminate; injection Heq as <-;
    try congruence;
    try (rewrite Hid in Hid'; try discriminate; injection Hid' as <-);
    try (rewrite <- Hc in Hp';
         pose proof (patch_ends_functional _ _ _ _ _ Hp Hp') as Heq;
         try discriminate; try injection Heq as <-);
    split; congruence.
Qed.

Lemma rows_attempted_functional entries w os w' v os' v' :
  rows_attempted sdk entries w os w' -> rows_attempted sdk entries v os' v' ->
  calls w = calls v -> os = os'.
Proof.
  intros H. revert v os' v'.
  induction H as [w|entry rest w o w1 os w' Ha _ IH]; intros v os' v' H' Hc;
    inversion H' as [|entry' rest' v0 o' v1 os1 v2 Ha' Hr']; subst;
    [reflexivity|].
  destruct (row_attempted_functional _ _ _ _ _ _ _ Ha Ha' Hc) as [<- Hc1].
  f_equal. exact (IH _ _ _ Hr' Hc1).
Qed.

Context (files : gmap string (list string))
        (csv_reader : list string -> list (list string)).

(** C4, for the files it holds of.  Take an instruction file whose rows all
    construct as photo instructions.  The processor returns normally, and
    it attempts every row, in file order, whatever the outcome of the rows
    before: there is one outcome per row, and these outcomes are the ones
    the answers of the platform determine.  For each row the platform
    receives the search of the row, then the patch of its photo when the
    search finds a user with an id, and nothing else.  The row is mutated
    when the platform accepts the patch.  A row whose lookup raises is
    logged with the exception and skipped, a row whose user is not found is
    logged and skipped, a row whose mutation raises is logged with the
    exception and skipped. *)
Theorem update_user_photo_processor_completes
    (instructions : CSVInstructionManager) (w : world)
    (Hrows : raised (yield_assign_photo_instructions files csv_reader
                       instructions) = None) :
  let entries := yielded (yield_assign_photo_instructions files csv_reader
                            instructions) in
  exists outcomes w',
    update_user_photo_processor sdk LOG_DEBOUNCING files csv_reader
      instructions w = (Ok tt, w') /\
    rows_attempted sdk entries w outcomes w' /\
    (forall others v', rows_attempted sdk entries w others v' ->
                       others = outcomes) /\
    batch sdk LOG_DEBOUNCING entries w outcomes w' /\
    length outcomes = length entries /\
    searched (calls w') = (searched (calls w) ++ (filter_of <$> entries))%list.
Proof.
  intros entries.
  destruct (for_each_batch sdk LOG_DEBOUNCING entries w)
    as (outcomes & w' & E & Hb & Hs).
  pose proof (batch_rows _ _ _ _ Hb) as Hr.
  exists outcomes, w'.
  split; [|split; [exact Hr|split; [|split; [exact Hb|split; [|exact Hs]]]]].
  - unfold update_user_photo_processor, for_in. fold entries. run.
    rewrite E, Hrows. reflexivity.
  - intros others v' Ho.
    exact (rows_attempted_functional _ _ _ _ _ _ _ Ho Hr eq_refl).
  - clear -Hb. induction Hb; simpl; congruence.
Qed.

End ProcessorRows.

(** C4 on the three rows of [photos], against [directory]: the processor
    returns normally, a@ is mutated, b@ is not found, the mutation of c@
    fails. *)
Lemma update_user_photo_processor_completes_witness :
  exists (outcomes : list outcome) w',
    UpdatePhoto.update_user_photo_processor Scenarios.directory false
      Scenarios.disk plain_csv_reader
      (Scenarios.manager_of "instructions/update_user_photos.csv" 3) (fresh 0)
    = (Ok tt, w') /\
    outcomes = [Mutated; NotFound;
                MutationFailed (ValueError (VStr "invalid_photo"))].
Proof.
  destruct (update_user_photo_processor_completes Scenarios.directory false
              Scenarios.disk plain_csv_reader
              (Scenarios.manager_of "instructions/update_user_photos.csv" 3)
              (fresh 0) ltac:(vm_compute; reflexivity))
    as (outcomes & w' & E & _ & Hunique & _).
  exists outcomes, w'. split; [exact E|]. symmetry.
  set (a := <["user_email" := VStr "a@corp.example"]>
              (<["photo_url" := VStr "https://img.example/a.png"]> ∅) : dict).
  set (b := <["user_email" := VStr "b@corp.example"]>
              (<["photo_url" := VStr "https://img.example/b.png"]> ∅) : dict).
  set (c := <["user_email" := VStr "c@corp.example"]>
              (<["photo_url" := VStr "https://img.example/c.png"]> ∅) : dict).
  set (report := LogRecord ERROR [] None).
  set (failure := LogRecord ERROR []
                    (Some (ValueError (VStr "invalid_photo")))).
  set (w1 := World 0 ∅ [] []
               [search_of a; patch_of a (VStr "UA")]).
  set (w2 := World 0 ∅ [] [report]
               [search_of a; patch_of a (VStr "UA"); search_of b]).
  set (w3 := World 0 ∅ [] [report; failure]
               [search_of a; patch_of a (VStr "UA"); search_of b;
                search_of c; patch_of c (VStr "UC")]).
  apply (Hunique _ w3).
  change (yielded _) with [a; b; c].
  apply (rows_next _ a _ (fresh 0) Mutated w1).
  { apply (row_mutated _ a (fresh 0) (Some (Scenarios.user_with_id "UA"))
             (VStr "UA")).
    - eapply search_one; reflexivity.
    - reflexivity.
    - reflexivity.
    - eapply patch_accepted; reflexivity.
    - reflexivity.
    - exists []. split; [reflexivity | constructor]. }
  apply (rows_next _ b _ w1 NotFound w2).
  { apply (row_not_found _ b w1 None).
    - eapply search_none; reflexivity.
    - reflexivity.
    - reflexivity.
    - exists [], report. repeat split. constructor. }
  apply (rows_next _ c _ w2 _ w3).
  { apply (row_refused _ c w2 (Some (Scenarios.user_with_id "UC")) (VStr "UC")).
    - eapply search_one; reflexivity.
    - reflexivity.
    - reflexivity.
    - eapply patch_refused; [reflexivity | discriminate | reflexivity].
    - reflexivity.
    - exists [], failure. repeat split. constructor. }
  apply rows_done.
Defined.

(** C4 as stated fails.  The file [short_row] has three rows, for a@, b@
    and c@, and its second row has no photo.  The processor attempts the
    row of a@, then raises the validation error of the second row: it does
    not complete normally, and the row of c@ is never attempted. *)
Lemma update_user_photo_processor_stops_at_short_row :
  let run := UpdatePhoto.update_user_photo_processor Scenarios.directory false
               Scenarios.disk plain_csv_reader
               (Scenarios.manager_of "instructions/short_row.csv" 3)
               (fresh 0) in
  Scenarios.disk !! "instructions/short_row.csv"
  = Some ["user_email,photo_url";
          "a@corp.example,https://img.example/a.png";
          "b@corp.example";
          "c@corp.example,https://img.example/c.png"] /\
  fst run = Raise (ValidationError [("photo_url", "string_type")]) /\
  fst run <> Ok tt /\
  calls (snd run)
  = [SearchUsers 10 0 "email eq a@corp.example";
     PatchUser (VStr "UA") (Photos ["https://img.example/a.png"])] /\
  ~ In "email eq c@corp.example" (searched (calls (snd run))).
Proof.
  vm_compute. repeat split; try reflexivity; try discriminate.
  intros [H|[]]. discriminate.
Qed.
